(** * PrintPilot PDF API: the request handlers and their external tools

    The service (src/server.js, src/railway-api/server.js and a third
    copy of the server, src/unnamed/part_000) is an Express application
    whose handlers store the uploaded files in a per-job directory, build
    shell command lines for Ghostscript, ImageMagick, qpdf and pdftk, run
    them with [execSync] inside nested try/catch blocks and send back the
    file the tools left in [output.pdf].

    The embedding follows the code:
    - [JS]: the pieces of the JavaScript runtime the handlers use
      (numbers, [parseFloat], [||], [Math.round], number-to-string
      conversion in template literals, [trim]);
    - [Prog]: a handler is a tree of effects ([fs], [execSync],
      [console]); exceptions and try/catch are part of the tree;
    - [World]: what answers the effects.  [run] executes a handler in any
      world and records the trace; [disk_world] is an in-memory file
      system whose external tools are an arbitrary oracle;
    - [ServerJs], [RailwayApi], [Part000]: the handlers of the three
      files, statement by statement.

    The properties come after the definitions: what a run leaves in its
    trace ([post], [always], the logs of try/catch blocks), the cascade
    of the merge handlers, and last the statements C1 to C10 of the
    specification, each checked against the handlers. *)

From Stdlib Require Import ZArith Ascii String SpecFloat List DecimalString Lia.
From Stdlib.Strings Require Import Byte.
From stdpp Require Import gmap strings.

Set Default Proof Using "Type".

(** ** The JavaScript runtime

    Numbers are IEEE 754 binary64 values ([spec_float] with a 53-bit
    mantissa), strings are sequences of UTF-8 bytes. *)
Module JS.

Definition number := spec_float.

Definition prec : Z := 53.
Definition emax : Z := 1024.

Definition NaN : number := S754_nan.
Definition Infinity (neg : bool) : number := S754_infinity neg.
Definition of_Z (z : Z) : number := binary_normalize prec emax z 0 false.

Definition of_decimal (neg : bool) (m : N) (e : Z) : number :=
  match m with
  | N0 => S754_zero neg
  | Npos p =>
      if (0 <=? e)%Z
      then binary_normalize prec emax
             ((if neg then Z.neg else Z.pos) (p * Z.to_pos (10 ^ e))%positive) 0 false
      else SFdiv prec emax (S754_finite neg p 0)
             (S754_finite false (Z.to_pos (10 ^ (- e))) 0)
  end.

Definition ToBoolean (x : number) : bool :=
  match x with
  | S754_nan | S754_zero _ => false
  | _ => true
  end.

Definition or_default (x d : number) : number := if ToBoolean x then x else d.

(** Strings are sequences of UTF-8 bytes. *)
Definition code_units (l : list nat) : string :=
  fold_right (fun n s => String (ascii_of_nat n) s) EmptyString l.

Fixpoint strip_prefix (p s : string) : option string :=
  match p, s with
  | EmptyString, _ => Some s
  | String a p', String b s' => if Ascii.eqb a b then strip_prefix p' s' else None
  | String _ _, EmptyString => None
  end.

(* WhiteSpace and LineTerminator code points, in UTF-8 *)
Definition StrWhiteSpaceChar : list string :=
  map code_units
    [ [9]; [10]; [11]; [12]; [13]; [32]; [194; 160]; [225; 154; 128];
      [226; 128; 128]; [226; 128; 129]; [226; 128; 130]; [226; 128; 131];
      [226; 128; 132]; [226; 128; 133]; [226; 128; 134]; [226; 128; 135];
      [226; 128; 136]; [226; 128; 137]; [226; 128; 138]; [226; 128; 168];
      [226; 128; 169]; [226; 128; 175]; [226; 129; 159]; [227; 128; 128];
      [239; 187; 191] ]%nat.

Fixpoint strip_first (ps : list string) (s : string) : option string :=
  match ps with
  | [] => None
  | p :: ps' => match strip_prefix p s with Some r => Some r | None => strip_first ps' s end
  end.

Fixpoint trimStart_fuel (fuel : nat) (s : string) : string :=
  match fuel with
  | O => s
  | S fuel' =>
      match strip_first StrWhiteSpaceChar s with
      | Some r => trimStart_fuel fuel' r
      | None => s
      end
  end.

Definition trimStart (s : string) : string := trimStart_fuel (String.length s) s.

Definition digit_value (c : ascii) : option N :=
  let n := N_of_ascii c in
  if ((48 <=? n) && (n <=? 57))%N then Some (n - 48)%N else None.

(* reads DecimalDigits: accumulated value, number of digits read, rest *)
Fixpoint read_digits (s : string) (acc : N) (count : nat) : N * nat * string :=
  match s with
  | String c s' =>
      match digit_value c with
      | Some d => read_digits s' (10 * acc + d)%N (S count)
      | None => (acc, count, s)
      end
  | EmptyString => (acc, count, s)
  end.

(* ExponentPart, taken only when at least one digit follows the indicator *)
Definition read_exponent (s : string) : Z :=
  match s with
  | String c r =>
      if (Ascii.eqb c "e" || Ascii.eqb c "E")%bool then
        let '(neg, r') :=
          match r with
          | String "-" t => (true, t)
          | String "+" t => (false, t)
          | _ => (false, r)
          end in
        let '(v, n, _) := read_digits r' 0%N 0%nat in
        match n with
        | O => 0%Z
        | _ => if neg then (- Z.of_N v)%Z else Z.of_N v
        end
      else 0%Z
  | EmptyString => 0%Z
  end.

(* the longest prefix that is a StrUnsignedDecimalLiteral *)
Definition parse_unsigned (neg : bool) (s : string) : number :=
  match strip_prefix "Infinity" s with
  | Some _ => Infinity neg
  | None =>
      let '(m1, n1, r1) := read_digits s 0%N 0%nat in
      let '(m2, n2, r2) :=
        match r1 with
        | String "." r => read_digits r m1 0%nat
        | _ => (m1, 0%nat, r1)
        end in
      match (n1 + n2)%nat with
      | O => NaN
      | _ => of_decimal neg m2 (read_exponent r2 - Z.of_nat n2)
      end
  end.

Definition parseFloat_string (s : string) : number :=
  match trimStart s with
  | String "-" r => parse_unsigned true r
  | String "+" r => parse_unsigned false r
  | r => parse_unsigned false r
  end.

(* parseFloat(undefined) converts its argument to the string "undefined" *)
Definition parseFloat (v : option string) : number :=
  match v with
  | Some s => parseFloat_string s
  | None => parseFloat_string "undefined"
  end.

(** Number::toString *)
Definition value_ratio (m : positive) (e : Z) : Z * Z :=
  if (0 <=? e)%Z then (Z.pos m * 2 ^ e, 1)%Z else (Z.pos m, 2 ^ (- e))%Z.

(* floor (num/den / 10^p) *)
Definition floor_scaled (num den p : Z) : Z :=
  if (0 <=? p)%Z then (num / (den * 10 ^ p))%Z else ((num * 10 ^ (- p)) / den)%Z.

(* 10^p <= num/den *)
Definition pow10_le (p num den : Z) : bool :=
  if (0 <=? p)%Z then (den * 10 ^ p <=? num)%Z else (den <=? num * 10 ^ (- p))%Z.

(* the n with 10^(n-1) <= num/den < 10^n: raised from an estimate while
   10^n <= num/den, then lowered while num/den < 10^(n-1) *)
Fixpoint magnitude_up (fuel : nat) (n num den : Z) : Z :=
  match fuel with
  | O => n
  | S fuel' => if pow10_le n num den then magnitude_up fuel' (n + 1)%Z num den else n
  end.

Fixpoint magnitude_down (fuel : nat) (n num den : Z) : Z :=
  match fuel with
  | O => n
  | S fuel' => if pow10_le (n - 1) num den then n else magnitude_down fuel' (n - 1)%Z num den
  end.

Definition magnitude (m : positive) (e num den : Z) : Z :=
  let n0 := ((Z.pos (digits2_pos m) + e) * 30103 / 100000)%Z in
  magnitude_down 700 (magnitude_up 700 n0 num den) num den.

Definition same_value (x y : number) : bool :=
  match SFcompare x y with Some Eq => true | _ => false end.

(* compare 2 * num/den with c * 10^p *)
Definition cmp_twice (num den c p : Z) : comparison :=
  if (0 <=? p)%Z then (2 * num ?= c * 10 ^ p * den)%Z
  else (2 * num * 10 ^ (- p) ?= c * den)%Z.

(* shortest digits s and exponent p with Number(s * 10^p) = x *)
Fixpoint shortest (fuel : nat) (k : Z) (x : number) (n num den : Z) : Z * Z :=
  let p := (n - k)%Z in
  let lo := floor_scaled num den p in
  let hi := (lo + 1)%Z in
  match fuel with
  | O => (lo, p)
  | S fuel' =>
      let ok_lo := same_value (of_decimal false (Z.to_N lo) p) x in
      let ok_hi := same_value (of_decimal false (Z.to_N hi) p) x in
      match ok_lo, ok_hi with
      | true, false => (lo, p)
      | false, true => (hi, p)
      | true, true =>
          match cmp_twice num den (lo + hi) p with
          | Lt => (lo, p)
          | Gt => (hi, p)
          | Eq => if Z.even lo then (lo, p) else (hi, p)
          end
      | false, false => shortest fuel' (k + 1)%Z x n num den
      end
  end.

Fixpoint strip_zeros (fuel : nat) (s p : Z) : Z * Z :=
  match fuel with
  | O => (s, p)
  | S fuel' => if (s mod 10 =? 0)%Z then strip_zeros fuel' (s / 10)%Z (p + 1)%Z else (s, p)
  end.

Definition decimal_digits (z : Z) : string := NilZero.string_of_uint (N.to_uint (Z.to_N z)).

Fixpoint zeros (n : nat) : string :=
  match n with O => EmptyString | S n' => String "0" (zeros n') end.

Definition format_positive (m : positive) (e : Z) : string :=
  let '(num, den) := value_ratio m e in
  let n0 := magnitude m e num den in
  let '(s0, p0) := shortest 17 1 (S754_finite false m e) n0 num den in
  let '(s, p) := strip_zeros 400 s0 p0 in
  let ds := decimal_digits s in
  let k := Z.of_nat (String.length ds) in
  let n := (p + k)%Z in
  if ((k <=? n) && (n <=? 21))%Z then ds +:+ zeros (Z.to_nat (n - k))
  else if ((0 <? n) && (n <=? 21))%Z then
    substring 0 (Z.to_nat n) ds +:+ "." +:+ substring (Z.to_nat n) (Z.to_nat (k - n)) ds
  else if ((-6 <? n) && (n <=? 0))%Z then "0." +:+ zeros (Z.to_nat (- n)) +:+ ds
  else
    let ex := (n - 1)%Z in
    let exs := (if (ex <? 0)%Z then "-" else "+") +:+ decimal_digits (Z.abs ex) in
    if (k =? 1)%Z then ds +:+ "e" +:+ exs
    else substring 0 1 ds +:+ "." +:+ substring 1 (Z.to_nat (k - 1)) ds +:+ "e" +:+ exs.

Definition toString (x : number) : string :=
  match x with
  | S754_nan => "NaN"
  | S754_zero _ => "0"
  | S754_infinity false => "Infinity"
  | S754_infinity true => "-Infinity"
  | S754_finite false m e => format_positive m e
  | S754_finite true m e => "-" +:+ format_positive m e
  end.

(** Math.round: the nearest integer, ties towards +Infinity *)
Definition Math_round (x : number) : number :=
  match x with
  | S754_finite s m e =>
      if (0 <=? e)%Z then x
      else
        let den := (2 ^ (- e))%Z in
        let num := if s then Z.neg m else Z.pos m in
        let r := ((2 * num + den) / (2 * den))%Z in
        if (r =? 0)%Z then S754_zero s else of_Z r
  | _ => x
  end.

Definition neg (x : number) : number := SFopp x.

(** String.prototype.trim and the first element of [split('\n')] *)
Fixpoint trimEnd (s : string) : string :=
  match s with
  | EmptyString => EmptyString
  | String c r =>
      match trimStart s with
      | EmptyString => EmptyString
      | _ => String c (trimEnd r)
      end
  end.

Definition trim (s : string) : string := trimEnd (trimStart s).

Fixpoint first_line (s : string) : string :=
  match s with
  | EmptyString => EmptyString
  | String c r => if Ascii.eqb c (ascii_of_nat 10) then EmptyString else String c (first_line r)
  end.

End JS.

(** ** Effects of a handler *)

(** A JavaScript [Error]; the handlers only ever read its [message]. *)
Record JSError := { message : string }.

Inductive Result (X : Type) : Type :=
| Threw (e : JSError)
| Returned (x : X).
Arguments Threw {X} e.
Arguments Returned {X} x.

(** The options object of [execSync]. *)
Record ExecOpts := { cwd : option string; timeout : option N }.

(** An argument of [console.log], [console.error] or [console.warn]. *)
Inductive LogArg :=
| LStr (s : string)
| LErr (e : JSError).

(** The calls that reach outside the handler, indexed by what they give
    back.  [fs.existsSync] and [console] do not throw; the others either
    throw or return. *)
Inductive Event : Type -> Type :=
| MkdirSync (path : string) : Event (Result unit)
| WriteFileSync (path : string) (data : list byte) : Event (Result unit)
| ExistsSync (path : string) : Event bool
| ReadFileSync (path : string) : Event (Result (list byte))
| CopyFileSync (src dest : string) : Event (Result unit)
| RmSync (path : string) : Event (Result unit)
| ExecSync (command : string) (opts : ExecOpts) : Event (Result (list byte))
| ConsoleLog (args : list LogArg) : Event unit
| ConsoleError (args : list LogArg) : Event unit
| ConsoleWarn (args : list LogArg) : Event unit.

(** A handler body: it returns, throws, or performs an effect and goes on
    with the answer. *)
Inductive Prog (A : Type) : Type :=
| Ret (a : A)
| Throw (e : JSError)
| Vis {X : Type} (ev : Event X) (k : X -> Prog A).
Arguments Ret {A} a.
Arguments Throw {A} e.
Arguments Vis {A X} ev k.

Fixpoint and_then {A B : Type} (p : Prog A) (f : A -> Prog B) : Prog B :=
  match p with
  | Ret a => f a
  | Throw e => Throw e
  | Vis ev k => Vis ev (fun r => and_then (k r) f)
  end.

(** [try { p } catch (e) { h e }] *)
Fixpoint try_catch {A : Type} (p : Prog A) (h : JSError -> Prog A) : Prog A :=
  match p with
  | Ret a => Ret a
  | Throw e => h e
  | Vis ev k => Vis ev (fun r => try_catch (k r) h)
  end.

(** A call that may throw. *)
Definition perform {X : Type} (ev : Event (Result X)) : Prog X :=
  Vis ev (fun r => match r with Threw e => Throw e | Returned x => Ret x end).

(** A call that does not throw. *)
Definition ask {X : Type} (ev : Event X) : Prog X := Vis ev Ret.

#[global] Instance Prog_ret : MRet Prog := @Ret.
#[global] Instance Prog_bind : MBind Prog := fun A B f p => and_then p f.
#[global] Instance Prog_throw : MThrow JSError Prog := @Throw.

(** ** Requests and responses *)

(** A file as multer's memory storage hands it over. *)
Record UploadedFile := { mimetype : string; buffer : list byte }.

(** The request after [upload.fields]: at most one file per field name
    ([maxCount: 1]) in [files], the text fields of the form in [body]. *)
Record Request := {
  files : gmap string UploadedFile;
  body : gmap string string
}.

Inductive Payload :=
| Json (fields : list (string * string))   (* res.json({...}) *)
| Send (data : list byte).                 (* res.send(buffer) *)

Record Response := {
  status : nat;
  headers : list (string * string);        (* res.setHeader calls, in order *)
  payload : Payload
}.

Definition json (code : nat) (fields : list (string * string)) : Response :=
  {| status := code; headers := []; payload := Json fields |}.

(** ** Worlds and runs *)

(** A world answers each effect and moves to its next state. *)
Record World (S : Type) := { react : forall X : Type, Event X -> S -> X * S }.
Arguments react {S} w {X} ev s.

(** One step of a run: the effect and the answer it got. *)
Inductive Entry :=
| Obs {X : Type} (ev : Event X) (r : X).

Inductive Outcome (A : Type) : Type :=
| Done (a : A)
| Uncaught (e : JSError).
Arguments Done {A} a.
Arguments Uncaught {A} e.

Fixpoint run {S A : Type} (w : World S) (p : Prog A) (s : S)
  : Outcome A * S * list Entry :=
  match p with
  | Ret a => (Done a, s, [])
  | Throw e => (Uncaught e, s, [])
  | Vis ev k =>
      let '(r, s1) := react w ev s in
      let '(o, s2, tr) := run w (k r) s1 in
      (o, s2, Obs ev r :: tr)
  end.

Definition outcome_of {S A : Type} (x : Outcome A * S * list Entry) : Outcome A := x.1.1.
Definition state_of {S A : Type} (x : Outcome A * S * list Entry) : S := x.1.2.
Definition trace_of {S A : Type} (x : Outcome A * S * list Entry) : list Entry := x.2.

(** *** Reading a trace *)

Definition returned {X : Type} (r : Result X) : bool :=
  match r with Returned _ => true | Threw _ => false end.

(** The external command of an entry, with [true] when it returned and
    [false] when it threw. *)
Definition exec_of (en : Entry) : option (string * bool) :=
  match en with
  | Obs ev r =>
      match ev in Event X return X -> option (string * bool) with
      | ExecSync c _ => fun r => Some (c, returned r)
      | _ => fun _ => None
      end r
  end.

Definition write_of (en : Entry) : option (string * list byte * bool) :=
  match en with
  | Obs ev r =>
      match ev in Event X return X -> option (string * list byte * bool) with
      | WriteFileSync p d => fun r => Some (p, d, returned r)
      | _ => fun _ => None
      end r
  end.

Definition copy_of (en : Entry) : option (string * string * bool) :=
  match en with
  | Obs ev r =>
      match ev in Event X return X -> option (string * string * bool) with
      | CopyFileSync a b => fun r => Some (a, b, returned r)
      | _ => fun _ => None
      end r
  end.

Definition read_of (en : Entry) : option (string * Result (list byte)) :=
  match en with
  | Obs ev r =>
      match ev in Event X return X -> option (string * Result (list byte)) with
      | ReadFileSync p => fun r => Some (p, r)
      | _ => fun _ => None
      end r
  end.


(** Commands run, in order, each with whether it returned. *)
Definition exec_log (tr : list Entry) : list (string * bool) := omap exec_of tr.
Definition write_log (tr : list Entry) : list (string * list byte * bool) := omap write_of tr.
Definition copy_log (tr : list Entry) : list (string * string * bool) := omap copy_of tr.
Definition read_log (tr : list Entry) : list (string * Result (list byte)) := omap read_of tr.

(** The commands of a run, without their results. *)
Definition commands (tr : list Entry) : list string := (exec_log tr).*1.


Definition executed (c : string) (tr : list Entry) : Prop := exists ok, (c, ok) ∈ exec_log tr.
Definition raised (c : string) (tr : list Entry) : Prop := (c, false) ∈ exec_log tr.

(** ** The disk world *)

(** An in-memory file system: the directories that exist and the content
    of every file.  Its own operations do not fail for lack of space or
    permissions: [mkdirSync] with [recursive: true] and [rmSync] with
    [recursive: true, force: true] always return, reading or copying a
    missing file throws ENOENT.  External tools are not modelled: a
    [Tools] oracle decides, from the command line, the options and the
    files on disk, whether the command returns or throws and which files
    it writes. *)
Record Disk := { dirs : gset string; contents : gmap string (list byte) }.

Record ToolReply := {
  tool_result : Result (list byte);            (* stdout, or the error thrown *)
  tool_writes : list (string * list byte)      (* files written, in order *)
}.

Definition Tools : Type := string -> ExecOpts -> gmap string (list byte) -> ToolReply.

Definition apply_writes (ws : list (string * list byte)) (m : gmap string (list byte))
  : gmap string (list byte) :=
  fold_left (fun acc w => <[w.1 := w.2]> acc) ws m.

(** [p] is [dir] or lies below it *)
Definition within (dir p : string) : bool :=
  String.eqb p dir || String.prefix (dir +:+ "/") p.

Definition remove_tree (dir : string) (d : Disk) : Disk :=
  {| dirs := filter (fun p => within dir p = false) (dirs d);
     contents := filter (fun kv => within dir kv.1 = false) (contents d) |}.

Definition exists_on (d : Disk) (p : string) : bool :=
  bool_decide (p ∈ dirs d) || bool_decide (is_Some (contents d !! p)).

Definition ENOENT (syscall p : string) : JSError :=
  {| message := "ENOENT: no such file or directory, " +:+ syscall +:+ " '" +:+ p +:+ "'" |}.

Definition disk_react (tools : Tools) (X : Type) (ev : Event X) (d : Disk) : X * Disk :=
  match ev in Event X return X * Disk with
  | MkdirSync p =>
      (Returned tt, {| dirs := {[p]} ∪ dirs d; contents := contents d |})
  | WriteFileSync p data =>
      (Returned tt, {| dirs := dirs d; contents := <[p := data]> (contents d) |})
  | ExistsSync p => (exists_on d p, d)
  | ReadFileSync p =>
      match contents d !! p with
      | Some data => (Returned data, d)
      | None => (Threw (ENOENT "open" p), d)
      end
  | CopyFileSync a b =>
      match contents d !! a with
      | Some data => (Returned tt, {| dirs := dirs d; contents := <[b := data]> (contents d) |})
      | None => (Threw (ENOENT "copyfile" a), d)
      end
  | RmSync p => (Returned tt, remove_tree p d)
  | ExecSync c o =>
      let r := tools c o (contents d) in
      (tool_result r, {| dirs := dirs d; contents := apply_writes (tool_writes r) (contents d) |})
  | ConsoleLog _ => (tt, d)
  | ConsoleError _ => (tt, d)
  | ConsoleWarn _ => (tt, d)
  end.

Definition disk_world (tools : Tools) : World Disk := {| react := disk_react tools |}.

Definition empty_disk : Disk := {| dirs := ∅; contents := ∅ |}.

(** ** Pieces shared by the three files *)

Definition dq : string := String (ascii_of_nat 34) EmptyString.

(** ["s"], as the command lines quote their paths *)
Definition quoted (s : string) : string := dq +:+ s +:+ dq.

(** [path.join(a, b)] for a directory [a] without a trailing slash and a
    plain file name [b] (a job id or a fixed name): no segment to
    normalise. *)
Definition path_join (a b : string) : string := a +:+ "/" +:+ b.

(** [buffer.toString()] and the bytes [fs.writeFileSync] stores for a
    string: strings are their UTF-8 bytes. *)
Definition bytes_of (s : string) : list byte := String.list_byte_of_string s.
Definition text_of (b : list byte) : string := String.string_of_list_byte b.

(** [v || d] for a text field of the form: absent and empty are falsy. *)
Definition text_or (v : option string) (d : string) : string :=
  match v with
  | Some EmptyString | None => d
  | Some s => s
  end.

(** The three files and their POST endpoints. *)
Inductive SourceFile := server_js | railway_api_server_js | part_000.
Inductive Endpoint := merge_pdf_layers_ep | overlay_artwork_ep | create_layered_pdf_ep.

(** ** src/server.js *)
Module ServerJs.

Definition TEMP_DIR : string := "/tmp/pdf-processing".

(** Helper: Get file extension from mimetype.  The keys of [map] are its
    own six; a mimetype is [type/subtype], so it is never a property
    inherited from [Object.prototype]. *)
Definition getExtension (mimetype : string) : string :=
  let map : gmap string string :=
    list_to_map
      [ ("image/png", ".png");
        ("image/jpeg", ".jpg");
        ("image/jpg", ".jpg");
        ("image/gif", ".gif");
        ("image/webp", ".webp");
        ("application/pdf", ".pdf") ] in
  text_or (map !! mimetype) ".bin".

(** Helper: Cleanup job directory *)
Definition cleanupJob (jobDir : string) : Prog unit :=
  try_catch
    (present ← ask (ExistsSync jobDir);
     if present : bool then perform (RmSync jobDir) else mret tt)
    (fun e => ask (ConsoleError [LStr "Cleanup error:"; LStr (message e)])).

(** Health check: [GET /] *)
Definition health_check : Prog Response :=
  mret (json 200 [("status", "ok"); ("message", "PrintPilot PDF API is running")]).

(** Check Ghostscript version: [GET /gs-version] *)
Definition gs_version : Prog Response :=
  try_catch
    (out ← perform (ExecSync "gs --version" {| cwd := None; timeout := None |});
     let version := JS.trim (text_of out) in
     mret (json 200 [("ghostscript", version)]))
    (fun error =>
       mret (json 500 [("error", "Ghostscript not installed"); ("details", message error)])).

(** *** POST /api/merge-pdf-layers *)

(* line 107, the command of the first [execSync] *)
Definition convertArtworkCmd (artworkPath : string) (width height : JS.number)
    (artworkPdfPath : string) : string :=
  "convert " +:+ quoted artworkPath +:+ " -resize " +:+ JS.toString width +:+ "x"
    +:+ JS.toString height +:+ "! " +:+ quoted artworkPdfPath.

Definition mergeCmd (outputPath templatePath artworkPdfPath : string) : string :=
  "gs -dNOPAUSE -dBATCH -sDEVICE=pdfwrite       -dPDFSETTINGS=/prepress       -dCompatibilityLevel=1.7       -dPreserveOPIComments=true       -dPreserveOverprintSettings=true       -sOutputFile="
    +:+ quoted outputPath +:+ "       " +:+ quoted templatePath +:+ " "
    +:+ quoted artworkPdfPath +:+ " 2>&1".

Definition simpleMergeCmd (outputPath templatePath : string) : string :=
  "gs -dNOPAUSE -dBATCH -sDEVICE=pdfwrite         -sOutputFile=" +:+ quoted outputPath
    +:+ "         " +:+ quoted templatePath +:+ " 2>&1".

(* built at line 100 and never run *)
Definition convertCmd (artworkPdfPath artworkPath : string) (width height : JS.number) : string :=
  "gs -dNOPAUSE -dBATCH -sDEVICE=pdfwrite -dEPSCrop       -sOutputFile=" +:+ quoted artworkPdfPath
    +:+ "       -c " +:+ dq +:+ "<< /PageSize [" +:+ JS.toString width +:+ " " +:+ JS.toString height
    +:+ "] >> setpagedevice" +:+ dq +:+ "       -f " +:+ quoted artworkPath
    +:+ " 2>&1 || convert " +:+ quoted artworkPath +:+ " -resize " +:+ JS.toString width +:+ "x"
    +:+ JS.toString height +:+ " " +:+ quoted artworkPdfPath.

(* built in the catch block at line 111 and never used *)
Definition fallbackPsContent (artworkPath : string) (width height : JS.number) : string :=
  "
%!PS
/img {
  (" +:+ artworkPath +:+ ") (r) file
  << /PageSize [" +:+ JS.toString width +:+ " " +:+ JS.toString height +:+ "] >> setpagedevice
  0 0 translate
  " +:+ JS.toString width +:+ " " +:+ JS.toString height +:+ " scale
  /DeviceRGB setcolorspace
  << /ImageType 1
     /Width " +:+ JS.toString width +:+ "
     /Height " +:+ JS.toString height +:+ "
     /BitsPerComponent 8
     /Decode [0 1 0 1 0 1]
     /ImageMatrix [" +:+ JS.toString width +:+ " 0 0 -" +:+ JS.toString height +:+ " 0 " +:+ JS.toString height +:+ "]
     /DataSource currentfile /ASCIIHexDecode filter
  >> image
} def
showpage
".

(* built at line 137 and never used *)
Definition psLayerScript (layerName : string) : string :=
  "
%!PS-Adobe-3.0
% PDF with Layers (OCG) - PrintPilot Generator

/pdfmark where {pop} {userdict /pdfmark /cleartomark load put} ifelse

% Define the layer (OCG)
[/OC << /Name (" +:+ layerName +:+ ") /Intent /View /Usage << /CreatorInfo << /Creator (PrintPilot) /Subtype /Artwork >> >> >> /OC pdfmark

% Start layer content
[{ThisPage} << /Contents [{stream}] >> /PUT pdfmark
".

(** Step 1 (lines 98-133): Convert artwork image to PDF with
    transparency; a failure is logged and nothing else is tried *)
Definition step1_convert_artwork (jobId jobDir artworkPath artworkPdfPath : string)
    (width height : JS.number) : Prog unit :=
  let convertCmd := convertCmd artworkPdfPath artworkPath width height in
  try_catch
    (perform (ExecSync (convertArtworkCmd artworkPath width height artworkPdfPath)
                {| cwd := Some jobDir; timeout := None |});;
     ask (ConsoleLog [LStr ("Job " +:+ jobId +:+ ": Converted artwork to PDF using ImageMagick")]))
    (fun e =>
       let psContent := fallbackPsContent artworkPath width height in
       ask (ConsoleLog [LStr ("Job " +:+ jobId
                                +:+ ": ImageMagick not available, using alternative method")])).

(** Step 3 (lines 150-173): Use Ghostscript to merge PDFs while preserving
    structure, with a simpler merge as fallback *)
Definition step3_merge (jobId jobDir outputPath templatePath artworkPdfPath : string)
    : Prog unit :=
  try_catch
    (mergeOutput ← perform (ExecSync (mergeCmd outputPath templatePath artworkPdfPath)
                              {| cwd := Some jobDir; timeout := Some 60000%N |});
     ask (ConsoleLog [LStr ("Job " +:+ jobId +:+ ": Merge output:"); LStr (text_of mergeOutput)]))
    (fun gsError =>
       ask (ConsoleError [LStr ("Job " +:+ jobId +:+ ": Ghostscript merge error:");
                          LStr (message gsError)]);;
       (* Fallback: Try simpler merge *)
       perform (ExecSync (simpleMergeCmd outputPath templatePath)
                  {| cwd := Some jobDir; timeout := Some 60000%N |});;
       mret tt).

Definition merge_pdf_layers (jobId : string) (req : Request) : Prog Response :=
  let jobDir := path_join TEMP_DIR jobId in
  try_catch
    ((* Create job directory *)
     perform (MkdirSync jobDir);;
     (* Validate inputs *)
     match files req !! "template" with
     | None => mret (json 400 [("error", "Template PDF is required")])
     | Some templateFile =>
     match files req !! "artwork" with
     | None => mret (json 400 [("error", "Artwork image is required")])
     | Some artworkFile =>
       (* Get parameters *)
       let layerName := text_or (body req !! "layerName") "ARTWORK HERE" in
       let x := JS.or_default (JS.parseFloat (body req !! "x")) (JS.of_Z 0) in
       let y := JS.or_default (JS.parseFloat (body req !! "y")) (JS.of_Z 0) in
       let width := JS.or_default (JS.parseFloat (body req !! "width")) (JS.of_Z 612) in
       let height := JS.or_default (JS.parseFloat (body req !! "height")) (JS.of_Z 792) in
       ask (ConsoleLog [LStr ("Job " +:+ jobId +:+ ": Processing with layer " +:+ quoted layerName
                                +:+ ", position (" +:+ JS.toString x +:+ ", " +:+ JS.toString y
                                +:+ "), size " +:+ JS.toString width +:+ "x" +:+ JS.toString height)]);;
       (* Save files to temp directory *)
       let templatePath := path_join jobDir "template.pdf" in
       let artworkPath := path_join jobDir ("artwork" +:+ getExtension (mimetype artworkFile)) in
       let artworkPdfPath := path_join jobDir "artwork.pdf" in
       let outputPath := path_join jobDir "output.pdf" in
       perform (WriteFileSync templatePath (buffer templateFile));;
       perform (WriteFileSync artworkPath (buffer artworkFile));;
       ask (ConsoleLog [LStr ("Job " +:+ jobId +:+ ": Files saved")]);;
       (* Step 1: Convert artwork image to PDF with transparency *)
       step1_convert_artwork jobId jobDir artworkPath artworkPdfPath width height;;
       (* Step 2: Create PostScript that defines the layer structure *)
       let psLayerScript := psLayerScript layerName in
       (* Step 3: Use Ghostscript to merge PDFs while preserving structure *)
       ask (ConsoleLog [LStr ("Job " +:+ jobId +:+ ": Merging PDFs...")]);;
       step3_merge jobId jobDir outputPath templatePath artworkPdfPath;;
       (* Check if output was created *)
       created ← ask (ExistsSync outputPath);
       (if negb created then Throw {| message := "Output PDF was not created" |} else mret tt);;
       ask (ConsoleLog [LStr ("Job " +:+ jobId +:+ ": PDF created successfully")]);;
       (* Read and send the output file *)
       outputBuffer ← perform (ReadFileSync outputPath);
       (* Cleanup *)
       cleanupJob jobDir;;
       (* Send response *)
       mret {| status := 200;
               headers := [ ("Content-Type", "application/pdf");
                            ("Content-Disposition",
                             "attachment; filename=" +:+ quoted ("printpilot-" +:+ jobId +:+ ".pdf")) ];
               payload := Send outputBuffer |}
     end
     end)
    (fun error =>
       ask (ConsoleError [LStr ("Job " +:+ jobId +:+ ": Error:"); LErr error]);;
       (* Cleanup on error *)
       cleanupJob jobDir;;
       mret (json 500 [ ("error", "PDF processing failed");
                        ("message", message error);
                        ("jobId", jobId) ])).

(** *** POST /api/overlay-artwork *)

Definition overlayPsContent (pageWidth pageHeight x y width height : JS.number)
    (artworkPath : string) : string :=
  "
%!PS-Adobe-3.0
%%BoundingBox: 0 0 " +:+ JS.toString pageWidth +:+ " " +:+ JS.toString pageHeight +:+ "
%%Pages: 1
%%EndComments

%%Page: 1 1

% Draw the artwork image
" +:+ JS.toString x +:+ " " +:+ JS.toString y +:+ " translate
" +:+ JS.toString width +:+ " " +:+ JS.toString height +:+ " scale

(" +:+ artworkPath +:+ ") (r) file /DCTDecode filter
<< /ImageType 1
   /Width " +:+ JS.toString width +:+ "
   /Height " +:+ JS.toString height +:+ "
   /BitsPerComponent 8
   /Decode [0 1 0 1 0 1]
   /ImageMatrix [1 0 0 -1 0 1]
   /DataSource currentfile
>> image

showpage
%%EOF
".

Definition overlayGsCmd (outputPath templatePath : string) : string :=
  "gs -dNOPAUSE -dBATCH -sDEVICE=pdfwrite       -dCompatibilityLevel=1.7       -dPDFSETTINGS=/prepress       -sOutputFile="
    +:+ quoted outputPath +:+ "       " +:+ quoted templatePath.

Definition overlay_artwork (jobId : string) (req : Request) : Prog Response :=
  let jobDir := path_join TEMP_DIR jobId in
  try_catch
    (perform (MkdirSync jobDir);;
     match files req !! "template", files req !! "artwork" with
     | Some templateFile, Some artworkFile =>
       (* Position parameters (in points, 72 points = 1 inch) *)
       let x := JS.or_default (JS.parseFloat (body req !! "x")) (JS.of_Z 0) in
       let y := JS.or_default (JS.parseFloat (body req !! "y")) (JS.of_Z 0) in
       let width := JS.or_default (JS.parseFloat (body req !! "width")) (JS.of_Z 0) in
       let height := JS.or_default (JS.parseFloat (body req !! "height")) (JS.of_Z 0) in
       let pageWidth := JS.or_default (JS.parseFloat (body req !! "pageWidth")) (JS.of_Z 612) in
       let pageHeight := JS.or_default (JS.parseFloat (body req !! "pageHeight")) (JS.of_Z 792) in
       (* Save files *)
       let templatePath := path_join jobDir "template.pdf" in
       let artworkPath := path_join jobDir "artwork.png" in
       let outputPath := path_join jobDir "output.pdf" in
       perform (WriteFileSync templatePath (buffer templateFile));;
       perform (WriteFileSync artworkPath (buffer artworkFile));;
       (* Create PostScript file that overlays the artwork *)
       let psContent := overlayPsContent pageWidth pageHeight x y width height artworkPath in
       let psPath := path_join jobDir "overlay.ps" in
       perform (WriteFileSync psPath (bytes_of psContent));;
       (* Use Ghostscript to merge *)
       perform (ExecSync (overlayGsCmd outputPath templatePath)
                  {| cwd := Some jobDir; timeout := Some 60000%N |});;
       outputBuffer ← perform (ReadFileSync outputPath);
       cleanupJob jobDir;;
       mret {| status := 200;
               headers := [ ("Content-Type", "application/pdf");
                            ("Content-Disposition",
                             "attachment; filename=" +:+ quoted ("printpilot-" +:+ jobId +:+ ".pdf")) ];
               payload := Send outputBuffer |}
     | _, _ => mret (json 400 [("error", "Both template and artwork files are required")])
     end)
    (fun error =>
       ask (ConsoleError [LStr ("Job " +:+ jobId +:+ ": Error:"); LErr error]);;
       cleanupJob jobDir;;
       mret (json 500 [("error", "PDF processing failed"); ("message", message error)])).

(** *** POST /api/create-layered-pdf *)

Definition layeredPsContent (pageWidth pageHeight : JS.number) (artworkLayerName : string) : string :=
  "%!PS-Adobe-3.0
%%BoundingBox: 0 0 " +:+ JS.toString (JS.Math_round pageWidth) +:+ " " +:+ JS.toString (JS.Math_round pageHeight) +:+ "
%%Pages: 1
%%EndComments

% PDF Layer definitions using pdfmark
/pdfmark where {pop} {userdict /pdfmark /cleartomark load put} ifelse

% Create OCG (Optional Content Group) for artwork layer
[/_objdef {artwork_ocg} /type /ocg /OC <<
  /Name (" +:+ artworkLayerName +:+ ")
  /Intent /Design
  /Usage << /CreatorInfo << /Creator (PrintPilot) /Subtype /Artwork >> >>
>> /OC pdfmark

% Create OCG for template/instructions layer
[/_objdef {template_ocg} /type /ocg /OC <<
  /Name (Template)
  /Intent /View
>> /OC pdfmark

% Create OCProperties to register layers
[{Catalog} <<
  /OCProperties <<
    /OCGs [{artwork_ocg} {template_ocg}]
    /D << /Order [{artwork_ocg} {template_ocg}] /ON [{artwork_ocg} {template_ocg}] >>
  >>
>> /PUT pdfmark

%%Page: 1 1
<< /PageSize [" +:+ JS.toString pageWidth +:+ " " +:+ JS.toString pageHeight +:+ "] >> setpagedevice

% Begin artwork layer content
[/OC {artwork_ocg} /BDC pdfmark

% Draw artwork (placeholder - actual image embedding would go here)
0.9 0.9 0.9 setrgbcolor
0 0 " +:+ JS.toString pageWidth +:+ " " +:+ JS.toString pageHeight +:+ " rectfill

% End artwork layer
[/
EMC pdfmark

% Begin template layer
[/OC {template_ocg} /BDC pdfmark

% Template content would go here
0 setgray
0.5 setlinewidth
0 0 " +:+ JS.toString pageWidth +:+ " " +:+ JS.toString pageHeight +:+ " rectstroke

[/EMC pdfmark

showpage
%%EOF
".

Definition layeredGsCmd (outputPath psPath : string) : string :=
  "gs -dNOPAUSE -dBATCH -sDEVICE=pdfwrite       -dCompatibilityLevel=1.7       -dPDFSETTINGS=/prepress       -sOutputFile="
    +:+ quoted outputPath +:+ "       " +:+ quoted psPath +:+ " 2>&1".

Definition create_layered_pdf (jobId : string) (req : Request) : Prog Response :=
  let jobDir := path_join TEMP_DIR jobId in
  try_catch
    (perform (MkdirSync jobDir);;
     match files req !! "artwork" with
     | None => mret (json 400 [("error", "Artwork image is required")])
     | Some artworkFile =>
       let templateFile := files req !! "template" in
       (* Dimensions in points (72 points = 1 inch) *)
       let pageWidth := JS.or_default (JS.parseFloat (body req !! "pageWidth")) (JS.of_Z 612) in
       let pageHeight := JS.or_default (JS.parseFloat (body req !! "pageHeight")) (JS.of_Z 792) in
       let artworkLayerName := text_or (body req !! "artworkLayerName") "ARTWORK HERE" in
       (* Save artwork *)
       let artworkPath := path_join jobDir "artwork.png" in
       let outputPath := path_join jobDir "output.pdf" in
       perform (WriteFileSync artworkPath (buffer artworkFile));;
       (* If we have a template, extract its structure *)
       match templateFile with
       | Some templateFile =>
           let templatePath := path_join jobDir "template.pdf" in
           perform (WriteFileSync templatePath (buffer templateFile))
       | None => mret tt
       end;;
       (* Create a PDF with layers using Ghostscript and pdfmark *)
       let psContent := layeredPsContent pageWidth pageHeight artworkLayerName in
       let psPath := path_join jobDir "layered.ps" in
       perform (WriteFileSync psPath (bytes_of psContent));;
       (* Convert PS to PDF with Ghostscript *)
       ask (ConsoleLog [LStr ("Job " +:+ jobId +:+ ": Creating layered PDF...")]);;
       output ← perform (ExecSync (layeredGsCmd outputPath psPath)
                           {| cwd := Some jobDir; timeout := Some 60000%N |});
       ask (ConsoleLog [LStr ("Job " +:+ jobId +:+ ": Ghostscript output:"); LStr (text_of output)]);;
       created ← ask (ExistsSync outputPath);
       (if negb created then Throw {| message := "Failed to create output PDF" |} else mret tt);;
       outputBuffer ← perform (ReadFileSync outputPath);
       cleanupJob jobDir;;
       mret {| status := 200;
               headers := [ ("Content-Type", "application/pdf");
                            ("Content-Disposition",
                             "attachment; filename="
                               +:+ quoted ("printpilot-layered-" +:+ jobId +:+ ".pdf")) ];
               payload := Send outputBuffer |}
     end)
    (fun error =>
       ask (ConsoleError [LStr ("Job " +:+ jobId +:+ ": Error:"); LErr error]);;
       cleanupJob jobDir;;
       mret (json 500 [("error", "PDF processing failed"); ("message", message error)])).

(** Start server: the callback of [app.listen] *)
Definition on_listen (PORT : string) : Prog unit :=
  ask (ConsoleLog [LStr ("PrintPilot PDF API running on port " +:+ PORT)]);;
  (* Check Ghostscript *)
  try_catch
    (out ← perform (ExecSync "gs --version" {| cwd := None; timeout := None |});
     let gsVersion := JS.trim (text_of out) in
     ask (ConsoleLog [LStr ("Ghostscript version: " +:+ gsVersion)]))
    (fun e => ask (ConsoleWarn [LStr "WARNING: Ghostscript not found! PDF processing will fail."]));;
  (* Check ImageMagick *)
  try_catch
    (out ← perform (ExecSync "convert --version" {| cwd := None; timeout := None |});
     let imVersion := JS.first_line (text_of out) in
     ask (ConsoleLog [LStr ("ImageMagick: " +:+ imVersion)]))
    (fun e => ask (ConsoleWarn [LStr "WARNING: ImageMagick not found. Some features may not work."])).

End ServerJs.

(** ** src/railway-api/server.js *)
Module RailwayApi.

Definition TEMP_DIR : string := "/tmp/pdf-processing".

(** Helper: Get file extension from mimetype.  The keys of [map] are its
    own six; a mimetype is [type/subtype], so it is never a property
    inherited from [Object.prototype]. *)
Definition getExtension (mimetype : string) : string :=
  let map : gmap string string :=
    list_to_map
      [ ("image/png", ".png");
        ("image/jpeg", ".jpg");
        ("image/jpg", ".jpg");
        ("image/gif", ".gif");
        ("image/webp", ".webp");
        ("application/pdf", ".pdf") ] in
  text_or (map !! mimetype) ".bin".

(** Helper: Cleanup job directory *)
Definition cleanupJob (jobDir : string) : Prog unit :=
  try_catch
    (present ← ask (ExistsSync jobDir);
     if present : bool then perform (RmSync jobDir) else mret tt)
    (fun e => ask (ConsoleError [LStr "Cleanup error:"; LStr (message e)])).

(** Health check: [GET /] *)
Definition health_check : Prog Response :=
  mret (json 200 [("status", "ok"); ("message", "PrintPilot PDF API is running")]).

(** Check Ghostscript version: [GET /gs-version] *)
Definition gs_version : Prog Response :=
  try_catch
    (out ← perform (ExecSync "gs --version" {| cwd := None; timeout := None |});
     let version := JS.trim (text_of out) in
     mret (json 200 [("ghostscript", version)]))
    (fun error =>
       mret (json 500 [("error", "Ghostscript not installed"); ("details", message error)])).

(** *** POST /api/merge-pdf-layers *)

(* built at line 112 and never run *)
Definition gsConvertCmd (pageWidth pageHeight : JS.number) (artworkPdfPath artworkPngPath : string)
    : string :=
  "gs -dNOPAUSE -dBATCH -sDEVICE=pdfwrite         -dFIXEDMEDIA         -dDEVICEWIDTHPOINTS="
    +:+ JS.toString pageWidth +:+ "         -dDEVICEHEIGHTPOINTS=" +:+ JS.toString pageHeight
    +:+ "         -dPDFFitPage         -sOutputFile=" +:+ quoted artworkPdfPath +:+ "         -c "
    +:+ dq +:+ "<< /PageSize [" +:+ JS.toString pageWidth +:+ " " +:+ JS.toString pageHeight
    +:+ "] >> setpagedevice" +:+ dq +:+ "         -f - << 'EOPS'
%!PS-Adobe-3.0
(" +:+ artworkPngPath +:+ ") (r) file
/str 1000 string def
{ currentfile str readhexstring }
showpage
EOPS".

(* Step 2a: Convert PNG to PDF using ImageMagick (any size) *)
Definition convertRawCmd (artworkPngPath jobDir : string) : string :=
  "convert " +:+ quoted artworkPngPath +:+ " " +:+ quoted (jobDir +:+ "/artwork_raw.pdf").

(* Step 2b: Use Ghostscript to resize to exact template dimensions *)
Definition gsResizeCmd (pageWidth pageHeight : JS.number) (artworkPdfPath jobDir : string) : string :=
  "gs -dNOPAUSE -dBATCH -sDEVICE=pdfwrite         -dFIXEDMEDIA         -dDEVICEWIDTHPOINTS="
    +:+ JS.toString pageWidth +:+ "         -dDEVICEHEIGHTPOINTS=" +:+ JS.toString pageHeight
    +:+ "         -dPDFFitPage         -dCompatibilityLevel=1.7         -sOutputFile="
    +:+ quoted artworkPdfPath +:+ "         " +:+ quoted (jobDir +:+ "/artwork_raw.pdf").

(* Fallback to ImageMagick with page geometry *)
Definition convertPageCmd (artworkPngPath : string) (pageWidth pageHeight : JS.number)
    (artworkPdfPath : string) : string :=
  "convert " +:+ quoted artworkPngPath +:+ " -resize " +:+ JS.toString (JS.Math_round pageWidth)
    +:+ "x" +:+ JS.toString (JS.Math_round pageHeight)
    +:+ "!         -density 72 -units PixelsPerInch         -page "
    +:+ JS.toString (JS.Math_round pageWidth) +:+ "x" +:+ JS.toString (JS.Math_round pageHeight)
    +:+ "+0+0         " +:+ quoted artworkPdfPath.

(* qpdf --underlay puts artwork BEHIND the template content *)
Definition qpdfCmd (templatePath artworkPdfPath outputPath : string) : string :=
  "qpdf " +:+ quoted templatePath +:+ " --underlay " +:+ quoted artworkPdfPath +:+ " -- "
    +:+ quoted outputPath.

(* pdftk background - artwork goes behind template *)
Definition pdftkCmd (templatePath artworkPdfPath outputPath : string) : string :=
  "pdftk " +:+ quoted templatePath +:+ " background " +:+ quoted artworkPdfPath +:+ " output "
    +:+ quoted outputPath.

(* Final method: Flatten both PDFs to images and composite *)
Definition flattenCmd (density : JS.number) (pdfPath pngPath : string) : string :=
  "convert -density " +:+ JS.toString density +:+ " " +:+ quoted (pdfPath +:+ "[0]") +:+ " "
    +:+ quoted pngPath.

Definition compositeCmd (jobDir : string) : string :=
  "convert " +:+ quoted (jobDir +:+ "/artwork_flat.png") +:+ " "
    +:+ quoted (jobDir +:+ "/template_flat.png") +:+ " -composite "
    +:+ quoted (jobDir +:+ "/composite.png").

Definition compositePdfCmd (jobDir : string) (pageWidth pageHeight : JS.number)
    (outputPath : string) : string :=
  "convert " +:+ quoted (jobDir +:+ "/composite.png")
    +:+ "             -density 72 -units PixelsPerInch             -page "
    +:+ JS.toString (JS.Math_round pageWidth) +:+ "x" +:+ JS.toString (JS.Math_round pageHeight)
    +:+ "+0+0             " +:+ quoted outputPath.

(** Step 2 (lines 110-150): Convert artwork PNG to PDF with EXACT page
    size matching template *)
Definition step2_convert_artwork (jobId jobDir artworkPngPath artworkPdfPath : string)
    (pageWidth pageHeight : JS.number) : Prog unit :=
  try_catch
    (let gsConvertCmd := gsConvertCmd pageWidth pageHeight artworkPdfPath artworkPngPath in
     perform (ExecSync (convertRawCmd artworkPngPath jobDir)
                {| cwd := Some jobDir; timeout := Some 60000%N |});;
     ask (ConsoleLog [LStr ("Job " +:+ jobId +:+ ": Created raw artwork PDF")]);;
     perform (ExecSync (gsResizeCmd pageWidth pageHeight artworkPdfPath jobDir)
                {| cwd := Some jobDir; timeout := Some 60000%N |});;
     ask (ConsoleLog [LStr ("Job " +:+ jobId +:+ ": Resized artwork PDF to "
                              +:+ JS.toString pageWidth +:+ "x" +:+ JS.toString pageHeight
                              +:+ " points")]))
    (fun e =>
       ask (ConsoleError [LStr ("Job " +:+ jobId +:+ ": Ghostscript convert failed:");
                          LStr (message e)]);;
       perform (ExecSync (convertPageCmd artworkPngPath pageWidth pageHeight artworkPdfPath)
                  {| cwd := Some jobDir; timeout := Some 60000%N |});;
       mret tt).

(** Step 3 (lines 155-195): Use qpdf underlay, falling back to pdftk, to
    ImageMagick and to the artwork PDF itself *)
Definition step3_overlay (jobId jobDir templatePath artworkPdfPath outputPath : string)
    (pageWidth pageHeight : JS.number) : Prog unit :=
  try_catch
    (perform (ExecSync (qpdfCmd templatePath artworkPdfPath outputPath)
                {| cwd := Some jobDir; timeout := Some 60000%N |});;
     ask (ConsoleLog [LStr ("Job " +:+ jobId +:+ ": qpdf underlay succeeded")]))
    (fun qpdfError =>
       ask (ConsoleLog [LStr ("Job " +:+ jobId +:+ ": qpdf failed, trying pdftk...")]);;
       try_catch
         (perform (ExecSync (pdftkCmd templatePath artworkPdfPath outputPath)
                     {| cwd := Some jobDir; timeout := Some 60000%N |});;
          ask (ConsoleLog [LStr ("Job " +:+ jobId +:+ ": pdftk background succeeded")]))
         (fun pdftkError =>
            ask (ConsoleLog [LStr ("Job " +:+ jobId
                                     +:+ ": pdftk failed, trying ImageMagick composite...")]);;
            try_catch
              (let density := JS.of_Z 300 in
               perform (ExecSync (flattenCmd density templatePath (jobDir +:+ "/template_flat.png"))
                          {| cwd := Some jobDir; timeout := Some 120000%N |});;
               perform (ExecSync (flattenCmd density artworkPdfPath (jobDir +:+ "/artwork_flat.png"))
                          {| cwd := Some jobDir; timeout := Some 120000%N |});;
               (* Composite: artwork first (bottom), template on top *)
               perform (ExecSync (compositeCmd jobDir)
                          {| cwd := Some jobDir; timeout := Some 60000%N |});;
               (* Convert back to PDF with correct dimensions *)
               perform (ExecSync (compositePdfCmd jobDir pageWidth pageHeight outputPath)
                          {| cwd := Some jobDir; timeout := Some 60000%N |});;
               ask (ConsoleLog [LStr ("Job " +:+ jobId +:+ ": ImageMagick composite succeeded")]))
              (fun compositeError =>
                 ask (ConsoleError [LStr ("Job " +:+ jobId +:+ ": All methods failed:");
                                    LStr (message compositeError)]);;
                 (* Last resort: just return the artwork PDF *)
                 perform (CopyFileSync artworkPdfPath outputPath)))).

Definition merge_pdf_layers (jobId : string) (req : Request) : Prog Response :=
  let jobDir := path_join TEMP_DIR jobId in
  try_catch
    ((* Create job directory *)
     perform (MkdirSync jobDir);;
     (* Validate inputs *)
     match files req !! "template" with
     | None => mret (json 400 [("error", "Template PDF is required")])
     | Some templateFile =>
     match files req !! "artwork" with
     | None => mret (json 400 [("error", "Artwork image is required")])
     | Some artworkFile =>
       (* Get parameters *)
       let layerName := text_or (body req !! "layerName") "ARTWORK HERE" in
       let x := JS.or_default (JS.parseFloat (body req !! "x")) (JS.of_Z 0) in
       let y := JS.or_default (JS.parseFloat (body req !! "y")) (JS.of_Z 0) in
       let width := JS.or_default (JS.parseFloat (body req !! "width")) (JS.of_Z 612) in
       let height := JS.or_default (JS.parseFloat (body req !! "height")) (JS.of_Z 792) in
       ask (ConsoleLog [LStr ("Job " +:+ jobId +:+ ": Processing with layer " +:+ quoted layerName
                                +:+ ", position (" +:+ JS.toString x +:+ ", " +:+ JS.toString y
                                +:+ "), size " +:+ JS.toString width +:+ "x" +:+ JS.toString height)]);;
       (* Save files to temp directory *)
       let templatePath := path_join jobDir "template.pdf" in
       let artworkPath := path_join jobDir ("artwork" +:+ getExtension (mimetype artworkFile)) in
       let artworkPdfPath := path_join jobDir "artwork.pdf" in
       let outputPath := path_join jobDir "output.pdf" in
       perform (WriteFileSync templatePath (buffer templateFile));;
       perform (WriteFileSync artworkPath (buffer artworkFile));;
       ask (ConsoleLog [LStr ("Job " +:+ jobId +:+ ": Files saved")]);;
       (* Step 1: Get template PDF dimensions using Ghostscript *)
       let pageWidth := JS.or_default (JS.parseFloat (body req !! "pageWidth")) width in
       let pageHeight := JS.or_default (JS.parseFloat (body req !! "pageHeight")) height in
       ask (ConsoleLog [LStr ("Job " +:+ jobId +:+ ": Page dimensions: " +:+ JS.toString pageWidth
                                +:+ " x " +:+ JS.toString pageHeight +:+ " points")]);;
       (* Step 2: Convert artwork PNG to PDF with EXACT page size matching template *)
       ask (ConsoleLog [LStr ("Job " +:+ jobId +:+ ": Converting artwork to PDF with exact page size "
                                +:+ JS.toString pageWidth +:+ "x" +:+ JS.toString pageHeight
                                +:+ " points")]);;
       let artworkPngPath := artworkPath in
       step2_convert_artwork jobId jobDir artworkPngPath artworkPdfPath pageWidth pageHeight;;
       (* Step 3: Use qpdf underlay (more reliable than pdftk for different page sizes) *)
       ask (ConsoleLog [LStr ("Job " +:+ jobId +:+ ": Creating overlay PDF with qpdf...")]);;
       step3_overlay jobId jobDir templatePath artworkPdfPath outputPath pageWidth pageHeight;;
       (* Check if output was created *)
       created ← ask (ExistsSync outputPath);
       (if negb created then Throw {| message := "Output PDF was not created" |} else mret tt);;
       ask (ConsoleLog [LStr ("Job " +:+ jobId +:+ ": PDF created successfully")]);;
       (* Read and send the output file *)
       outputBuffer ← perform (ReadFileSync outputPath);
       (* Cleanup *)
       cleanupJob jobDir;;
       (* Send response *)
       mret {| status := 200;
               headers := [ ("Content-Type", "application/pdf");
                            ("Content-Disposition",
                             "attachment; filename=" +:+ quoted ("printpilot-" +:+ jobId +:+ ".pdf")) ];
               payload := Send outputBuffer |}
     end
     end)
    (fun error =>
       ask (ConsoleError [LStr ("Job " +:+ jobId +:+ ": Error:"); LErr error]);;
       (* Cleanup on error *)
       cleanupJob jobDir;;
       mret (json 500 [ ("error", "PDF processing failed");
                        ("message", message error);
                        ("jobId", jobId) ])).

(** *** POST /api/overlay-artwork *)

Definition overlayPsContent (pageWidth pageHeight x y width height : JS.number)
    (artworkPath : string) : string :=
  "
%!PS-Adobe-3.0
%%BoundingBox: 0 0 " +:+ JS.toString pageWidth +:+ " " +:+ JS.toString pageHeight +:+ "
%%Pages: 1
%%EndComments

%%Page: 1 1

% Draw the artwork image
" +:+ JS.toString x +:+ " " +:+ JS.toString y +:+ " translate
" +:+ JS.toString width +:+ " " +:+ JS.toString height +:+ " scale

(" +:+ artworkPath +:+ ") (r) file /DCTDecode filter
<< /ImageType 1
   /Width " +:+ JS.toString width +:+ "
   /Height " +:+ JS.toString height +:+ "
   /BitsPerComponent 8
   /Decode [0 1 0 1 0 1]
   /ImageMatrix [1 0 0 -1 0 1]
   /DataSource currentfile
>> image

showpage
%%EOF
".

Definition overlayGsCmd (outputPath templatePath : string) : string :=
  "gs -dNOPAUSE -dBATCH -sDEVICE=pdfwrite       -dCompatibilityLevel=1.7       -dPDFSETTINGS=/prepress       -sOutputFile="
    +:+ quoted outputPath +:+ "       " +:+ quoted templatePath.

Definition overlay_artwork (jobId : string) (req : Request) : Prog Response :=
  let jobDir := path_join TEMP_DIR jobId in
  try_catch
    (perform (MkdirSync jobDir);;
     match files req !! "template", files req !! "artwork" with
     | Some templateFile, Some artworkFile =>
       (* Position parameters (in points, 72 points = 1 inch) *)
       let x := JS.or_default (JS.parseFloat (body req !! "x")) (JS.of_Z 0) in
       let y := JS.or_default (JS.parseFloat (body req !! "y")) (JS.of_Z 0) in
       let width := JS.or_default (JS.parseFloat (body req !! "width")) (JS.of_Z 0) in
       let height := JS.or_default (JS.parseFloat (body req !! "height")) (JS.of_Z 0) in
       let pageWidth := JS.or_default (JS.parseFloat (body req !! "pageWidth")) (JS.of_Z 612) in
       let pageHeight := JS.or_default (JS.parseFloat (body req !! "pageHeight")) (JS.of_Z 792) in
       (* Save files *)
       let templatePath := path_join jobDir "template.pdf" in
       let artworkPath := path_join jobDir "artwork.png" in
       let outputPath := path_join jobDir "output.pdf" in
       perform (WriteFileSync templatePath (buffer templateFile));;
       perform (WriteFileSync artworkPath (buffer artworkFile));;
       (* Create PostScript file that overlays the artwork *)
       let psContent := overlayPsContent pageWidth pageHeight x y width height artworkPath in
       let psPath := path_join jobDir "overlay.ps" in
       perform (WriteFileSync psPath (bytes_of psContent));;
       (* Use Ghostscript to merge *)
       perform (ExecSync (overlayGsCmd outputPath templatePath)
                  {| cwd := Some jobDir; timeout := Some 60000%N |});;
       outputBuffer ← perform (ReadFileSync outputPath);
       cleanupJob jobDir;;
       mret {| status := 200;
               headers := [ ("Content-Type", "application/pdf");
                            ("Content-Disposition",
                             "attachment; filename=" +:+ quoted ("printpilot-" +:+ jobId +:+ ".pdf")) ];
               payload := Send outputBuffer |}
     | _, _ => mret (json 400 [("error", "Both template and artwork files are required")])
     end)
    (fun error =>
       ask (ConsoleError [LStr ("Job " +:+ jobId +:+ ": Error:"); LErr error]);;
       cleanupJob jobDir;;
       mret (json 500 [("error", "PDF processing failed"); ("message", message error)])).

(** *** POST /api/create-layered-pdf *)

Definition layeredPsContent (pageWidth pageHeight : JS.number) (artworkLayerName : string) : string :=
  "%!PS-Adobe-3.0
%%BoundingBox: 0 0 " +:+ JS.toString (JS.Math_round pageWidth) +:+ " " +:+ JS.toString (JS.Math_round pageHeight) +:+ "
%%Pages: 1
%%EndComments

% PDF Layer definitions using pdfmark
/pdfmark where {pop} {userdict /pdfmark /cleartomark load put} ifelse

% Create OCG (Optional Content Group) for artwork layer
[/_objdef {artwork_ocg} /type /ocg /OC <<
  /Name (" +:+ artworkLayerName +:+ ")
  /Intent /Design
  /Usage << /CreatorInfo << /Creator (PrintPilot) /Subtype /Artwork >> >>
>> /OC pdfmark

% Create OCG for template/instructions layer
[/_objdef {template_ocg} /type /ocg /OC <<
  /Name (Template)
  /Intent /View
>> /OC pdfmark

% Create OCProperties to register layers
[{Catalog} <<
  /OCProperties <<
    /OCGs [{artwork_ocg} {template_ocg}]
    /D << /Order [{artwork_ocg} {template_ocg}] /ON [{artwork_ocg} {template_ocg}] >>
  >>
>> /PUT pdfmark

%%Page: 1 1
<< /PageSize [" +:+ JS.toString pageWidth +:+ " " +:+ JS.toString pageHeight +:+ "] >> setpagedevice

% Begin artwork layer content
[/OC {artwork_ocg} /BDC pdfmark

% Draw artwork (placeholder - actual image embedding would go here)
0.9 0.9 0.9 setrgbcolor
0 0 " +:+ JS.toString pageWidth +:+ " " +:+ JS.toString pageHeight +:+ " rectfill

% End artwork layer
[/
EMC pdfmark

% Begin template layer
[/OC {template_ocg} /BDC pdfmark

% Template content would go here
0 setgray
0.5 setlinewidth
0 0 " +:+ JS.toString pageWidth +:+ " " +:+ JS.toString pageHeight +:+ " rectstroke

[/EMC pdfmark

showpage
%%EOF
".

Definition layeredGsCmd (outputPath psPath : string) : string :=
  "gs -dNOPAUSE -dBATCH -sDEVICE=pdfwrite       -dCompatibilityLevel=1.7       -dPDFSETTINGS=/prepress       -sOutputFile="
    +:+ quoted outputPath +:+ "       " +:+ quoted psPath +:+ " 2>&1".

Definition create_layered_pdf (jobId : string) (req : Request) : Prog Response :=
  let jobDir := path_join TEMP_DIR jobId in
  try_catch
    (perform (MkdirSync jobDir);;
     match files req !! "artwork" with
     | None => mret (json 400 [("error", "Artwork image is required")])
     | Some artworkFile =>
       let templateFile := files req !! "template" in
       (* Dimensions in points (72 points = 1 inch) *)
       let pageWidth := JS.or_default (JS.parseFloat (body req !! "pageWidth")) (JS.of_Z 612) in
       let pageHeight := JS.or_default (JS.parseFloat (body req !! "pageHeight")) (JS.of_Z 792) in
       let artworkLayerName := text_or (body req !! "artworkLayerName") "ARTWORK HERE" in
       (* Save artwork *)
       let artworkPath := path_join jobDir "artwork.png" in
       let outputPath := path_join jobDir "output.pdf" in
       perform (WriteFileSync artworkPath (buffer artworkFile));;
       (* If we have a template, extract its structure *)
       match templateFile with
       | Some templateFile =>
           let templatePath := path_join jobDir "template.pdf" in
           perform (WriteFileSync templatePath (buffer templateFile))
       | None => mret tt
       end;;
       (* Create a PDF with layers using Ghostscript and pdfmark *)
       let psContent := layeredPsContent pageWidth pageHeight artworkLayerName in
       let psPath := path_join jobDir "layered.ps" in
       perform (WriteFileSync psPath (bytes_of psContent));;
       (* Convert PS to PDF with Ghostscript *)
       ask (ConsoleLog [LStr ("Job " +:+ jobId +:+ ": Creating layered PDF...")]);;
       output ← perform (ExecSync (layeredGsCmd outputPath psPath)
                           {| cwd := Some jobDir; timeout := Some 60000%N |});
       ask (ConsoleLog [LStr ("Job " +:+ jobId +:+ ": Ghostscript output:"); LStr (text_of output)]);;
       created ← ask (ExistsSync outputPath);
       (if negb created then Throw {| message := "Failed to create output PDF" |} else mret tt);;
       outputBuffer ← perform (ReadFileSync outputPath);
       cleanupJob jobDir;;
       mret {| status := 200;
               headers := [ ("Content-Type", "application/pdf");
                            ("Content-Disposition",
                             "attachment; filename="
                               +:+ quoted ("printpilot-layered-" +:+ jobId +:+ ".pdf")) ];
               payload := Send outputBuffer |}
     end)
    (fun error =>
       ask (ConsoleError [LStr ("Job " +:+ jobId +:+ ": Error:"); LErr error]);;
       cleanupJob jobDir;;
       mret (json 500 [("error", "PDF processing failed"); ("message", message error)])).

(** Start server: the callback of [app.listen] *)
Definition on_listen (PORT : string) : Prog unit :=
  ask (ConsoleLog [LStr ("PrintPilot PDF API running on port " +:+ PORT)]);;
  (* Check Ghostscript *)
  try_catch
    (out ← perform (ExecSync "gs --version" {| cwd := None; timeout := None |});
     let gsVersion := JS.trim (text_of out) in
     ask (ConsoleLog [LStr ("Ghostscript version: " +:+ gsVersion)]))
    (fun e => ask (ConsoleWarn [LStr "WARNING: Ghostscript not found! PDF processing will fail."]));;
  (* Check ImageMagick *)
  try_catch
    (out ← perform (ExecSync "convert --version" {| cwd := None; timeout := None |});
     let imVersion := JS.first_line (text_of out) in
     ask (ConsoleLog [LStr ("ImageMagick: " +:+ imVersion)]))
    (fun e => ask (ConsoleWarn [LStr "WARNING: ImageMagick not found. Some features may not work."])).

End RailwayApi.

(** ** src/unnamed/part_000 *)
Module Part000.

Definition TEMP_DIR : string := "/tmp/pdf-processing".

(** Helper: Get file extension from mimetype.  The keys of [map] are its
    own six; a mimetype is [type/subtype], so it is never a property
    inherited from [Object.prototype]. *)
Definition getExtension (mimetype : string) : string :=
  let map : gmap string string :=
    list_to_map
      [ ("image/png", ".png");
        ("image/jpeg", ".jpg");
        ("image/jpg", ".jpg");
        ("image/gif", ".gif");
        ("image/webp", ".webp");
        ("application/pdf", ".pdf") ] in
  text_or (map !! mimetype) ".bin".

(** Helper: Cleanup job directory *)
Definition cleanupJob (jobDir : string) : Prog unit :=
  try_catch
    (present ← ask (ExistsSync jobDir);
     if present : bool then perform (RmSync jobDir) else mret tt)
    (fun e => ask (ConsoleError [LStr "Cleanup error:"; LStr (message e)])).

(** Health check: [GET /] *)
Definition health_check : Prog Response :=
  mret (json 200 [("status", "ok"); ("message", "PrintPilot PDF API is running")]).

(** Check Ghostscript version: [GET /gs-version] *)
Definition gs_version : Prog Response :=
  try_catch
    (out ← perform (ExecSync "gs --version" {| cwd := None; timeout := None |});
     let version := JS.trim (text_of out) in
     mret (json 200 [("ghostscript", version)]))
    (fun error =>
       mret (json 500 [("error", "Ghostscript not installed"); ("details", message error)])).

(** *** POST /api/merge-pdf-layers *)

(* Convert PNG to PDF with exact dimensions (geometry uses !) *)
Definition convertArtworkCmd (artworkPath : string) (pageWidth pageHeight : JS.number)
    (artworkPdfPath : string) : string :=
  "convert " +:+ quoted artworkPath +:+ " -resize " +:+ JS.toString (JS.Math_round pageWidth)
    +:+ "x" +:+ JS.toString (JS.Math_round pageHeight) +:+ "! -density 72 " +:+ quoted artworkPdfPath.

(* Alternative: use Ghostscript to create PDF from image via PostScript *)
Definition imagePsContent (pageWidth pageHeight : JS.number) (artworkPath : string) : string :=
  "%!PS-Adobe-3.0
<< /PageSize [" +:+ JS.toString pageWidth +:+ " " +:+ JS.toString pageHeight +:+ "] >> setpagedevice
(" +:+ artworkPath +:+ ") (r) file /DCTDecode filter
<< /ImageType 1
   /Width " +:+ JS.toString (JS.Math_round pageWidth) +:+ "
   /Height " +:+ JS.toString (JS.Math_round pageHeight) +:+ "
   /BitsPerComponent 8
   /Decode [0 1 0 1 0 1]
   /ImageMatrix [" +:+ JS.toString (JS.Math_round pageWidth) +:+ " 0 0 " +:+ JS.toString (JS.Math_round (JS.neg pageHeight)) +:+ " 0 " +:+ JS.toString (JS.Math_round pageHeight) +:+ "]
   /DataSource currentfile
>> image
showpage
".

Definition gsImageCmd (artworkPdfPath psImagePath : string) : string :=
  "gs -dNOPAUSE -dBATCH -sDEVICE=pdfwrite -sOutputFile=" +:+ quoted artworkPdfPath +:+ " "
    +:+ quoted psImagePath.

(* Method 1: Try pdftk background (artwork as background, template on top) *)
Definition pdftkCmd (templatePath artworkPdfPath outputPath : string) : string :=
  "pdftk " +:+ quoted templatePath +:+ " background " +:+ quoted artworkPdfPath +:+ " output "
    +:+ quoted outputPath.

(* Method 2: Try qpdf underlay *)
Definition qpdfCmd (templatePath artworkPdfPath outputPath : string) : string :=
  "qpdf " +:+ quoted templatePath +:+ " --underlay " +:+ quoted artworkPdfPath +:+ " -- "
    +:+ quoted outputPath.

(* Method 3: Ghostscript, then ImageMagick *)
Definition compositePsContent (pageWidth pageHeight : JS.number) : string :=
  "%!PS-Adobe-3.0 EPSF-3.0
%%BoundingBox: 0 0 " +:+ JS.toString (JS.Math_round pageWidth) +:+ " " +:+ JS.toString (JS.Math_round pageHeight) +:+ "
%%Pages: 1
%%EndComments
%%BeginProlog
/BeginEPSF {
  /b4_Inc_state save def
  /dict_count countdictstack def
  /op_count count 1 sub def
  userdict begin
  /showpage { } def
  0 setgray 0 setlinecap 1 setlinewidth 0 setlinejoin
  10 setmiterlimit [ ] 0 setdash newpath
  /languagelevel where { pop languagelevel 1 ne { false setstrokeadjust false setoverprint } if } if
} bind def
/EndEPSF {
  count op_count sub {pop} repeat
  countdictstack dict_count sub {end} repeat
  b4_Inc_state restore
} bind def
%%EndProlog
%%Page: 1 1
<< /PageSize [" +:+ JS.toString pageWidth +:+ " " +:+ JS.toString pageHeight +:+ "] >> setpagedevice
".

Definition gsCmd (pageWidth pageHeight : JS.number) (intermediatePath artworkPdfPath : string)
    : string :=
  "gs -dNOPAUSE -dBATCH -sDEVICE=pdfwrite             -dPDFSETTINGS=/prepress             -dCompatibilityLevel=1.7             -dAutoRotatePages=/None             -dFirstPage=1 -dLastPage=1             -dFIXEDMEDIA             -dDEVICEWIDTHPOINTS="
    +:+ JS.toString pageWidth +:+ "             -dDEVICEHEIGHTPOINTS=" +:+ JS.toString pageHeight
    +:+ "             -sOutputFile=" +:+ quoted intermediatePath +:+ "             "
    +:+ quoted artworkPdfPath +:+ " 2>&1".

Definition overlayCmd (outputPath intermediatePath : string) (pageHeight : JS.number)
    (templatePath : string) : string :=
  "gs -dNOPAUSE -dBATCH -sDEVICE=pdfwrite             -dPDFSETTINGS=/prepress             -dCompatibilityLevel=1.7             -dAutoRotatePages=/None             -dFirstPage=1 -dLastPage=1             -sOutputFile="
    +:+ quoted outputPath +:+ "             " +:+ quoted intermediatePath +:+ "             -c "
    +:+ dq +:+ "[/Page 1 /View [/XYZ 0 " +:+ JS.toString pageHeight +:+ " 1] /DEST pdfmark" +:+ dq
    +:+ "             -f " +:+ quoted templatePath +:+ " 2>&1".

Definition flattenCmd (pdfPath : string) (pageWidth pageHeight : JS.number) (pngPath : string)
    : string :=
  "convert -density 300 " +:+ quoted (pdfPath +:+ "[0]") +:+ " -resize "
    +:+ JS.toString (JS.Math_round pageWidth) +:+ "x" +:+ JS.toString (JS.Math_round pageHeight)
    +:+ "! " +:+ quoted pngPath.

Definition compositeCmd (jobDir : string) : string :=
  "convert " +:+ quoted (jobDir +:+ "/artwork_flat.png") +:+ " "
    +:+ quoted (jobDir +:+ "/template_flat.png") +:+ " -composite "
    +:+ quoted (jobDir +:+ "/composite.png").

Definition compositePdfCmd (jobDir outputPath : string) : string :=
  "convert " +:+ quoted (jobDir +:+ "/composite.png") +:+ " -density 72 -units PixelsPerInch "
    +:+ quoted outputPath.

(** Step 2 (lines 105-128): Convert artwork PNG to PDF with exact page
    dimensions using ImageMagick *)
Definition step2_convert_artwork (jobId jobDir artworkPath artworkPdfPath : string)
    (pageWidth pageHeight : JS.number) : Prog unit :=
  try_catch
    (perform (ExecSync (convertArtworkCmd artworkPath pageWidth pageHeight artworkPdfPath)
                {| cwd := Some jobDir; timeout := None |});;
     ask (ConsoleLog [LStr ("Job " +:+ jobId +:+ ": Converted artwork to PDF using ImageMagick")]))
    (fun e =>
       ask (ConsoleLog [LStr ("Job " +:+ jobId
                                +:+ ": ImageMagick convert failed, trying alternative...")]);;
       let psImagePath := path_join jobDir "image.ps" in
       let psContent := imagePsContent pageWidth pageHeight artworkPath in
       perform (WriteFileSync psImagePath (bytes_of psContent));;
       perform (ExecSync (gsImageCmd artworkPdfPath psImagePath)
                  {| cwd := Some jobDir; timeout := None |});;
       mret tt).

(** Step 3 (lines 136-235): Overlay artwork UNDER template: pdftk, then
    qpdf, then Ghostscript and ImageMagick, then the artwork PDF itself *)
Definition step3_overlay (jobId jobDir templatePath artworkPdfPath outputPath intermediatePath : string)
    (pageWidth pageHeight : JS.number) : Prog unit :=
  try_catch
    (ask (ConsoleLog [LStr ("Job " +:+ jobId +:+ ": Trying pdftk background...")]);;
     perform (ExecSync (pdftkCmd templatePath artworkPdfPath outputPath)
                {| cwd := Some jobDir; timeout := Some 60000%N |});;
     ask (ConsoleLog [LStr ("Job " +:+ jobId +:+ ": pdftk background succeeded")]))
    (fun pdftkError =>
       ask (ConsoleLog [LStr ("Job " +:+ jobId +:+ ": pdftk not available, trying qpdf...")]);;
       try_catch
         (perform (ExecSync (qpdfCmd templatePath artworkPdfPath outputPath)
                     {| cwd := Some jobDir; timeout := Some 60000%N |});;
          ask (ConsoleLog [LStr ("Job " +:+ jobId +:+ ": qpdf underlay succeeded")]))
         (fun qpdfError =>
            ask (ConsoleLog [LStr ("Job " +:+ jobId
                                     +:+ ": qpdf not available, trying Ghostscript composite...")]);;
            try_catch
              (let compositePs := path_join jobDir "composite.ps" in
               let compositePsContent := compositePsContent pageWidth pageHeight in
               perform (WriteFileSync compositePs (bytes_of compositePsContent));;
               (* First: artwork as base layer *)
               perform (ExecSync (gsCmd pageWidth pageHeight intermediatePath artworkPdfPath)
                          {| cwd := Some jobDir; timeout := Some 60000%N |});;
               ask (ConsoleLog [LStr ("Job " +:+ jobId +:+ ": Created artwork base layer")]);;
               (* Now overlay template on top using pdfmark /SP (showpage mark) *)
               perform (ExecSync (overlayCmd outputPath intermediatePath pageHeight templatePath)
                          {| cwd := Some jobDir; timeout := Some 60000%N |});;
               ask (ConsoleLog [LStr ("Job " +:+ jobId
                                        +:+ ": Added template overlay - but this creates 2 pages")]);;
               (* Better approach: Use convert (ImageMagick) to composite the pages *)
               ask (ConsoleLog [LStr ("Job " +:+ jobId +:+ ": Trying ImageMagick composite...")]);;
               perform (ExecSync (flattenCmd artworkPdfPath pageWidth pageHeight
                                    (jobDir +:+ "/artwork_flat.png"))
                          {| cwd := Some jobDir; timeout := Some 60000%N |});;
               perform (ExecSync (flattenCmd templatePath pageWidth pageHeight
                                    (jobDir +:+ "/template_flat.png"))
                          {| cwd := Some jobDir; timeout := Some 60000%N |});;
               perform (ExecSync (compositeCmd jobDir)
                          {| cwd := Some jobDir; timeout := Some 60000%N |});;
               perform (ExecSync (compositePdfCmd jobDir outputPath)
                          {| cwd := Some jobDir; timeout := Some 60000%N |});;
               ask (ConsoleLog [LStr ("Job " +:+ jobId +:+ ": ImageMagick composite succeeded")]))
              (fun gsError =>
                 ask (ConsoleError [LStr ("Job " +:+ jobId +:+ ": All overlay methods failed:");
                                    LStr (message gsError)]);;
                 (* Final fallback: just return artwork PDF with correct dimensions *)
                 ask (ConsoleLog [LStr ("Job " +:+ jobId +:+ ": Returning artwork-only PDF")]);;
                 perform (CopyFileSync artworkPdfPath outputPath)))).

Definition merge_pdf_layers (jobId : string) (req : Request) : Prog Response :=
  let jobDir := path_join TEMP_DIR jobId in
  try_catch
    ((* Create job directory *)
     perform (MkdirSync jobDir);;
     (* Validate inputs *)
     match files req !! "template" with
     | None => mret (json 400 [("error", "Template PDF is required")])
     | Some templateFile =>
     match files req !! "artwork" with
     | None => mret (json 400 [("error", "Artwork image is required")])
     | Some artworkFile =>
       (* Get parameters *)
       let layerName := text_or (body req !! "layerName") "ARTWORK HERE" in
       let x := JS.or_default (JS.parseFloat (body req !! "x")) (JS.of_Z 0) in
       let y := JS.or_default (JS.parseFloat (body req !! "y")) (JS.of_Z 0) in
       let width := JS.or_default (JS.parseFloat (body req !! "width")) (JS.of_Z 612) in
       let height := JS.or_default (JS.parseFloat (body req !! "height")) (JS.of_Z 792) in
       ask (ConsoleLog [LStr ("Job " +:+ jobId +:+ ": Processing with layer " +:+ quoted layerName
                                +:+ ", position (" +:+ JS.toString x +:+ ", " +:+ JS.toString y
                                +:+ "), size " +:+ JS.toString width +:+ "x" +:+ JS.toString height)]);;
       (* Save files to temp directory *)
       let templatePath := path_join jobDir "template.pdf" in
       let artworkPath := path_join jobDir ("artwork" +:+ getExtension (mimetype artworkFile)) in
       let artworkPdfPath := path_join jobDir "artwork.pdf" in
       let outputPath := path_join jobDir "output.pdf" in
       perform (WriteFileSync templatePath (buffer templateFile));;
       perform (WriteFileSync artworkPath (buffer artworkFile));;
       ask (ConsoleLog [LStr ("Job " +:+ jobId +:+ ": Files saved")]);;
       (* Step 1: Get template PDF dimensions using Ghostscript *)
       let pageWidth := JS.or_default (JS.parseFloat (body req !! "pageWidth")) width in
       let pageHeight := JS.or_default (JS.parseFloat (body req !! "pageHeight")) height in
       ask (ConsoleLog [LStr ("Job " +:+ jobId +:+ ": Page dimensions: " +:+ JS.toString pageWidth
                                +:+ " x " +:+ JS.toString pageHeight +:+ " points")]);;
       (* Step 2: Convert artwork PNG to PDF with exact page dimensions using ImageMagick *)
       step2_convert_artwork jobId jobDir artworkPath artworkPdfPath pageWidth pageHeight;;
       (* Step 3: Overlay artwork UNDER template using Ghostscript *)
       ask (ConsoleLog [LStr ("Job " +:+ jobId +:+ ": Creating overlay PDF...")]);;
       let intermediatePath := path_join jobDir "intermediate.pdf" in
       step3_overlay jobId jobDir templatePath artworkPdfPath outputPath intermediatePath
         pageWidth pageHeight;;
       (* Check if output was created *)
       created ← ask (ExistsSync outputPath);
       (if negb created then Throw {| message := "Output PDF was not created" |} else mret tt);;
       ask (ConsoleLog [LStr ("Job " +:+ jobId +:+ ": PDF created successfully")]);;
       (* Read and send the output file *)
       outputBuffer ← perform (ReadFileSync outputPath);
       (* Cleanup *)
       cleanupJob jobDir;;
       (* Send response *)
       mret {| status := 200;
               headers := [ ("Content-Type", "application/pdf");
                            ("Content-Disposition",
                             "attachment; filename=" +:+ quoted ("printpilot-" +:+ jobId +:+ ".pdf")) ];
               payload := Send outputBuffer |}
     end
     end)
    (fun error =>
       ask (ConsoleError [LStr ("Job " +:+ jobId +:+ ": Error:"); LErr error]);;
       (* Cleanup on error *)
       cleanupJob jobDir;;
       mret (json 500 [ ("error", "PDF processing failed");
                        ("message", message error);
                        ("jobId", jobId) ])).

(** *** POST /api/overlay-artwork *)

Definition overlayPsContent (pageWidth pageHeight x y width height : JS.number)
    (artworkPath : string) : string :=
  "
%!PS-Adobe-3.0
%%BoundingBox: 0 0 " +:+ JS.toString pageWidth +:+ " " +:+ JS.toString pageHeight +:+ "
%%Pages: 1
%%EndComments

%%Page: 1 1

% Draw the artwork image
" +:+ JS.toString x +:+ " " +:+ JS.toString y +:+ " translate
" +:+ JS.toString width +:+ " " +:+ JS.toString height +:+ " scale

(" +:+ artworkPath +:+ ") (r) file /DCTDecode filter
<< /ImageType 1
   /Width " +:+ JS.toString width +:+ "
   /Height " +:+ JS.toString height +:+ "
   /BitsPerComponent 8
   /Decode [0 1 0 1 0 1]
   /ImageMatrix [1 0 0 -1 0 1]
   /DataSource currentfile
>> image

showpage
%%EOF
".

Definition overlayGsCmd (outputPath templatePath : string) : string :=
  "gs -dNOPAUSE -dBATCH -sDEVICE=pdfwrite       -dCompatibilityLevel=1.7       -dPDFSETTINGS=/prepress       -sOutputFile="
    +:+ quoted outputPath +:+ "       " +:+ quoted templatePath.

Definition overlay_artwork (jobId : string) (req : Request) : Prog Response :=
  let jobDir := path_join TEMP_DIR jobId in
  try_catch
    (perform (MkdirSync jobDir);;
     match files req !! "template", files req !! "artwork" with
     | Some templateFile, Some artworkFile =>
       (* Position parameters (in points, 72 points = 1 inch) *)
       let x := JS.or_default (JS.parseFloat (body req !! "x")) (JS.of_Z 0) in
       let y := JS.or_default (JS.parseFloat (body req !! "y")) (JS.of_Z 0) in
       let width := JS.or_default (JS.parseFloat (body req !! "width")) (JS.of_Z 0) in
       let height := JS.or_default (JS.parseFloat (body req !! "height")) (JS.of_Z 0) in
       let pageWidth := JS.or_default (JS.parseFloat (body req !! "pageWidth")) (JS.of_Z 612) in
       let pageHeight := JS.or_default (JS.parseFloat (body req !! "pageHeight")) (JS.of_Z 792) in
       (* Save files *)
       let templatePath := path_join jobDir "template.pdf" in
       let artworkPath := path_join jobDir "artwork.png" in
       let outputPath := path_join jobDir "output.pdf" in
       perform (WriteFileSync templatePath (buffer templateFile));;
       perform (WriteFileSync artworkPath (buffer artworkFile));;
       (* Create PostScript file that overlays the artwork *)
       let psContent := overlayPsContent pageWidth pageHeight x y width height artworkPath in
       let psPath := path_join jobDir "overlay.ps" in
       perform (WriteFileSync psPath (bytes_of psContent));;
       (* Use Ghostscript to merge *)
       perform (ExecSync (overlayGsCmd outputPath templatePath)
                  {| cwd := Some jobDir; timeout := Some 60000%N |});;
       outputBuffer ← perform (ReadFileSync outputPath);
       cleanupJob jobDir;;
       mret {| status := 200;
               headers := [ ("Content-Type", "application/pdf");
                            ("Content-Disposition",
                             "attachment; filename=" +:+ quoted ("printpilot-" +:+ jobId +:+ ".pdf")) ];
               payload := Send outputBuffer |}
     | _, _ => mret (json 400 [("error", "Both template and artwork files are required")])
     end)
    (fun error =>
       ask (ConsoleError [LStr ("Job " +:+ jobId +:+ ": Error:"); LErr error]);;
       cleanupJob jobDir;;
       mret (json 500 [("error", "PDF processing failed"); ("message", message error)])).

(** *** POST /api/create-layered-pdf *)

Definition layeredPsContent (pageWidth pageHeight : JS.number) (artworkLayerName : string) : string :=
  "%!PS-Adobe-3.0
%%BoundingBox: 0 0 " +:+ JS.toString (JS.Math_round pageWidth) +:+ " " +:+ JS.toString (JS.Math_round pageHeight) +:+ "
%%Pages: 1
%%EndComments

% PDF Layer definitions using pdfmark
/pdfmark where {pop} {userdict /pdfmark /cleartomark load put} ifelse

% Create OCG (Optional Content Group) for artwork layer
[/_objdef {artwork_ocg} /type /ocg /OC <<
  /Name (" +:+ artworkLayerName +:+ ")
  /Intent /Design
  /Usage << /CreatorInfo << /Creator (PrintPilot) /Subtype /Artwork >> >>
>> /OC pdfmark

% Create OCG for template/instructions layer
[/_objdef {template_ocg} /type /ocg /OC <<
  /Name (Template)
  /Intent /View
>> /OC pdfmark

% Create OCProperties to register layers
[{Catalog} <<
  /OCProperties <<
    /OCGs [{artwork_ocg} {template_ocg}]
    /D << /Order [{artwork_ocg} {template_ocg}] /ON [{artwork_ocg} {template_ocg}] >>
  >>
>> /PUT pdfmark

%%Page: 1 1
<< /PageSize [" +:+ JS.toString pageWidth +:+ " " +:+ JS.toString pageHeight +:+ "] >> setpagedevice

% Begin artwork layer content
[/OC {artwork_ocg} /BDC pdfmark

% Draw artwork (placeholder - actual image embedding would go here)
0.9 0.9 0.9 setrgbcolor
0 0 " +:+ JS.toString pageWidth +:+ " " +:+ JS.toString pageHeight +:+ " rectfill

% End artwork layer
[/
EMC pdfmark

% Begin template layer
[/OC {template_ocg} /BDC pdfmark

% Template content would go here
0 setgray
0.5 setlinewidth
0 0 " +:+ JS.toString pageWidth +:+ " " +:+ JS.toString pageHeight +:+ " rectstroke

[/EMC pdfmark

showpage
%%EOF
".

Definition layeredGsCmd (outputPath psPath : string) : string :=
  "gs -dNOPAUSE -dBATCH -sDEVICE=pdfwrite       -dCompatibilityLevel=1.7       -dPDFSETTINGS=/prepress       -sOutputFile="
    +:+ quoted outputPath +:+ "       " +:+ quoted psPath +:+ " 2>&1".

Definition create_layered_pdf (jobId : string) (req : Request) : Prog Response :=
  let jobDir := path_join TEMP_DIR jobId in
  try_catch
    (perform (MkdirSync jobDir);;
     match files req !! "artwork" with
     | None => mret (json 400 [("error", "Artwork image is required")])
     | Some artworkFile =>
       let templateFile := files req !! "template" in
       (* Dimensions in points (72 points = 1 inch) *)
       let pageWidth := JS.or_default (JS.parseFloat (body req !! "pageWidth")) (JS.of_Z 612) in
       let pageHeight := JS.or_default (JS.parseFloat (body req !! "pageHeight")) (JS.of_Z 792) in
       let artworkLayerName := text_or (body req !! "artworkLayerName") "ARTWORK HERE" in
       (* Save artwork *)
       let artworkPath := path_join jobDir "artwork.png" in
       let outputPath := path_join jobDir "output.pdf" in
       perform (WriteFileSync artworkPath (buffer artworkFile));;
       (* If we have a template, extract its structure *)
       match templateFile with
       | Some templateFile =>
           let templatePath := path_join jobDir "template.pdf" in
           perform (WriteFileSync templatePath (buffer templateFile))
       | None => mret tt
       end;;
       (* Create a PDF with layers using Ghostscript and pdfmark *)
       let psContent := layeredPsContent pageWidth pageHeight artworkLayerName in
       let psPath := path_join jobDir "layered.ps" in
       perform (WriteFileSync psPath (bytes_of psContent));;
       (* Convert PS to PDF with Ghostscript *)
       ask (ConsoleLog [LStr ("Job " +:+ jobId +:+ ": Creating layered PDF...")]);;
       output ← perform (ExecSync (layeredGsCmd outputPath psPath)
                           {| cwd := Some jobDir; timeout := Some 60000%N |});
       ask (ConsoleLog [LStr ("Job " +:+ jobId +:+ ": Ghostscript output:"); LStr (text_of output)]);;
       created ← ask (ExistsSync outputPath);
       (if negb created then Throw {| message := "Failed to create output PDF" |} else mret tt);;
       outputBuffer ← perform (ReadFileSync outputPath);
       cleanupJob jobDir;;
       mret {| status := 200;
               headers := [ ("Content-Type", "application/pdf");
                            ("Content-Disposition",
                             "attachment; filename="
                               +:+ quoted ("printpilot-layered-" +:+ jobId +:+ ".pdf")) ];
               payload := Send outputBuffer |}
     end)
    (fun error =>
       ask (ConsoleError [LStr ("Job " +:+ jobId +:+ ": Error:"); LErr error]);;
       cleanupJob jobDir;;
       mret (json 500 [("error", "PDF processing failed"); ("message", message error)])).

(** Start server: the callback of [app.listen] *)
Definition on_listen (PORT : string) : Prog unit :=
  ask (ConsoleLog [LStr ("PrintPilot PDF API running on port " +:+ PORT)]);;
  (* Check Ghostscript *)
  try_catch
    (out ← perform (ExecSync "gs --version" {| cwd := None; timeout := None |});
     let gsVersion := JS.trim (text_of out) in
     ask (ConsoleLog [LStr ("Ghostscript version: " +:+ gsVersion)]))
    (fun e => ask (ConsoleWarn [LStr "WARNING: Ghostscript not found! PDF processing will fail."]));;
  (* Check ImageMagick *)
  try_catch
    (out ← perform (ExecSync "convert --version" {| cwd := None; timeout := None |});
     let imVersion := JS.first_line (text_of out) in
     ask (ConsoleLog [LStr ("ImageMagick: " +:+ imVersion)]))
    (fun e => ask (ConsoleWarn [LStr "WARNING: ImageMagick not found. Some features may not work."])).

End Part000.

(** ** The handlers by file and endpoint *)

Definition handler (f : SourceFile) (ep : Endpoint) : string -> Request -> Prog Response :=
  match f, ep with
  | server_js, merge_pdf_layers_ep => ServerJs.merge_pdf_layers
  | server_js, overlay_artwork_ep => ServerJs.overlay_artwork
  | server_js, create_layered_pdf_ep => ServerJs.create_layered_pdf
  | railway_api_server_js, merge_pdf_layers_ep => RailwayApi.merge_pdf_layers
  | railway_api_server_js, overlay_artwork_ep => RailwayApi.overlay_artwork
  | railway_api_server_js, create_layered_pdf_ep => RailwayApi.create_layered_pdf
  | part_000, merge_pdf_layers_ep => Part000.merge_pdf_layers
  | part_000, overlay_artwork_ep => Part000.overlay_artwork
  | part_000, create_layered_pdf_ep => Part000.create_layered_pdf
  end.

(** Every program the three files run: the POST handlers, [GET /],
    [GET /gs-version] and the start-up check. *)
Inductive Routine :=
| Post (ep : Endpoint) (jobId : string) (req : Request)
| HealthCheck
| GsVersion
| OnListen (PORT : string).

Definition routine (f : SourceFile) (r : Routine) : Prog unit :=
  match r with
  | Post ep jobId req => handler f ep jobId req;; mret tt
  | HealthCheck =>
      match f with
      | server_js => ServerJs.health_check
      | railway_api_server_js => RailwayApi.health_check
      | part_000 => Part000.health_check
      end;; mret tt
  | GsVersion =>
      match f with
      | server_js => ServerJs.gs_version
      | railway_api_server_js => RailwayApi.gs_version
      | part_000 => Part000.gs_version
      end;; mret tt
  | OnListen PORT =>
      match f with
      | server_js => ServerJs.on_listen PORT
      | railway_api_server_js => RailwayApi.on_listen PORT
      | part_000 => Part000.on_listen PORT
      end
  end.

(** *** Names for what a handler computes from a request *)

(** The per-job directory and the files in it. *)
Definition jobDir (jobId : string) : string := path_join "/tmp/pdf-processing" jobId.
Definition templatePath (jobId : string) : string := path_join (jobDir jobId) "template.pdf".
Definition artworkPdfPath (jobId : string) : string := path_join (jobDir jobId) "artwork.pdf".
Definition outputPath (jobId : string) : string := path_join (jobDir jobId) "output.pdf".

(** Where a handler stores the uploaded artwork: the merge handlers take
    the extension from the mimetype, the other two always say [.png]. *)
Definition artworkPath (ep : Endpoint) (jobId : string) (artworkFile : UploadedFile) : string :=
  match ep with
  | merge_pdf_layers_ep =>
      path_join (jobDir jobId) ("artwork" +:+ ServerJs.getExtension (mimetype artworkFile))
  | _ => path_join (jobDir jobId) "artwork.png"
  end.

(** [parseFloat(req.body.name) || d] *)
Definition field (req : Request) (name : string) (d : JS.number) : JS.number :=
  JS.or_default (JS.parseFloat (body req !! name)) d.


(** The request with another file in one upload field. *)
Definition with_file (name : string) (f : UploadedFile) (req : Request) : Request :=
  {| files := <[name := f]> (files req); body := body req |}.

(** A request passes upload validation when the files its endpoint
    requires are there. *)
Definition uploads_present (ep : Endpoint) (req : Request) : bool :=
  match ep with
  | create_layered_pdf_ep => bool_decide (is_Some (files req !! "artwork"))
  | _ => bool_decide (is_Some (files req !! "template"))
         && bool_decide (is_Some (files req !! "artwork"))
  end.

(** The program a command line starts: its first word. *)
Fixpoint binary (command : string) : string :=
  match command with
  | EmptyString => EmptyString
  | String c rest => if Ascii.eqb c " " then EmptyString else String c (binary rest)
  end.

(** *** Tool invocations and file operations of a run *)

Inductive Action :=
| Run (command : string)
| Write (path : string)
| Copy (src dest : string).

Definition Log : Type := list (Action * bool).

Definition action_of (en : Entry) : option (Action * bool) :=
  match en with
  | Obs ev r =>
      match ev in Event X return X -> option (Action * bool) with
      | ExecSync c _ => fun r => Some (Run c, returned r)
      | WriteFileSync p _ => fun r => Some (Write p, returned r)
      | CopyFileSync a b => fun r => Some (Copy a b, returned r)
      | _ => fun _ => None
      end r
  end.

Definition action_log (tr : list Entry) : Log := omap action_of tr.

(** An action was carried out; it threw. *)
Definition carried_out (a : Action) (l : Log) : Prop := exists ok, (a, ok) ∈ l.
Definition threw (a : Action) (l : Log) : Prop := (a, false) ∈ l.

(** A strategy is a block of actions.  It is started when its first
    action is carried out and has raised when one of its actions threw. *)
Definition started (strategy : list Action) (l : Log) : Prop :=
  match strategy with
  | [] => False
  | a :: _ => carried_out a l
  end.
Definition strategy_raised (strategy : list Action) (l : Log) : Prop :=
  Exists (fun a => threw a l) strategy.

(** The strategies after the first form a cascade: each is started if and
    only if every earlier one raised. *)
Fixpoint cascade_after (earlier_raised : Prop) (later : list (list Action)) (l : Log) : Prop :=
  match later with
  | [] => True
  | s :: rest =>
      (started s l <-> earlier_raised)
      /\ cascade_after (earlier_raised /\ strategy_raised s l) rest l
  end.

Definition try_fallback_cascade (strategies : list (list Action)) (l : Log) : Prop :=
  match strategies with
  | [] => True
  | first :: later => cascade_after (strategy_raised first l) later l
  end.

(** The logs that blocks of actions can leave, each with [true] when the
    block ran to its end and [false] when it threw. *)

(* actions one after the other *)
Fixpoint seq_logs (acts : list Action) : list (bool * Log) :=
  match acts with
  | [] => [(true, [])]
  | a :: rest =>
      (false, [(a, false)]) :: map (fun dl : bool * Log => (dl.1, (a, true) :: dl.2)) (seq_logs rest)
  end.

(* a block and then another *)
Definition then_logs (first second : list (bool * Log)) : list (bool * Log) :=
  flat_map (fun dl : bool * Log =>
              if dl.1 then map (fun dl' : bool * Log => (dl'.1, dl.2 ++ dl'.2)) second
              else [(false, dl.2)]) first.

(* try { block } catch { handler } *)
Definition try_logs (block handler : list (bool * Log)) : list (bool * Log) :=
  flat_map (fun dl : bool * Log =>
              if dl.1 then [(true, dl.2)]
              else map (fun dl' : bool * Log => (dl'.1, dl.2 ++ dl'.2)) handler) block.

(* a try/fallback cascade: the first strategy, and when it throws the
   cascade of the others; what the last strategy throws is not caught *)
Fixpoint cascade_logs (strategies : list (list Action)) : list (bool * Log) :=
  match strategies with
  | [] => [(true, [])]
  | s :: rest =>
      match rest with
      | [] => seq_logs s
      | _ :: _ => try_logs (seq_logs s) (cascade_logs rest)
      end
  end.

(** *** The merge handlers, step by step *)

(** src/server.js: the artwork is converted (a failure is only logged),
    then Ghostscript merges, with a simpler Ghostscript run as fallback. *)
Module ServerJsMerge.
Import ServerJs.

Definition width (req : Request) : JS.number := field req "width" (JS.of_Z 612).
Definition height (req : Request) : JS.number := field req "height" (JS.of_Z 792).

Definition convert_step (jobId : string) (req : Request) (artworkFile : UploadedFile)
    : list Action :=
  [ Run (convertArtworkCmd (artworkPath merge_pdf_layers_ep jobId artworkFile)
           (width req) (height req) (artworkPdfPath jobId)) ].

(* what is done before the cascade *)
Definition preparation (jobId : string) (req : Request) (artworkFile : UploadedFile)
    : list Action :=
  [ Write (templatePath jobId);
    Write (artworkPath merge_pdf_layers_ep jobId artworkFile) ]
  ++ convert_step jobId req artworkFile.

Definition strategies (jobId : string) : list (list Action) :=
  [ [ Run (mergeCmd (outputPath jobId) (templatePath jobId) (artworkPdfPath jobId)) ];
    [ Run (simpleMergeCmd (outputPath jobId) (templatePath jobId)) ] ].

Definition logs (jobId : string) (req : Request) (artworkFile : UploadedFile)
    : list (bool * Log) :=
  then_logs
    (seq_logs [ Write (templatePath jobId);
                Write (artworkPath merge_pdf_layers_ep jobId artworkFile) ])
    (then_logs (try_logs (seq_logs (convert_step jobId req artworkFile)) (seq_logs []))
       (cascade_logs (strategies jobId))).
End ServerJsMerge.

(** src/railway-api/server.js: ImageMagick and Ghostscript convert the
    artwork (ImageMagick alone as fallback); then qpdf, pdftk, ImageMagick
    and a plain copy of the artwork PDF are tried in turn. *)
Module RailwayApiMerge.
Import RailwayApi.

Definition pageWidth (req : Request) : JS.number :=
  field req "pageWidth" (field req "width" (JS.of_Z 612)).
Definition pageHeight (req : Request) : JS.number :=
  field req "pageHeight" (field req "height" (JS.of_Z 792)).

Definition convert_step (jobId : string) (req : Request) (artworkFile : UploadedFile)
    : list (bool * Log) :=
  let png := artworkPath merge_pdf_layers_ep jobId artworkFile in
  try_logs
    (seq_logs [ Run (convertRawCmd png (jobDir jobId));
                Run (gsResizeCmd (pageWidth req) (pageHeight req) (artworkPdfPath jobId)
                       (jobDir jobId)) ])
    (seq_logs [ Run (convertPageCmd png (pageWidth req) (pageHeight req)
                       (artworkPdfPath jobId)) ]).

(* what is done before the cascade *)
Definition preparation (jobId : string) (req : Request) (artworkFile : UploadedFile)
    : list Action :=
  let png := artworkPath merge_pdf_layers_ep jobId artworkFile in
  [ Write (templatePath jobId);
    Write png;
    Run (convertRawCmd png (jobDir jobId));
    Run (gsResizeCmd (pageWidth req) (pageHeight req) (artworkPdfPath jobId) (jobDir jobId));
    Run (convertPageCmd png (pageWidth req) (pageHeight req) (artworkPdfPath jobId)) ].

Definition strategies (jobId : string) (req : Request) : list (list Action) :=
  [ [ Run (qpdfCmd (templatePath jobId) (artworkPdfPath jobId) (outputPath jobId)) ];
    [ Run (pdftkCmd (templatePath jobId) (artworkPdfPath jobId) (outputPath jobId)) ];
    [ Run (flattenCmd (JS.of_Z 300) (templatePath jobId)
             (jobDir jobId +:+ "/template_flat.png"));
      Run (flattenCmd (JS.of_Z 300) (artworkPdfPath jobId)
             (jobDir jobId +:+ "/artwork_flat.png"));
      Run (compositeCmd (jobDir jobId));
      Run (compositePdfCmd (jobDir jobId) (pageWidth req) (pageHeight req) (outputPath jobId)) ];
    [ Copy (artworkPdfPath jobId) (outputPath jobId) ] ].

Definition logs (jobId : string) (req : Request) (artworkFile : UploadedFile)
    : list (bool * Log) :=
  then_logs
    (seq_logs [ Write (templatePath jobId);
                Write (artworkPath merge_pdf_layers_ep jobId artworkFile) ])
    (then_logs (convert_step jobId req artworkFile) (cascade_logs (strategies jobId req))).
End RailwayApiMerge.

(** src/unnamed/part_000: ImageMagick converts the artwork (Ghostscript on
    a generated PostScript file as fallback); then pdftk, qpdf, a
    Ghostscript and ImageMagick composite and a plain copy of the artwork
    PDF are tried in turn. *)
Module Part000Merge.
Import Part000.

Definition pageWidth (req : Request) : JS.number :=
  field req "pageWidth" (field req "width" (JS.of_Z 612)).
Definition pageHeight (req : Request) : JS.number :=
  field req "pageHeight" (field req "height" (JS.of_Z 792)).

Definition convert_step (jobId : string) (req : Request) (artworkFile : UploadedFile)
    : list (bool * Log) :=
  try_logs
    (seq_logs [ Run (convertArtworkCmd (artworkPath merge_pdf_layers_ep jobId artworkFile)
                       (pageWidth req) (pageHeight req) (artworkPdfPath jobId)) ])
    (seq_logs [ Write (path_join (jobDir jobId) "image.ps");
                Run (gsImageCmd (artworkPdfPath jobId) (path_join (jobDir jobId) "image.ps")) ]).

(* what is done before the cascade *)
Definition preparation (jobId : string) (req : Request) (artworkFile : UploadedFile)
    : list Action :=
  let art := artworkPath merge_pdf_layers_ep jobId artworkFile in
  [ Write (templatePath jobId);
    Write art;
    Run (convertArtworkCmd art (pageWidth req) (pageHeight req) (artworkPdfPath jobId));
    Write (path_join (jobDir jobId) "image.ps");
    Run (gsImageCmd (artworkPdfPath jobId) (path_join (jobDir jobId) "image.ps")) ].

Definition strategies (jobId : string) (req : Request) : list (list Action) :=
  let intermediatePath := path_join (jobDir jobId) "intermediate.pdf" in
  [ [ Run (pdftkCmd (templatePath jobId) (artworkPdfPath jobId) (outputPath jobId)) ];
    [ Run (qpdfCmd (templatePath jobId) (artworkPdfPath jobId) (outputPath jobId)) ];
    [ Write (path_join (jobDir jobId) "composite.ps");
      Run (gsCmd (pageWidth req) (pageHeight req) intermediatePath (artworkPdfPath jobId));
      Run (overlayCmd (outputPath jobId) intermediatePath (pageHeight req) (templatePath jobId));
      Run (flattenCmd (artworkPdfPath jobId) (pageWidth req) (pageHeight req)
             (jobDir jobId +:+ "/artwork_flat.png"));
      Run (flattenCmd (templatePath jobId) (pageWidth req) (pageHeight req)
             (jobDir jobId +:+ "/template_flat.png"));
      Run (compositeCmd (jobDir jobId));
      Run (compositePdfCmd (jobDir jobId) (outputPath jobId)) ];
    [ Copy (artworkPdfPath jobId) (outputPath jobId) ] ].

Definition logs (jobId : string) (req : Request) (artworkFile : UploadedFile)
    : list (bool * Log) :=
  then_logs
    (seq_logs [ Write (templatePath jobId);
                Write (artworkPath merge_pdf_layers_ep jobId artworkFile) ])
    (then_logs (convert_step jobId req artworkFile) (cascade_logs (strategies jobId req))).
End Part000Merge.

(** *** The merge handler of each file *)

Definition merge_strategies (f : SourceFile) (jobId : string) (req : Request)
    : list (list Action) :=
  match f with
  | server_js => ServerJsMerge.strategies jobId
  | railway_api_server_js => RailwayApiMerge.strategies jobId req
  | part_000 => Part000Merge.strategies jobId req
  end.

Definition merge_preparation (f : SourceFile) (jobId : string) (req : Request)
    (artworkFile : UploadedFile) : list Action :=
  match f with
  | server_js => ServerJsMerge.preparation jobId req artworkFile
  | railway_api_server_js => RailwayApiMerge.preparation jobId req artworkFile
  | part_000 => Part000Merge.preparation jobId req artworkFile
  end.

(** The command lines among some actions. *)
Definition runs_of (acts : list Action) : list string :=
  omap (fun a => match a with Run c => Some c | _ => None end) acts.

(** The command lines a handler can run for a request. *)
Definition command_lines (f : SourceFile) (ep : Endpoint) (jobId : string) (req : Request)
    : list string :=
  match ep with
  | merge_pdf_layers_ep =>
      match files req !! "artwork" with
      | Some artworkFile =>
          runs_of (merge_preparation f jobId req artworkFile
                   ++ concat (merge_strategies f jobId req))
      | None => []
      end
  | overlay_artwork_ep => [ ServerJs.overlayGsCmd (outputPath jobId) (templatePath jobId) ]
  | create_layered_pdf_ep =>
      [ ServerJs.layeredGsCmd (outputPath jobId) (path_join (jobDir jobId) "layered.ps") ]
  end.

(** ** Properties of runs *)

(** [post w p s Q]: the run of [p] from [s] in world [w] ends in an
    outcome, a state and a trace that satisfy [Q]. *)
Definition post {S A} (w : World S) (p : Prog A) (s : S)
    (Q : Outcome A -> S -> list Entry -> Prop) : Prop :=
  Q (outcome_of (run w p s)) (state_of (run w p s)) (trace_of (run w p s)).

Definition as_outcome {X} (r : Result X) : Outcome X :=
  match r with Threw e => Uncaught e | Returned x => Done x end.

Definition is_done {A} (o : Outcome A) : bool :=
  match o with Done _ => true | Uncaught _ => false end.


(** [always P p]: whatever the answers, each effect [p] performs
    satisfies [P] together with its answer. *)
Fixpoint always {A} (P : Entry -> Prop) (p : Prog A) : Prop :=
  match p with
  | Ret _ | Throw _ => True
  | Vis ev k => forall r, P (Obs ev r) /\ always P (k r)
  end.

(** A part of a trace without tool invocations and file operations. *)
Definition quiet (t : list Entry) : Prop := action_log t = [] /\ read_log t = [].

(** *** Logs of blocks *)

Definition all_true (s : list Action) : Log := map (fun a => (a, true)) s.

(** none of the actions of [s] occurs in [l] *)
Definition absent (s : list Action) (l : Log) : Prop := forall a ok, a ∈ s -> (a, ok) ∉ l.

(** every action of every log of [L] is one of [U] *)
Definition drawn_from (U : list Action) (L : list (bool * Log)) : Prop :=
  forall d l a ok, (d, l) ∈ L -> (a, ok) ∈ l -> a ∈ U.

(** *** External programs *)

Definition external_binaries : list string := ["gs"; "convert"; "qpdf"; "pdftk"].

Definition runs_known_binary (en : Entry) : Prop :=
  match exec_of en with
  | Some (c, _) => binary c ∈ external_binaries
  | None => True
  end.

(** *** What the handlers themselves put on disk *)







(** *** Programs that differ in their console output only *)


(** *** The job directory in the disk world *)

Definition on_disk (d : Disk) (dir : string) : Prop := exists_on d dir = true.

Definition gone (d : Disk) (dir : string) : Prop :=
  exists_on d dir = false /\ forall p, within dir p = true -> contents d !! p = None.

(** Nothing is removed. *)
Definition keeps_files (en : Entry) : Prop :=
  match en with
  | Obs (RmSync _) _ => False
  | _ => True
  end.



(** ** Sample requests and tools *)

Definition sample_job : string := "7f3c".

Definition file_of (mimetype text : string) : UploadedFile :=
  {| mimetype := mimetype; buffer := bytes_of text |}.

Definition sample_template : UploadedFile := file_of "application/pdf" "%PDF-1.7 template".
Definition sample_artwork : UploadedFile := file_of "image/png" "PNG artwork".
Definition other_artwork : UploadedFile := file_of "image/png" "PNG other artwork".
Definition pdf_artwork : UploadedFile := file_of "application/pdf" "%PDF-1.4 artwork".

Definition request_with (artwork : UploadedFile) (fields : list (string * string)) : Request :=
  {| files := {[ "template" := sample_template; "artwork" := artwork ]};
     body := list_to_map fields |}.

Definition template_only : Request :=
  {| files := {[ "template" := sample_template ]}; body := ∅ |}.

(** An artwork to be placed at (10, 20), 200 by 100 points. *)
Definition placement : list (string * string) :=
  [("x", "10"); ("y", "20"); ("width", "200"); ("height", "100")].

(** Tools that return without writing anything. *)
Definition idle : Tools := fun _ _ _ => {| tool_result := Returned []; tool_writes := [] |}.

(** No tool is installed: every command throws. *)
Definition not_installed : Tools :=
  fun c _ _ => {| tool_result := Threw {| message := "Command failed: " +:+ c |};
                  tool_writes := [] |}.

(** Ghostscript as the overlay handler of a job calls it: the [pdfwrite]
    device with one input file, whose output is taken to be the bytes of
    that input.  Every other command throws. *)
Definition ghostscript (jobId : string) : Tools :=
  fun c o fs =>
    if String.eqb c (ServerJs.overlayGsCmd (outputPath jobId) (templatePath jobId)) then
      match fs !! templatePath jobId with
      | Some data => {| tool_result := Returned []; tool_writes := [(outputPath jobId, data)] |}
      | None => not_installed c o fs
      end
    else not_installed c o fs.

(** qpdf and pdftk are missing; the other commands return. *)
Definition without_pdftk_and_qpdf : Tools :=
  fun c o fs =>
    if bool_decide (binary c ∈ ["qpdf"; "pdftk"]) then not_installed c o fs else idle c o fs.

(** qpdf and pdftk are missing and rasterizing a PDF fails; the other
    commands return without touching a file. *)
Definition no_overlay_tool : Tools :=
  fun c o fs =>
    if bool_decide (binary c ∈ ["qpdf"; "pdftk"]) || String.prefix "convert -density" c
    then not_installed c o fs
    else idle c o fs.


(** ** Start-up of the module (lines 22-28 of each file) *)

(** Ensure temp directory exists *)
Definition ensure_temp_dir : Prog unit :=
  present ← ask (ExistsSync ServerJs.TEMP_DIR);
  if negb present then perform (MkdirSync ServerJs.TEMP_DIR) else mret tt.

(** ** What an effect touches *)

(** The file operations of an entry stay in [dir]: the directory made or
    removed is [dir], every path written, copied, read or looked for is
    [dir] or lies below it, and a command runs with [dir] as its working
    directory. *)
Definition stays_in (dir : string) (en : Entry) : Prop :=
  match en with
  | Obs (MkdirSync p) _ => p = dir
  | Obs (RmSync p) _ => p = dir
  | Obs (WriteFileSync p _) _ => within dir p = true
  | Obs (ExistsSync p) _ => within dir p = true
  | Obs (ReadFileSync p) _ => within dir p = true
  | Obs (CopyFileSync a b) _ => within dir a = true /\ within dir b = true
  | Obs (ExecSync _ o) _ => cwd o = Some dir
  | _ => True
  end.


(** Two disks are the same outside [dir]. *)
Definition same_outside (dir : string) (d d' : Disk) : Prop :=
  forall p, within dir p = false ->
            contents d' !! p = contents d !! p /\ (p ∈ dirs d' <-> p ∈ dirs d).


(** [cleanupJob] of a file. *)
Definition cleanupJob_of (f : SourceFile) : string -> Prog unit :=
  match f with
  | server_js => ServerJs.cleanupJob
  | railway_api_server_js => RailwayApi.cleanupJob
  | part_000 => Part000.cleanupJob
  end.

(** ** The shape of a response *)

(** The name of the file a 200 response offers. *)
Definition download_name (ep : Endpoint) (jobId : string) : string :=
  match ep with
  | create_layered_pdf_ep => "printpilot-layered-" +:+ jobId +:+ ".pdf"
  | _ => "printpilot-" +:+ jobId +:+ ".pdf"
  end.

(** What a handler says of a missing upload: the merge handlers look for
    the template first. *)
Definition rejection_message (ep : Endpoint) (req : Request) : string :=
  match ep with
  | merge_pdf_layers_ep =>
      match files req !! "template" with
      | None => "Template PDF is required"
      | Some _ => "Artwork image is required"
      end
  | overlay_artwork_ep => "Both template and artwork files are required"
  | create_layered_pdf_ep => "Artwork image is required"
  end.

(** A response is a PDF download, a rejection or a failure report. *)
Definition well_formed_response (ep : Endpoint) (jobId : string) (req : Request)
    (r : Response) : Prop :=
  (status r = 200
   /\ headers r = [ ("Content-Type", "application/pdf");
                    ("Content-Disposition",
                     "attachment; filename=" +:+ quoted (download_name ep jobId)) ]
   /\ exists data, payload r = Send data)
  \/ (status r = 400 /\ headers r = []
      /\ payload r = Json [("error", rejection_message ep req)])
  \/ (status r = 500 /\ headers r = []
      /\ exists msg,
          payload r = Json ([("error", "PDF processing failed"); ("message", msg)]
                            ++ match ep with
                               | merge_pdf_layers_ep => [("jobId", jobId)]
                               | _ => []
                               end)).

(** ** Waiting for a tool *)

(** A command of this entry is given at most [ms] milliseconds. *)
Definition waits_at_most (ms : N) (en : Entry) : Prop :=
  match exec_of en, en with
  | Some _, Obs (ExecSync _ o) _ => exists t, timeout o = Some t /\ (t <= ms)%N
  | _, _ => True
  end.

(** The handlers whose commands all have a timeout: all but the merge
    handlers of src/server.js and src/unnamed/part_000, which convert the
    artwork without one. *)
Definition time_limited (f : SourceFile) (ep : Endpoint) : bool :=
  match f, ep with
  | server_js, merge_pdf_layers_ep | part_000, merge_pdf_layers_ep => false
  | _, _ => true
  end.

Definition has_no_timeout (en : Entry) : bool :=
  match en with
  | Obs (ExecSync _ o) _ => match timeout o with None => true | Some _ => false end
  | _ => false
  end.

(** ** Programs that differ in what they store in some files *)

(** The files whose content or presence an effect asks for. *)
Definition looks_at {X} (ev : Event X) : list string :=
  match ev with
  | ExistsSync p => [p]
  | ReadFileSync p => [p]
  | CopyFileSync a _ => [a]
  | _ => []
  end.

(** Two programs are the same but for the data they write to the files
    of [hidden], which neither of them looks at. *)
Inductive same_but_for {A : Type} (hidden : list string) : Prog A -> Prog A -> Prop :=
| same_but_for_ret (a : A) : same_but_for hidden (Ret a) (Ret a)
| same_but_for_throw (e : JSError) : same_but_for hidden (Throw e) (Throw e)
| same_but_for_vis {X} (ev : Event X) (k k' : X -> Prog A) :
    Forall (fun p => p ∉ hidden) (looks_at ev) ->
    (forall r, same_but_for hidden (k r) (k' r)) ->
    same_but_for hidden (Vis ev k) (Vis ev k')
| same_but_for_write (p : string) (data data' : list byte) (k k' : Result unit -> Prog A) :
    p ∈ hidden ->
    (forall r, same_but_for hidden (k r) (k' r)) ->
    same_but_for hidden (Vis (WriteFileSync p data) k) (Vis (WriteFileSync p data') k').

(** Tools whose answer does not depend on the files of [hidden]. *)
Definition blind_to (hidden : list string) (tools : Tools) : Prop :=
  forall c o fs fs',
    (forall p, p ∉ hidden -> fs !! p = fs' !! p) -> tools c o fs = tools c o fs'.

(** Two disks with the same directories and, but for [hidden], the same
    files. *)
Definition agree_but_for (hidden : list string) (d d' : Disk) : Prop :=
  dirs d = dirs d' /\ forall p, p ∉ hidden -> contents d !! p = contents d' !! p.

(** The files of a job that no command of the overlay handler names. *)
Definition overlay_unread (jobId : string) : list string :=
  [ path_join (jobDir jobId) "artwork.png"; path_join (jobDir jobId) "overlay.ps" ].

(** The uploads as the create-layered handler stores them. *)
Definition layered_unread (jobId : string) : list string :=
  [ path_join (jobDir jobId) "artwork.png"; path_join (jobDir jobId) "template.pdf" ].

(** * Reasoning about runs *)

Arguments JS.toString : simpl never.
Arguments JS.parseFloat : simpl never.
Arguments JS.Math_round : simpl never.
Arguments JS.of_Z : simpl never.
Arguments JS.or_default : simpl never.
Arguments path_join : simpl never.
Arguments quoted : simpl never.

(** ** Numbers of the form *)









(* the proofs below never look inside a number *)
Opaque JS.toString JS.parseFloat JS.Math_round JS.of_Z JS.or_default JS.neg.

(** ** Runs of composed programs *)

Lemma run_and_then {S A B} (w : World S) (p : Prog A) (f : A -> Prog B) (s : S) :
  run w (and_then p f) s =
  match run w p s with
  | (Done a, s1, t1) => let '(o, s2, t2) := run w (f a) s1 in (o, s2, t1 ++ t2)
  | (Uncaught e, s1, t1) => (Uncaught e, s1, t1)
  end.
Proof.
  revert s. induction p as [a|e|X ev k IH]; intros s; cbn [and_then run].
  - by destruct (run w (f a) s) as [[o s2] t2].
  - done.
  - destruct (react w ev s) as [r s1]. rewrite IH.
    destruct (run w (k r) s1) as [[[a|e] s2] t1]; [|done].
    by destruct (run w (f a) s2) as [[o s3] t2].
Qed.

Lemma run_try_catch {S A} (w : World S) (p : Prog A) (h : JSError -> Prog A) (s : S) :
  run w (try_catch p h) s =
  match run w p s with
  | (Done a, s1, t1) => (Done a, s1, t1)
  | (Uncaught e, s1, t1) => let '(o, s2, t2) := run w (h e) s1 in (o, s2, t1 ++ t2)
  end.
Proof.
  revert s. induction p as [a|e|X ev k IH]; intros s; cbn [try_catch run].
  - done.
  - by destruct (run w (h e) s) as [[o s2] t2].
  - destruct (react w ev s) as [r s1]. rewrite IH.
    destruct (run w (k r) s1) as [[[a|e] s2] t1]; [done|].
    by destruct (run w (h e) s2) as [[o s3] t2].
Qed.


Section PostRules.
Context {S : Type} (w : World S).

Lemma post_ret {A} (a : A) s Q : Q (Done a) s [] -> post w (Ret a) s Q.
Proof. done. Qed.

Lemma post_throw {A} e s (Q : Outcome A -> S -> list Entry -> Prop) :
  Q (Uncaught e) s [] -> post w (Throw e) s Q.
Proof. done. Qed.

Lemma post_perform {X} (ev : Event (Result X)) s Q :
  Q (as_outcome (react w ev s).1) (react w ev s).2 [Obs ev (react w ev s).1] ->
  post w (perform ev) s Q.
Proof.
  unfold post, perform; cbn [run]. destruct (react w ev s) as [[e|x] s1]; done.
Qed.

Lemma post_ask {X} (ev : Event X) s Q :
  Q (Done (react w ev s).1) (react w ev s).2 [Obs ev (react w ev s).1] ->
  post w (ask ev) s Q.
Proof. unfold post, ask; cbn [run]. destruct (react w ev s) as [r s1]; done. Qed.

Lemma post_and_then {A B} (p : Prog A) (f : A -> Prog B) s Q :
  post w p s (fun o s1 t1 =>
    match o with
    | Done a => post w (f a) s1 (fun o2 s2 t2 => Q o2 s2 (t1 ++ t2))
    | Uncaught e => Q (Uncaught e) s1 t1
    end) ->
  post w (and_then p f) s Q.
Proof.
  unfold post. rewrite run_and_then.
  destruct (run w p s) as [[[a|e] s1] t1]; cbn; [|done].
  by destruct (run w (f a) s1) as [[o s2] t2].
Qed.

Lemma post_try_catch {A} (p : Prog A) (h : JSError -> Prog A) s Q :
  post w p s (fun o s1 t1 =>
    match o with
    | Done a => Q (Done a) s1 t1
    | Uncaught e => post w (h e) s1 (fun o2 s2 t2 => Q o2 s2 (t1 ++ t2))
    end) ->
  post w (try_catch p h) s Q.
Proof.
  unfold post. rewrite run_try_catch.
  destruct (run w p s) as [[[a|e] s1] t1]; cbn; [done|].
  by destruct (run w (h e) s1) as [[o s2] t2].
Qed.

Lemma post_abstract {A} (p : Prog A) s (Q : Outcome A -> S -> list Entry -> Prop) :
  (forall Q' : Outcome A -> S -> list Entry -> Prop,
      (forall o s1 t, Q o s1 t -> Q' o s1 t) -> post w p s Q') ->
  post w p s Q.
Proof. intros H. apply H. auto. Qed.

Lemma post_mono {A} (p : Prog A) s (Q Q' : Outcome A -> S -> list Entry -> Prop) :
  post w p s Q -> (forall o s1 t, Q o s1 t -> Q' o s1 t) -> post w p s Q'.
Proof. unfold post. auto. Qed.
End PostRules.


Section Always.
Context (P : Entry -> Prop).

Lemma always_and_then {A B} (p : Prog A) (f : A -> Prog B) :
  always P p -> (forall a, always P (f a)) -> always P (and_then p f).
Proof.
  intros Hp Hf. induction p as [a|e|X ev k IH]; cbn [and_then always] in *; auto.
  intros r. destruct (Hp r). auto.
Qed.

Lemma always_try_catch {A} (p : Prog A) (h : JSError -> Prog A) :
  always P p -> (forall e, always P (h e)) -> always P (try_catch p h).
Proof.
  intros Hp Hh. induction p as [a|e|X ev k IH]; cbn [try_catch always] in *; auto.
  intros r. destruct (Hp r). auto.
Qed.

Lemma always_perform {X} (ev : Event (Result X)) :
  (forall r, P (Obs ev r)) -> always P (perform ev).
Proof. intros H r. split; [done|]. by destruct r. Qed.

Lemma always_ask {X} (ev : Event X) : (forall r, P (Obs ev r)) -> always P (ask ev).
Proof. intros H r. by split. Qed.

Lemma always_run {S A} (w : World S) (p : Prog A) (s : S) :
  always P p -> Forall P (trace_of (run w p s)).
Proof.
  unfold trace_of. revert s. induction p as [a|e|X ev k IH]; intros s Hp; cbn [run].
  - constructor.
  - constructor.
  - destruct (react w ev s) as [r s1]. destruct (Hp r) as [H1 H2].
    specialize (IH r s1 H2). destruct (run w (k r) s1) as [[o s2] t].
    by constructor.
Qed.
End Always.

Lemma always_impl {A} (P Q : Entry -> Prop) (p : Prog A) :
  (forall en, P en -> Q en) -> always P p -> always Q p.
Proof.
  intros HPQ. induction p as [a|e|X ev k IH]; cbn [always]; auto.
  intros Hp r. destruct (Hp r). auto.
Qed.

(** ** The logs of a trace *)

Lemma exec_log_app t1 t2 : exec_log (t1 ++ t2) = exec_log t1 ++ exec_log t2.
Proof. apply omap_app. Qed.
Lemma write_log_app t1 t2 : write_log (t1 ++ t2) = write_log t1 ++ write_log t2.
Proof. apply omap_app. Qed.
Lemma copy_log_app t1 t2 : copy_log (t1 ++ t2) = copy_log t1 ++ copy_log t2.
Proof. apply omap_app. Qed.
Lemma read_log_app t1 t2 : read_log (t1 ++ t2) = read_log t1 ++ read_log t2.
Proof. apply omap_app. Qed.

Lemma exec_log_in c ok tr :
  (c, ok) ∈ exec_log tr <-> exists en, en ∈ tr /\ exec_of en = Some (c, ok).
Proof. unfold exec_log. rewrite list_elem_of_omap. naive_solver. Qed.

(** ** Stepping through a program *)

Ltac wp_norm := unfold mbind, Prog_bind, mret, Prog_ret.

(* the answer of a world about which nothing is known *)
Ltac react_any :=
  idtac;
  lazymatch goal with
  | |- context [react ?w ?ev ?s] =>
      let r := fresh "r" in
      let s' := fresh "s" in
      destruct (react w ev s) as [r s']; cbn [fst snd as_outcome];
      try (destruct r)
  end.

Create HintDb phases.

(* a phase of a handler: what is known of it is enough *)
Ltac wp_phase phase_tac :=
  eapply post_mono; [phase_tac|];
  let o := fresh "o" in
  let H := fresh "Hphase" in
  intros o ? ? H; destruct o.

(* the rest of the program is set aside while its first part runs;
   [react_tac] destructs the answer of the world, [phase_tac] finds what
   is known of a phase *)
Ltac wp_gen react_tac phase_tac :=
  repeat (wp_norm; cbn [fst snd as_outcome];
    lazymatch goal with
    | |- post _ (Ret _) _ _ => apply post_ret
    | |- post _ (Throw _) _ _ => apply post_throw
    | |- post _ (perform _) _ _ => apply post_perform; react_tac
    | |- post _ (ask _) _ _ => apply post_ask; react_tac
    | |- post _ (and_then _ ?f) _ _ =>
        let k := fresh "k" in set (k := f); apply post_and_then
    | |- post _ (try_catch _ ?h) _ _ =>
        let k := fresh "h" in set (k := h); apply post_try_catch
    | |- post _ (match ?x with _ => _ end) _ _ => destruct x
    | |- post _ (?k _) _ _ =>
        tryif is_var k then (unfold k; clear k; cbv beta) else wp_phase phase_tac
    | |- post _ _ _ _ => wp_phase phase_tac
    end);
  cbn [fst snd as_outcome].

Ltac known_phase := idtac; solve [eauto with phases].
Ltac wp_with react_tac := wp_gen react_tac known_phase.

Ltac wp := wp_with react_any.

(* a leaf of the run: what was asked of the outcome *)
Ltac wp_start :=
  apply post_abstract;
  let Q := fresh "Q" in let HQ := fresh "HQ" in intros Q HQ.
Ltac wp_leaf :=
  lazymatch goal with HQ : forall o s t, _ -> ?Q o s t |- ?Q _ _ _ => apply HQ end.


Lemma action_log_app t1 t2 : action_log (t1 ++ t2) = action_log t1 ++ action_log t2.
Proof. apply omap_app. Qed.

Ltac logs :=
  rewrite ?action_log_app, ?exec_log_app, ?write_log_app, ?copy_log_app, ?read_log_app;
  cbn [exec_log write_log copy_log read_log action_log omap list_omap
       exec_of write_of copy_of read_of action_of returned is_done].

Ltac pick_shape :=
  repeat first [ apply list_elem_of_here | apply list_elem_of_further ].

(** ** Logs of composed blocks *)

Lemma then_logs_ok first second l1 d l2 :
  (true, l1) ∈ first -> (d, l2) ∈ second -> (d, l1 ++ l2) ∈ then_logs first second.
Proof.
  intros H1%list_elem_of_In H2%list_elem_of_In. unfold then_logs.
  apply list_elem_of_In, in_flat_map. exists (true, l1). split; [done|]. cbn.
  by apply (in_map (fun dl' : bool * Log => (dl'.1, l1 ++ dl'.2)) _ (d, l2)).
Qed.

Lemma then_logs_fail first second l1 :
  (false, l1) ∈ first -> (false, l1) ∈ then_logs first second.
Proof.
  intros H1%list_elem_of_In. unfold then_logs.
  apply list_elem_of_In, in_flat_map. exists (false, l1). split; [done|]. cbn. by left.
Qed.

Lemma try_logs_ok block handler l1 :
  (true, l1) ∈ block -> (true, l1) ∈ try_logs block handler.
Proof.
  intros H1%list_elem_of_In. unfold try_logs.
  apply list_elem_of_In, in_flat_map. exists (true, l1). split; [done|]. cbn. by left.
Qed.

Lemma try_logs_caught block handler l1 d l2 :
  (false, l1) ∈ block -> (d, l2) ∈ handler -> (d, l1 ++ l2) ∈ try_logs block handler.
Proof.
  intros H1%list_elem_of_In H2%list_elem_of_In. unfold try_logs.
  apply list_elem_of_In, in_flat_map. exists (false, l1). split; [done|]. cbn.
  by apply (in_map (fun dl' : bool * Log => (dl'.1, l1 ++ dl'.2)) _ (d, l2)).
Qed.

(** ** Cascades *)

Section CascadeTheory.
Implicit Types (a : Action) (l : Log) (s : list Action) (ss : list (list Action)).


Lemma seq_logs_inv s d l :
  (d, l) ∈ seq_logs s ->
  (d = true /\ l = all_true s) \/
  (d = false /\ exists pre a post, s = pre ++ a :: post /\ l = all_true pre ++ [(a, false)]).
Proof.
  revert d l. induction s as [|a s IH]; intros d l H; cbn [seq_logs] in H.
  - apply list_elem_of_singleton in H. simplify_eq. by left.
  - apply elem_of_cons in H as [H|H].
    + simplify_eq. right. split; [done|]. by exists [], a, s.
    + apply list_elem_of_In, in_map_iff in H as [[d' l'] [Heq H]].
      cbn in Heq. simplify_eq.
      apply list_elem_of_In, IH in H as [[-> ->]|[-> (pre & b & post & -> & ->)]].
      * by left.
      * right. split; [done|]. by exists (a :: pre), b, post.
Qed.

Lemma try_logs_inv block handler d l :
  (d, l) ∈ try_logs block handler ->
  (d = true /\ (true, l) ∈ block) \/
  (exists l1 l2, (false, l1) ∈ block /\ (d, l2) ∈ handler /\ l = l1 ++ l2).
Proof.
  unfold try_logs. intros H.
  apply list_elem_of_In, in_flat_map in H as [[d1 l1] [H1 H]]. cbn in H.
  apply list_elem_of_In in H1. destruct d1.
  - destruct H as [H|[]]. simplify_eq. by left.
  - apply in_map_iff in H as [[d2 l2] [Heq H]]. cbn in Heq. simplify_eq.
    apply list_elem_of_In in H. right. by exists l1, l2.
Qed.


Lemma absent_app s l1 l2 : absent s l1 -> absent s l2 -> absent s (l1 ++ l2).
Proof. intros H1 H2 a ok Ha. rewrite elem_of_app. intros [?|?]; [by eapply H1|by eapply H2]. Qed.

Lemma absent_nil s : absent s [].
Proof. intros a ok _. apply not_elem_of_nil. Qed.

Lemma elem_of_all_true a ok s : (a, ok) ∈ all_true s <-> ok = true /\ a ∈ s.
Proof.
  unfold all_true. split.
  - intros H%list_elem_of_In%in_map_iff. destruct H as (b & Heq & Hb). simplify_eq.
    split; [done|]. by apply list_elem_of_In.
  - intros [-> Ha%list_elem_of_In]. apply list_elem_of_In, in_map_iff. by exists a.
Qed.

Lemma not_started s l : absent s l -> ~ started s l.
Proof.
  intros Habs Hs. destruct s as [|a s]; [done|]. destruct Hs as [ok H].
  eapply Habs; [|done]. by left.
Qed.

Lemma not_raised s l : absent s l -> ~ strategy_raised s l.
Proof.
  intros Habs H. apply Exists_exists in H as (a & Ha & H). unfold threw in H.
  eapply Habs; [|done]. first [done | by apply list_elem_of_In].
Qed.

(** nothing after a strategy that did not raise *)
Lemma cascade_after_stopped (E : Prop) ss l :
  ~ E -> absent (concat ss) l -> cascade_after E ss l.
Proof.
  revert E. induction ss as [|s ss IH]; intros E HE Habs; cbn [cascade_after]; [done|].
  split.
  - split; [|done]. intros Hs. exfalso. revert Hs. apply not_started.
    intros a ok Ha. apply Habs. cbn [concat]. apply elem_of_app. by left.
  - apply IH; [tauto|]. intros a ok Ha. apply Habs. cbn [concat]. apply elem_of_app. by right.
Qed.

(** the log of a block that threw: it is started, it has raised, and it
    only holds actions of the block *)
Lemma failed_block pre a post :
  let s := pre ++ a :: post in
  let l := all_true pre ++ [(a, false)] in
  (forall b ok, (b, ok) ∈ l -> b ∈ s) /\ threw a l /\ (forall l0 l1, started s (l0 ++ l ++ l1)).
Proof.
  intros s l. split; [|split].
  - intros b ok. unfold l, s. rewrite !elem_of_app, elem_of_all_true, list_elem_of_singleton.
    intros [[_ ?]|Heq]; [by left|]. simplify_eq. right. by left.
  - unfold threw, l. set_solver.
  - intros l0 l1. unfold s, l. destruct pre as [|b pre]; cbn.
    + exists false. set_solver.
    + exists true. set_solver.
Qed.

Lemma passed_block s :
  s <> [] -> forall l0 l1, started s (l0 ++ all_true s ++ l1).
Proof.
  destruct s as [|a s]; [done|]. intros _ l0 l1. exists true. cbn. set_solver.
Qed.

Lemma cascade_after_sound (E : Prop) ss l0 d l :
  E -> NoDup (concat ss) -> Forall (fun s => s <> []) ss ->
  ss <> [] -> (d, l) ∈ cascade_logs ss -> absent (concat ss) l0 ->
  cascade_after E ss (l0 ++ l).
Proof.
  revert E l0 d l. induction ss as [|s ss IH]; intros E l0 d l HE Hnd Hne Hss Hl Habs; [done|].
  cbn [concat] in Hnd, Habs. apply NoDup_app in Hnd as (Hs & Hdisj & Hrest).
  apply Forall_cons in Hne as [Hs_ne Hne].
  assert (Habs_s : absent s l0).
  { intros a ok Ha. apply Habs, elem_of_app. by left. }
  assert (Habs_r : absent (concat ss) l0).
  { intros a ok Ha. apply Habs, elem_of_app. by right. }
  cbn [cascade_logs cascade_after] in *.
  destruct ss as [|s2 ss].
  - (* the last strategy *)
    split; [|done]. split; [done|]. intros _.
    apply seq_logs_inv in Hl as [[-> ->]|[-> (pre & a & post & -> & ->)]].
    + pose proof (passed_block s Hs_ne l0 []) as Hp. by rewrite app_nil_r in Hp.
    + destruct (failed_block pre a post) as (_ & _ & Hp).
      specialize (Hp l0 []). by rewrite app_nil_r in Hp.
  - apply try_logs_inv in Hl as [[-> Hl]|(l1 & l2 & Hl1 & Hl2 & ->)].
    + (* it ran to its end: the cascade stops *)
      apply seq_logs_inv in Hl as [[_ ->]|[? _]]; [|done].
      split.
      * split; [done|]. intros _.
        pose proof (passed_block s Hs_ne l0 []) as Hp. by rewrite app_nil_r in Hp.
      * apply cascade_after_stopped.
        -- intros [_ Hr]. apply Exists_exists in Hr as (a & Ha & Hr).
           unfold threw in Hr.
           apply elem_of_app in Hr as [Hr|Hr]; [by eapply Habs_s|].
           by apply elem_of_all_true in Hr as [? _].
        -- apply absent_app; [done|]. intros a ok Ha Hin.
           apply elem_of_all_true in Hin as [_ Hin]. by eapply Hdisj.
    + (* it threw: the others follow *)
      apply seq_logs_inv in Hl1 as [[? _]|[_ (pre & a & post & -> & ->)]]; [done|].
      destruct (failed_block pre a post) as (Hin & Hthrew & Hstarted).
      split.
      * split; [done|]. intros _. apply Hstarted.
      * rewrite app_assoc. apply (IH _ _ d); try done.
        -- split; [done|]. apply Exists_exists. exists a. split.
           ++ set_solver.
           ++ unfold threw in *. set_solver.
        -- apply absent_app; [done|]. intros b ok Hb Hbin. apply Hin in Hbin.
           by eapply Hdisj.
Qed.

(** The log of a cascade, after a log in which none of its actions
    occurs, is a try/fallback cascade. *)
Lemma cascade_logs_sound ss l0 d l :
  NoDup (concat ss) -> Forall (fun s => s <> []) ss ->
  (d, l) ∈ cascade_logs ss -> absent (concat ss) l0 ->
  try_fallback_cascade ss (l0 ++ l).
Proof.
  intros Hnd Hne Hl Habs. destruct ss as [|s ss]; [done|].
  cbn [try_fallback_cascade]. destruct ss as [|s2 ss]; [done|].
  cbn [concat] in Hnd, Habs. apply NoDup_app in Hnd as (Hs & Hdisj & Hrest).
  apply Forall_cons in Hne as [Hs_ne Hne].
  assert (Habs_s : absent s l0).
  { intros a ok Ha. apply Habs, elem_of_app. by left. }
  assert (Habs_r : absent (concat (s2 :: ss)) l0).
  { intros a ok Ha. apply Habs, elem_of_app. by right. }
  cbn [cascade_logs] in Hl.
  apply try_logs_inv in Hl as [[-> Hl]|(l1 & l2 & Hl1 & Hl2 & ->)].
  - apply seq_logs_inv in Hl as [[_ ->]|[? _]]; [|done].
    apply cascade_after_stopped.
    + intros Hr. apply Exists_exists in Hr as (a & Ha & Hr).
      unfold threw in Hr.
      apply elem_of_app in Hr as [Hr|Hr]; [by eapply Habs_s|].
      by apply elem_of_all_true in Hr as [? _].
    + apply absent_app; [done|]. intros a ok Ha Hin.
      apply elem_of_all_true in Hin as [_ Hin]. by eapply Hdisj.
  - apply seq_logs_inv in Hl1 as [[? _]|[_ (pre & a & post & -> & ->)]]; [done|].
    destruct (failed_block pre a post) as (Hin & Hthrew & Hstarted).
    rewrite app_assoc. apply (cascade_after_sound _ _ _ d); try done.
    + apply Exists_exists. exists a. split; [set_solver|].
      unfold threw in *. set_solver.
    + apply absent_app; [done|]. intros b ok Hb Hbin. apply Hin in Hbin. by eapply Hdisj.
Qed.

(** A log in which no action of the cascade occurs: the cascade was
    never reached. *)
Lemma cascade_not_reached ss l : absent (concat ss) l -> try_fallback_cascade ss l.
Proof.
  intros Habs. destruct ss as [|s ss]; [done|]. cbn [try_fallback_cascade].
  apply cascade_after_stopped.
  - apply not_raised. intros a ok Ha. apply Habs. cbn [concat]. apply elem_of_app. by left.
  - intros a ok Ha. apply Habs. cbn [concat]. apply elem_of_app. by right.
Qed.

Lemma then_logs_inv first second d l :
  (d, l) ∈ then_logs first second ->
  (d = false /\ (false, l) ∈ first) \/
  (exists l1 l2, (true, l1) ∈ first /\ (d, l2) ∈ second /\ l = l1 ++ l2).
Proof.
  unfold then_logs. intros H.
  apply list_elem_of_In, in_flat_map in H as [[d1 l1] [H1 H]]. cbn in H.
  apply list_elem_of_In in H1. destruct d1.
  - apply in_map_iff in H as [[d2 l2] [Heq H]]. cbn in Heq. simplify_eq.
    apply list_elem_of_In in H. right. by exists l1, l2.
  - destruct H as [H|[]]. simplify_eq. by left.
Qed.


Lemma drawn_from_seq s U : s ⊆ U -> drawn_from U (seq_logs s).
Proof.
  intros Hsub d l a ok Hl Ha. apply Hsub.
  apply seq_logs_inv in Hl as [[_ ->]|[_ (pre & b & post & -> & ->)]].
  - by apply elem_of_all_true in Ha as [_ ?].
  - by eapply failed_block.
Qed.

Lemma drawn_from_try U block handler :
  drawn_from U block -> drawn_from U handler -> drawn_from U (try_logs block handler).
Proof.
  intros H1 H2 d l a ok Hl Ha.
  apply try_logs_inv in Hl as [[_ Hl]|(l1 & l2 & Hl1 & Hl2 & ->)]; [by eapply H1|].
  apply elem_of_app in Ha as [Ha|Ha]; [by eapply H1|by eapply H2].
Qed.

Lemma drawn_from_absent U L ss d l :
  drawn_from U L -> Forall (fun a => a ∉ U) (concat ss) -> (d, l) ∈ L ->
  absent (concat ss) l.
Proof.
  intros HL Hdisj Hl a ok Ha Hin. rewrite Forall_forall in Hdisj.
  eapply Hdisj; [done|]. by eapply HL.
Qed.

(** A handler that writes its files, converts the artwork and then
    enters the cascade. *)
Lemma handler_cascade U A B ss d l :
  drawn_from U A -> drawn_from U B ->
  Forall (fun a => a ∉ U) (concat ss) ->
  NoDup (concat ss) -> Forall (fun s => s <> []) ss ->
  (d, l) ∈ then_logs A (then_logs B (cascade_logs ss)) ->
  try_fallback_cascade ss l.
Proof.
  intros HA HB Hdisj Hnd Hne Hl.
  apply then_logs_inv in Hl as [[_ Hl]|(l1 & l' & Hl1 & Hl & ->)].
  { apply cascade_not_reached. eapply (drawn_from_absent U A); eauto. }
  apply then_logs_inv in Hl as [[_ Hl]|(l2 & l3 & Hl2 & Hl3 & ->)].
  { apply cascade_not_reached.
    apply absent_app; [eapply (drawn_from_absent U A)|eapply (drawn_from_absent U B)]; eauto. }
  rewrite app_assoc. eapply cascade_logs_sound; [done..|].
  apply absent_app; [eapply (drawn_from_absent U A)|eapply (drawn_from_absent U B)]; eauto.
Qed.
End CascadeTheory.

(** ** Telling command lines and paths apart *)

#[local] Set Warnings "-clear-no-such-hyp".

(* stdpp keeps [String.append] folded; the literal parts of a command line
   have to be computed here *)
Arguments String.append : simpl nomatch.

Lemma append_assoc (a b c : string) : (a +:+ b) +:+ c = a +:+ (b +:+ c).
Proof. induction a as [|x a IH]; cbn [String.append]; [done|]. by rewrite IH. Qed.

Lemma getExtension_cases m :
  ServerJs.getExtension m ∈ [".png"; ".jpg"; ".gif"; ".webp"; ".pdf"; ".bin"].
Proof.
  unfold ServerJs.getExtension. cbn [list_to_map foldr fst snd uncurry].
  repeat (rewrite lookup_insert; case_decide; [cbn; set_solver|]).
  rewrite lookup_empty. cbn. set_solver.
Qed.

Lemma getExtension_dot m : exists r, ServerJs.getExtension m = String "." r.
Proof.
  pose proof (getExtension_cases m) as H.
  generalize dependent (ServerJs.getExtension m). intros ext H.
  repeat (apply elem_of_cons in H as [->|H]; [by eexists|]).
  by apply elem_of_nil in H.
Qed.

Ltac unfold_commands H :=
  unfold
    ServerJs.convertArtworkCmd, ServerJs.mergeCmd, ServerJs.simpleMergeCmd,
    ServerJs.overlayGsCmd, ServerJs.layeredGsCmd,
    RailwayApi.convertRawCmd, RailwayApi.gsResizeCmd, RailwayApi.convertPageCmd,
    RailwayApi.qpdfCmd, RailwayApi.pdftkCmd, RailwayApi.flattenCmd, RailwayApi.compositeCmd,
    RailwayApi.compositePdfCmd, RailwayApi.overlayGsCmd, RailwayApi.layeredGsCmd,
    Part000.convertArtworkCmd, Part000.gsImageCmd, Part000.pdftkCmd, Part000.qpdfCmd,
    Part000.gsCmd, Part000.overlayCmd, Part000.flattenCmd, Part000.compositeCmd,
    Part000.compositePdfCmd, Part000.overlayGsCmd, Part000.layeredGsCmd,
    artworkPath, templatePath, artworkPdfPath, outputPath, jobDir, quoted, path_join, dq in H.

(* two command lines or paths that differ at their first different
   character, or after a common part *)
Ltac hide_numbers H :=
  repeat match type of H with
         | context [JS.toString ?x] =>
             let v := fresh "v" in set (v := JS.toString x) in H; clearbody v
         end.

Ltac differ H :=
  unfold_commands H;
  hide_numbers H;
  rewrite ?append_assoc in H;
  cbn [String.append ascii_of_nat ascii_of_pos ascii_of_N N.of_nat Pos.of_succ_nat Pos.succ] in H;
  repeat first
    [ discriminate H
    | apply String.app_inj in H
    | injection H as H ].

Ltac distinct_actions :=
  repeat (apply NoDup_cons; split;
          [ rewrite ?not_elem_of_cons; split_and ?;
            try apply not_elem_of_nil;
            let H := fresh "H" in
            intros H; unfold_commands H; hide_numbers H;
            first [ discriminate H | injection H as H; differ H ]
          | ]);
  try apply NoDup_nil_2.

Ltac disjoint_actions :=
  repeat (apply Forall_cons; split;
          [ rewrite ?not_elem_of_cons; split_and ?;
            try apply not_elem_of_nil;
            let H := fresh "H" in
            intros H; unfold_commands H; hide_numbers H;
            first [ discriminate H | injection H as H; differ H ]
          | ]);
  try apply Forall_nil_2.

Lemma railway_strategies_distinct jobId req :
  NoDup (concat (RailwayApiMerge.strategies jobId req)).
Proof.
  unfold RailwayApiMerge.strategies. cbn [concat app].
  distinct_actions.
Qed.

Lemma railway_strategies_apart jobId req artworkFile :
  Forall (fun a => a ∉ RailwayApiMerge.preparation jobId req artworkFile)
         (concat (RailwayApiMerge.strategies jobId req)).
Proof.
  unfold RailwayApiMerge.strategies, RailwayApiMerge.preparation, artworkPath. cbn [concat app].
  destruct (getExtension_dot (mimetype artworkFile)) as [ext ->].
  disjoint_actions.
Qed.

Lemma part000_strategies_distinct jobId req :
  NoDup (concat (Part000Merge.strategies jobId req)).
Proof.
  unfold Part000Merge.strategies. cbn [concat app].
  distinct_actions.
Qed.

Lemma part000_strategies_apart jobId req artworkFile :
  Forall (fun a => a ∉ Part000Merge.preparation jobId req artworkFile)
         (concat (Part000Merge.strategies jobId req)).
Proof.
  unfold Part000Merge.strategies, Part000Merge.preparation, artworkPath. cbn [concat app].
  destruct (getExtension_dot (mimetype artworkFile)) as [ext ->].
  disjoint_actions.
Qed.

Lemma server_strategies_distinct jobId :
  NoDup (concat (ServerJsMerge.strategies jobId)).
Proof.
  unfold ServerJsMerge.strategies. cbn [concat app].
  distinct_actions.
Qed.

Lemma server_strategies_apart jobId req artworkFile :
  Forall (fun a => a ∉ ServerJsMerge.preparation jobId req artworkFile)
         (concat (ServerJsMerge.strategies jobId)).
Proof.
  unfold ServerJsMerge.strategies, ServerJsMerge.preparation, ServerJsMerge.convert_step,
    artworkPath.
  cbn [concat app].
  destruct (getExtension_dot (mimetype artworkFile)) as [ext ->].
  disjoint_actions.
Qed.

(** ** The logs of the handlers' steps *)

Ltac shape :=
  cbv [cascade_logs try_logs then_logs seq_logs flat_map map app fst snd];
  solve [pick_shape].

Section CleanupJob.
Context {S : Type} (w : World S).


Lemma quiet_nil : quiet [].
Proof. done. Qed.

Lemma quiet_app t1 t2 : quiet t1 -> quiet t2 -> quiet (t1 ++ t2).
Proof. intros [H1 H2] [H3 H4]. split; logs; by rewrite ?H1, ?H2, ?H3, ?H4. Qed.

Lemma ServerJs_cleanupJob_quiet s dir :
  post w (ServerJs.cleanupJob dir) s (fun o _ t => is_done o = true /\ quiet t).
Proof. unfold ServerJs.cleanupJob. wp_start. wp. all: wp_leaf; by logs. Qed.

Lemma RailwayApi_cleanupJob_quiet s dir :
  post w (RailwayApi.cleanupJob dir) s (fun o _ t => is_done o = true /\ quiet t).
Proof. apply ServerJs_cleanupJob_quiet. Qed.

Lemma Part000_cleanupJob_quiet s dir :
  post w (Part000.cleanupJob dir) s (fun o _ t => is_done o = true /\ quiet t).
Proof. apply ServerJs_cleanupJob_quiet. Qed.
End CleanupJob.

#[global] Hint Resolve ServerJs_cleanupJob_quiet RailwayApi_cleanupJob_quiet
  Part000_cleanupJob_quiet : phases.

Section RailwayApiSteps.
Context {S : Type} (w : World S).
Import RailwayApi.

Lemma RailwayApi_step2_logs s jobId dir png pdf pw ph :
  post w (step2_convert_artwork jobId dir png pdf pw ph) s (fun o _ t =>
    (is_done o, action_log t) ∈
      try_logs (seq_logs [Run (convertRawCmd png dir); Run (gsResizeCmd pw ph pdf dir)])
               (seq_logs [Run (convertPageCmd png pw ph pdf)])
    /\ read_log t = []).
Proof.
  unfold step2_convert_artwork. wp_start. wp.
  all: wp_leaf; logs; (split; [shape|done]).
Qed.

Lemma RailwayApi_step3_logs s jobId dir tmpl pdf out pw ph :
  post w (step3_overlay jobId dir tmpl pdf out pw ph) s (fun o _ t =>
    (is_done o, action_log t) ∈
      cascade_logs
        [ [Run (qpdfCmd tmpl pdf out)];
          [Run (pdftkCmd tmpl pdf out)];
          [Run (flattenCmd (JS.of_Z 300) tmpl (dir +:+ "/template_flat.png"));
           Run (flattenCmd (JS.of_Z 300) pdf (dir +:+ "/artwork_flat.png"));
           Run (compositeCmd dir);
           Run (compositePdfCmd dir pw ph out)];
          [Copy pdf out] ]
    /\ read_log t = []).
Proof.
  unfold step3_overlay. wp_start. wp.
  all: wp_leaf; logs; (split; [shape|done]).
Qed.
End RailwayApiSteps.

#[global] Hint Resolve RailwayApi_step2_logs RailwayApi_step3_logs : phases.

(* the phases of a finished run, and what is known of them *)
Ltac phase_facts :=
  repeat match goal with
  | H : _ /\ _ |- _ => destruct H
  | H : is_done (Uncaught _) = true |- _ => discriminate H
  | H : is_done (Done _) = true |- _ => clear H
  | H : quiet _ |- _ => destruct H
  end;
  cbn [is_done] in *.

Ltac log_norm :=
  logs;
  repeat match goal with
  | H : action_log ?t = [] |- _ => rewrite !H
  | H : read_log ?t = [] |- _ => rewrite !H
  end;
  rewrite ?app_nil_r; cbn [app].

Ltac merge_leaf logs_def :=
  wp_leaf; phase_facts; log_norm;
  first
    [ left; reflexivity
    | right; eexists _, _; split; [reflexivity|]; unfold logs_def;
      first
        [ apply then_logs_fail; shape
        | apply (then_logs_ok _ _ [_; _]); [shape|];
          first
            [ apply then_logs_fail; eassumption
            | apply then_logs_ok; eassumption ] ] ].

Section RailwayApiMergeLogs.
Context {S : Type} (w : World S).

Lemma RailwayApi_merge_logs s jobId req :
  post w (RailwayApi.merge_pdf_layers jobId req) s (fun o _ t =>
    action_log t = [] \/
    exists artworkFile d,
      files req !! "artwork" = Some artworkFile /\
      (d, action_log t) ∈ RailwayApiMerge.logs jobId req artworkFile).
Proof.
  unfold RailwayApi.merge_pdf_layers.
  destruct (files req !! "template") as [tf|] eqn:Htf;
    destruct (files req !! "artwork") as [af|] eqn:Haf.
  all: wp_start; wp.
  all: merge_leaf RailwayApiMerge.logs.
Qed.
End RailwayApiMergeLogs.

Section Part000Steps.
Context {S : Type} (w : World S).
Import Part000.

Lemma Part000_step2_logs s jobId dir art pdf pw ph :
  post w (step2_convert_artwork jobId dir art pdf pw ph) s (fun o _ t =>
    (is_done o, action_log t) ∈
      try_logs (seq_logs [Run (convertArtworkCmd art pw ph pdf)])
               (seq_logs [Write (path_join dir "image.ps");
                          Run (gsImageCmd pdf (path_join dir "image.ps"))])
    /\ read_log t = []).
Proof.
  unfold step2_convert_artwork. wp_start. wp.
  all: wp_leaf; logs; (split; [shape|done]).
Qed.

Lemma Part000_step3_logs s jobId dir tmpl pdf out mid pw ph :
  post w (step3_overlay jobId dir tmpl pdf out mid pw ph) s (fun o _ t =>
    (is_done o, action_log t) ∈
      cascade_logs
        [ [Run (pdftkCmd tmpl pdf out)];
          [Run (qpdfCmd tmpl pdf out)];
          [Write (path_join dir "composite.ps");
           Run (gsCmd pw ph mid pdf);
           Run (overlayCmd out mid ph tmpl);
           Run (flattenCmd pdf pw ph (dir +:+ "/artwork_flat.png"));
           Run (flattenCmd tmpl pw ph (dir +:+ "/template_flat.png"));
           Run (compositeCmd dir);
           Run (compositePdfCmd dir out)];
          [Copy pdf out] ]
    /\ read_log t = []).
Proof.
  unfold step3_overlay. wp_start. wp.
  all: wp_leaf; logs; (split; [shape|done]).
Qed.
End Part000Steps.

#[global] Hint Resolve Part000_step2_logs Part000_step3_logs : phases.

Section Part000MergeLogs.
Context {S : Type} (w : World S).

Lemma Part000_merge_logs s jobId req :
  post w (Part000.merge_pdf_layers jobId req) s (fun o _ t =>
    action_log t = [] \/
    exists artworkFile d,
      files req !! "artwork" = Some artworkFile /\
      (d, action_log t) ∈ Part000Merge.logs jobId req artworkFile).
Proof.
  unfold Part000.merge_pdf_layers.
  destruct (files req !! "template") as [tf|] eqn:Htf;
    destruct (files req !! "artwork") as [af|] eqn:Haf.
  all: wp_start; wp.
  all: merge_leaf Part000Merge.logs.
Qed.
End Part000MergeLogs.


Section ServerJsSteps.
Context {S : Type} (w : World S).
Import ServerJs.

Lemma ServerJs_step1_logs s jobId dir art pdf width height :
  post w (step1_convert_artwork jobId dir art pdf width height) s (fun o _ t =>
    (is_done o, action_log t) ∈
      try_logs (seq_logs [Run (convertArtworkCmd art width height pdf)]) (seq_logs [])
    /\ read_log t = []).
Proof.
  unfold step1_convert_artwork. wp_start. wp.
  all: wp_leaf; logs; (split; [shape|done]).
Qed.

Lemma ServerJs_step3_logs s jobId dir out tmpl pdf :
  post w (step3_merge jobId dir out tmpl pdf) s (fun o _ t =>
    (is_done o, action_log t) ∈
      cascade_logs [ [Run (mergeCmd out tmpl pdf)]; [Run (simpleMergeCmd out tmpl)] ]
    /\ read_log t = []).
Proof.
  unfold step3_merge. wp_start. wp.
  all: wp_leaf; logs; (split; [shape|done]).
Qed.
End ServerJsSteps.

#[global] Hint Resolve ServerJs_step1_logs ServerJs_step3_logs : phases.

Section ServerJsMergeLogs.
Context {S : Type} (w : World S).

Lemma ServerJs_merge_logs s jobId req :
  post w (ServerJs.merge_pdf_layers jobId req) s (fun o _ t =>
    action_log t = [] \/
    exists artworkFile d,
      files req !! "artwork" = Some artworkFile /\
      (d, action_log t) ∈ ServerJsMerge.logs jobId req artworkFile).
Proof.
  unfold ServerJs.merge_pdf_layers.
  destruct (files req !! "template") as [tf|] eqn:Htf;
    destruct (files req !! "artwork") as [af|] eqn:Haf.
  all: wp_start; wp.
  all: merge_leaf ServerJsMerge.logs.
Qed.
End ServerJsMergeLogs.

(** ** The cascades of the merge handlers *)

Section Cascades.
Context {S : Type} (w : World S).

Lemma railway_drawn_writes jobId req af :
  drawn_from (RailwayApiMerge.preparation jobId req af)
    (seq_logs [ Write (templatePath jobId); Write (artworkPath merge_pdf_layers_ep jobId af) ]).
Proof. apply drawn_from_seq. set_solver. Qed.

Lemma railway_drawn_convert jobId req af :
  drawn_from (RailwayApiMerge.preparation jobId req af)
    (RailwayApiMerge.convert_step jobId req af).
Proof. apply drawn_from_try; apply drawn_from_seq; set_solver. Qed.

Lemma railway_cascade s jobId req :
  try_fallback_cascade (RailwayApiMerge.strategies jobId req)
    (action_log (trace_of (run w (RailwayApi.merge_pdf_layers jobId req) s))).
Proof.
  pose proof (RailwayApi_merge_logs w s jobId req) as H. unfold post in H.
  destruct H as [->|(af & d & _ & H)].
  { apply cascade_not_reached, absent_nil. }
  apply (handler_cascade (RailwayApiMerge.preparation jobId req af) _ _ _ d _
           (railway_drawn_writes jobId req af) (railway_drawn_convert jobId req af)
           (railway_strategies_apart jobId req af) (railway_strategies_distinct jobId req));
    [|exact H].
  repeat constructor; done.
Qed.

Lemma part000_drawn_writes jobId req af :
  drawn_from (Part000Merge.preparation jobId req af)
    (seq_logs [ Write (templatePath jobId); Write (artworkPath merge_pdf_layers_ep jobId af) ]).
Proof. apply drawn_from_seq. set_solver. Qed.

Lemma part000_drawn_convert jobId req af :
  drawn_from (Part000Merge.preparation jobId req af)
    (Part000Merge.convert_step jobId req af).
Proof. apply drawn_from_try; apply drawn_from_seq; set_solver. Qed.

Lemma part000_cascade s jobId req :
  try_fallback_cascade (Part000Merge.strategies jobId req)
    (action_log (trace_of (run w (Part000.merge_pdf_layers jobId req) s))).
Proof.
  pose proof (Part000_merge_logs w s jobId req) as H. unfold post in H.
  destruct H as [->|(af & d & _ & H)].
  { apply cascade_not_reached, absent_nil. }
  apply (handler_cascade (Part000Merge.preparation jobId req af) _ _ _ d _
           (part000_drawn_writes jobId req af) (part000_drawn_convert jobId req af)
           (part000_strategies_apart jobId req af) (part000_strategies_distinct jobId req));
    [|exact H].
  repeat constructor; done.
Qed.
End Cascades.

Section ServerCascade.
Context {S : Type} (w : World S).

Lemma server_drawn_writes jobId req af :
  drawn_from (ServerJsMerge.preparation jobId req af)
    (seq_logs [ Write (templatePath jobId); Write (artworkPath merge_pdf_layers_ep jobId af) ]).
Proof. apply drawn_from_seq. unfold ServerJsMerge.preparation. set_solver. Qed.

Lemma server_drawn_convert jobId req af :
  drawn_from (ServerJsMerge.preparation jobId req af)
    (try_logs (seq_logs (ServerJsMerge.convert_step jobId req af)) (seq_logs [])).
Proof.
  apply drawn_from_try; apply drawn_from_seq; unfold ServerJsMerge.preparation; set_solver.
Qed.

Lemma server_cascade s jobId req :
  try_fallback_cascade (ServerJsMerge.strategies jobId)
    (action_log (trace_of (run w (ServerJs.merge_pdf_layers jobId req) s))).
Proof.
  pose proof (ServerJs_merge_logs w s jobId req) as H. unfold post in H.
  destruct H as [->|(af & d & _ & H)].
  { apply cascade_not_reached, absent_nil. }
  apply (handler_cascade (ServerJsMerge.preparation jobId req af) _ _ _ d _
           (server_drawn_writes jobId req af) (server_drawn_convert jobId req af)
           (server_strategies_apart jobId req af) (server_strategies_distinct jobId));
    [|exact H].
  repeat constructor; done.
Qed.
End ServerCascade.

(** ** What every run of a handler does *)

Ltac unfold_phases :=
  unfold
    ServerJs.cleanupJob, RailwayApi.cleanupJob, Part000.cleanupJob,
    ServerJs.step1_convert_artwork, ServerJs.step3_merge,
    RailwayApi.step2_convert_artwork, RailwayApi.step3_overlay,
    Part000.step2_convert_artwork, Part000.step3_overlay.

Ltac unfold_handlers :=
  unfold handler,
    ServerJs.merge_pdf_layers, ServerJs.overlay_artwork, ServerJs.create_layered_pdf,
    RailwayApi.merge_pdf_layers, RailwayApi.overlay_artwork, RailwayApi.create_layered_pdf,
    Part000.merge_pdf_layers, Part000.overlay_artwork, Part000.create_layered_pdf.


(* [always P p], effect by effect; [leaf] proves [P] of one effect *)
Ltac always_with leaf :=
  repeat (wp_norm; unfold_phases;
    lazymatch goal with
    | |- always _ (Ret _) => exact I
    | |- always _ (Throw _) => exact I
    | |- always _ (perform _) => apply always_perform; intros ?; leaf
    | |- always _ (ask _) => apply always_ask; intros ?; leaf
    | |- always _ (and_then _ _) => apply always_and_then; [|intros ?]
    | |- always _ (try_catch _ _) => apply always_try_catch; [|intros ?]
    | |- always _ (match ?x with _ => _ end) => destruct x eqn:?
    end).

Lemma Forall_commands (Q : string -> Prop) tr :
  Forall (fun en => match exec_of en with Some (c, _) => Q c | None => True end) tr ->
  Forall Q (commands tr).
Proof.
  unfold commands, exec_log. induction 1 as [|en tr Hen _ IH]; cbn; [constructor|].
  destruct (exec_of en) as [[c ok]|]; cbn; [by constructor|done].
Qed.

Ltac known_binary :=
  idtac;
  unfold runs_known_binary; cbn [exec_of];
  first [ exact I
        | unfold external_binaries;
          repeat first [ apply list_elem_of_here | apply list_elem_of_further ] ].

Lemma handlers_run_known_binaries f ep jobId req :
  always runs_known_binary (handler f ep jobId req).
Proof.
  destruct f, ep; unfold_handlers.
  all: always_with known_binary.
Qed.

Lemma routines_run_known_binaries f r : always runs_known_binary (routine f r).
Proof.
  destruct r as [ep jobId req| | |PORT]; unfold routine.
  - apply always_and_then; [apply handlers_run_known_binaries|]. intros; exact I.
  - destruct f; unfold ServerJs.health_check, RailwayApi.health_check, Part000.health_check;
      always_with known_binary.
  - destruct f; unfold ServerJs.gs_version, RailwayApi.gs_version, Part000.gs_version;
      always_with known_binary.
  - destruct f; unfold ServerJs.on_listen, RailwayApi.on_listen, Part000.on_listen;
      always_with known_binary.
Qed.


(** ** The command lines of the handlers *)

Ltac listed_command :=
  idtac;
  cbn [exec_of];
  first [ exact I | solve [pick_shape] ].

Lemma handlers_run_command_lines f ep jobId req :
  always (fun en => match exec_of en with
                    | Some (c, _) => c ∈ command_lines f ep jobId req
                    | None => True
                    end)
         (handler f ep jobId req).
Proof.
  unfold command_lines.
  destruct f, ep; unfold_handlers;
    cbn [merge_preparation merge_strategies];
    unfold ServerJsMerge.preparation, ServerJsMerge.strategies, ServerJsMerge.convert_step,
      RailwayApiMerge.preparation, RailwayApiMerge.strategies,
      Part000Merge.preparation, Part000Merge.strategies;
    cbn [runs_of omap list_omap concat app].
  all: always_with listed_command.
Qed.





(** ** The responses of the handlers *)



Section Responses.
Context {S : Type} (w : World S).







End Responses.

(** ** The job directory in the disk world *)

Lemma within_self dir : within dir dir = true.
Proof. unfold within. by rewrite String.eqb_refl. Qed.

Lemma exists_on_dir d p : p ∈ dirs d -> exists_on d p = true.
Proof. intros H. unfold exists_on. rewrite bool_decide_eq_true_2; done. Qed.

Lemma exists_on_remove_tree dir d : exists_on (remove_tree dir d) dir = false.
Proof.
  unfold exists_on, remove_tree; cbn [dirs contents].
  apply orb_false_intro; apply bool_decide_eq_false_2.
  - rewrite elem_of_filter. intros [H _]. rewrite within_self in H. discriminate.
  - intros [x Hx]. apply map_lookup_filter_Some in Hx as [_ H]. cbn in H.
    rewrite within_self in H. discriminate.
Qed.

Lemma below_remove_tree dir d p :
  within dir p = true -> contents (remove_tree dir d) !! p = None.
Proof.
  intros H. unfold remove_tree; cbn [contents].
  apply map_lookup_filter_None. right. intros x _. cbn. rewrite H. discriminate.
Qed.

Lemma gone_remove_tree dir d : gone (remove_tree dir d) dir.
Proof. split; [apply exists_on_remove_tree | intros; by apply below_remove_tree]. Qed.

(* a program that removes nothing keeps the directories *)
Lemma keeps_dirs {A} tools (p : Prog A) d :
  always keeps_files p -> dirs d ⊆ dirs (state_of (run (disk_world tools) p d)).
Proof.
  unfold state_of. revert d. induction p as [a|e|X ev k IH]; intros d Hp; cbn [run]; [done..|].
  destruct (react (disk_world tools) ev d) as [r d1] eqn:Hr.
  destruct (Hp r) as [Hev Hk]. specialize (IH r d1 Hk).
  destruct (run (disk_world tools) (k r) d1) as [[o d2] t]. cbn [fst snd] in *.
  etrans; [|exact IH]. clear IH Hk Hp.
  destruct ev; cbn [react disk_world disk_react keeps_files] in *; simplify_eq; cbn [dirs];
    try done; try set_solver.
  - by destruct (contents d !! path); simplify_eq.
  - by destruct (contents d !! src); simplify_eq.
Qed.

(* the answer of the disk world *)
Ltac react_disk :=
  idtac;
  lazymatch goal with
  | |- context [react (disk_world ?tools) ?ev ?s] =>
      cbn [react disk_world disk_react];
      lazymatch ev with
      | ExecSync ?c ?o => destruct (tools c o (contents s)) as [[?|?] ?]
      | ReadFileSync ?p => destruct (contents s !! p) eqn:?
      | CopyFileSync ?a _ => destruct (contents s !! a) eqn:?
      | ExistsSync ?p => destruct (exists_on s p) eqn:?
      | _ => idtac
      end;
      cbn [fst snd as_outcome tool_result tool_writes]
  end.

Create HintDb disk_phases.
Ltac known_disk_phase := idtac; solve [eauto with disk_phases].
Ltac wp_disk := wp_gen react_disk known_disk_phase.

Section DiskPhases.
Context (tools : Tools).

Lemma cleanupJob_disk d dir :
  post (disk_world tools) (ServerJs.cleanupJob dir) d (fun o d' t =>
    is_done o = true /\ (dir ∈ dirs d -> gone d' dir)).
Proof.
  unfold ServerJs.cleanupJob. wp_start. wp_disk.
  all: wp_leaf; (split; [reflexivity|]); intros Hdir.
  - apply gone_remove_tree.
  - apply exists_on_dir in Hdir. congruence.
Qed.

Lemma RailwayApi_cleanupJob_disk d dir :
  post (disk_world tools) (RailwayApi.cleanupJob dir) d (fun o d' t =>
    is_done o = true /\ (dir ∈ dirs d -> gone d' dir)).
Proof. apply cleanupJob_disk. Qed.

Lemma Part000_cleanupJob_disk d dir :
  post (disk_world tools) (Part000.cleanupJob dir) d (fun o d' t =>
    is_done o = true /\ (dir ∈ dirs d -> gone d' dir)).
Proof. apply cleanupJob_disk. Qed.

Ltac keeps_files_leaf := idtac; exact I.

Lemma ServerJs_step1_disk d jobId dir art pdf width height :
  post (disk_world tools) (ServerJs.step1_convert_artwork jobId dir art pdf width height) d
    (fun _ d' _ => dirs d ⊆ dirs d').
Proof.
  apply keeps_dirs. unfold ServerJs.step1_convert_artwork. always_with keeps_files_leaf.
Qed.

Lemma ServerJs_step3_disk d jobId dir out tmpl pdf :
  post (disk_world tools) (ServerJs.step3_merge jobId dir out tmpl pdf) d
    (fun _ d' _ => dirs d ⊆ dirs d').
Proof.
  apply keeps_dirs. unfold ServerJs.step3_merge. always_with keeps_files_leaf.
Qed.

Lemma RailwayApi_step2_disk d jobId dir png pdf pw ph :
  post (disk_world tools) (RailwayApi.step2_convert_artwork jobId dir png pdf pw ph) d
    (fun _ d' _ => dirs d ⊆ dirs d').
Proof.
  apply keeps_dirs. unfold RailwayApi.step2_convert_artwork. always_with keeps_files_leaf.
Qed.

Lemma RailwayApi_step3_disk d jobId dir tmpl pdf out pw ph :
  post (disk_world tools) (RailwayApi.step3_overlay jobId dir tmpl pdf out pw ph) d
    (fun _ d' _ => dirs d ⊆ dirs d').
Proof.
  apply keeps_dirs. unfold RailwayApi.step3_overlay. always_with keeps_files_leaf.
Qed.

Lemma Part000_step2_disk d jobId dir art pdf pw ph :
  post (disk_world tools) (Part000.step2_convert_artwork jobId dir art pdf pw ph) d
    (fun _ d' _ => dirs d ⊆ dirs d').
Proof.
  apply keeps_dirs. unfold Part000.step2_convert_artwork. always_with keeps_files_leaf.
Qed.

Lemma Part000_step3_disk d jobId dir tmpl pdf out mid pw ph :
  post (disk_world tools) (Part000.step3_overlay jobId dir tmpl pdf out mid pw ph) d
    (fun _ d' _ => dirs d ⊆ dirs d').
Proof.
  apply keeps_dirs. unfold Part000.step3_overlay. always_with keeps_files_leaf.
Qed.
End DiskPhases.

#[global] Hint Resolve cleanupJob_disk RailwayApi_cleanupJob_disk Part000_cleanupJob_disk
  ServerJs_step1_disk ServerJs_step3_disk
  RailwayApi_step2_disk RailwayApi_step3_disk Part000_step2_disk Part000_step3_disk
  : disk_phases.



Section CleanupByStatus.
Context (tools : Tools).







End CleanupByStatus.

(** ** Programs that differ in their console output only *)
















(** * The specification, statement by statement *)

(** ** The overlay handler leaves the artwork out *)

Lemma overlay_artwork_command f {S} (w : World S) s jobId req :
  Forall (fun c => c = ServerJs.overlayGsCmd (outputPath jobId) (templatePath jobId))
         (commands (trace_of (run w (handler f overlay_artwork_ep jobId req) s))).
Proof.
  apply Forall_commands.
  eapply Forall_impl;
    [apply always_run, (handlers_run_command_lines f overlay_artwork_ep jobId req)|].
  intros en. cbn beta. destruct (exec_of en) as [[c ok]|]; [|done].
  unfold command_lines. by intros ->%list_elem_of_singleton.
Qed.

(** C1: at a request with a template and an artwork the overlay handler
    of each file runs one command, Ghostscript on the template alone, and
    answers with what Ghostscript made of the template: the same bytes
    for two different artworks.  The artwork and the generated
    [overlay.ps] are stored and never named on a command line. *)
Theorem overlay_artwork_ignores_artwork :
  Forall (fun f =>
    Forall (fun artwork =>
      outcome_of (run (disk_world (ghostscript sample_job))
                    (handler f overlay_artwork_ep sample_job (request_with artwork placement))
                    empty_disk)
      = Done {| status := 200;
                headers := [ ("Content-Type", "application/pdf");
                             ("Content-Disposition",
                              "attachment; filename=" +:+ quoted "printpilot-7f3c.pdf") ];
                payload := Send (buffer sample_template) |}
      /\ exec_log (trace_of (run (disk_world (ghostscript sample_job))
                              (handler f overlay_artwork_ep sample_job
                                 (request_with artwork placement))
                              empty_disk))
         = [ (ServerJs.overlayGsCmd (outputPath sample_job) (templatePath sample_job), true) ])
      [sample_artwork; other_artwork])
    [server_js; railway_api_server_js; part_000].
Proof. repeat constructor; vm_compute; reflexivity. Qed.

(** ** The cascade of the merge handlers *)

(** C2: in every run of a merge handler the strategies of its file
    ([merge_strategies]: for src/railway-api/server.js qpdf, pdftk,
    ImageMagick, copy) form a try/fallback cascade: a later strategy is
    started if and only if every earlier one raised. *)
Theorem merge_cascade f {S} (w : World S) s jobId req :
  try_fallback_cascade (merge_strategies f jobId req)
    (action_log (trace_of (run w (handler f merge_pdf_layers_ep jobId req) s))).
Proof.
  destruct f; [apply server_cascade|apply railway_cascade|apply part000_cascade].
Qed.

(* the cascade is walked to its end when the overlay tools fail *)
Lemma railway_cascade_falls_through :
  action_log (trace_of (run (disk_world no_overlay_tool)
                          (RailwayApi.merge_pdf_layers sample_job (request_with pdf_artwork []))
                          empty_disk))
  = map (fun a => (a, true))
        (firstn 4 (RailwayApiMerge.preparation sample_job (request_with pdf_artwork []) pdf_artwork))
    ++ [ (Run (RailwayApi.qpdfCmd (templatePath sample_job) (artworkPdfPath sample_job)
                 (outputPath sample_job)), false);
         (Run (RailwayApi.pdftkCmd (templatePath sample_job) (artworkPdfPath sample_job)
                 (outputPath sample_job)), false);
         (Run (RailwayApi.flattenCmd (JS.of_Z 300) (templatePath sample_job)
                 (jobDir sample_job +:+ "/template_flat.png")), false);
         (Copy (artworkPdfPath sample_job) (outputPath sample_job), true) ].
Proof. vm_compute. reflexivity. Qed.

(* in src/unnamed/part_000 the third strategy is one block: with pdftk
   and qpdf missing, Ghostscript composes and, as that went well,
   ImageMagick composes again *)
Lemma part000_ghostscript_then_imagemagick :
  action_log (trace_of (run (disk_world without_pdftk_and_qpdf)
                          (Part000.merge_pdf_layers sample_job (request_with sample_artwork []))
                          empty_disk))
  = map (fun a => (a, true))
        (firstn 3 (Part000Merge.preparation sample_job (request_with sample_artwork [])
                     sample_artwork))
    ++ [ (Run (Part000.pdftkCmd (templatePath sample_job) (artworkPdfPath sample_job)
                 (outputPath sample_job)), false);
         (Run (Part000.qpdfCmd (templatePath sample_job) (artworkPdfPath sample_job)
                 (outputPath sample_job)), false) ]
    ++ map (fun a => (a, true))
           (nth 2 (Part000Merge.strategies sample_job (request_with sample_artwork [])) []).
Proof. vm_compute. reflexivity. Qed.

(** ** The three files *)

(** C3, as stated, fails: with no tool installed the merge handlers of
    src/server.js and src/railway-api/server.js run different programs
    and answer differently. *)
Lemma merge_handlers_differ :
  ~ (forall f1 f2 ep tools d jobId req,
        map binary (commands (trace_of (run (disk_world tools) (handler f1 ep jobId req) d)))
        = map binary (commands (trace_of (run (disk_world tools) (handler f2 ep jobId req) d)))
        /\ outcome_of (run (disk_world tools) (handler f1 ep jobId req) d)
           = outcome_of (run (disk_world tools) (handler f2 ep jobId req) d)).
Proof.
  intros H.
  destruct (H server_js railway_api_server_js merge_pdf_layers_ep not_installed empty_disk
              sample_job (request_with sample_artwork [])) as [Hc _].
  vm_compute in Hc. discriminate Hc.
Qed.

Lemma merge_binaries_by_file :
  map (fun f => map binary (commands (trace_of
         (run (disk_world not_installed)
            (handler f merge_pdf_layers_ep sample_job (request_with sample_artwork []))
            empty_disk))))
      [server_js; railway_api_server_js; part_000]
  = [ ["convert"; "gs"; "gs"]; ["convert"; "convert"]; ["convert"; "gs"] ].
Proof. vm_compute. reflexivity. Qed.

(** C3, amended: the overlay-artwork and create-layered-pdf handlers are
    the same program in the three files, and so are the merge handlers on
    a request that upload validation rejects. *)
Theorem shared_handlers_agree f1 f2 ep jobId req :
  ep <> merge_pdf_layers_ep \/ uploads_present ep req = false ->
  handler f1 ep jobId req = handler f2 ep jobId req.
Proof.
  intros H. destruct ep.
  - destruct H as [H|H]; [done|]. unfold uploads_present in H.
    destruct f1, f2; try reflexivity; unfold_handlers;
      destruct (files req !! "template"); try reflexivity;
      destruct (files req !! "artwork"); try reflexivity; discriminate H.
  - destruct f1, f2; reflexivity.
  - destruct f1, f2; reflexivity.
Qed.

Lemma shared_handlers_agree_example :
  (merge_pdf_layers_ep <> merge_pdf_layers_ep
   \/ uploads_present merge_pdf_layers_ep template_only = false)
  /\ handler server_js merge_pdf_layers_ep sample_job template_only
     = handler part_000 merge_pdf_layers_ep sample_job template_only.
Proof.
  split; [right; reflexivity|].
  apply (shared_handlers_agree server_js part_000 merge_pdf_layers_ep sample_job template_only).
  right. reflexivity.
Defined.

(** ** Upload validation *)



(** ** Numeric parameters *)



(** ** Bytes *)



(** ** External programs *)

(** C7: every command run by a handler of the three files, by
    [GET /gs-version] or by the start-up check starts one of [gs],
    [convert], [qpdf] and [pdftk]. *)
Theorem only_four_binaries f r {S} (w : World S) s :
  Forall (fun c => binary c ∈ external_binaries) (commands (trace_of (run w (routine f r) s))).
Proof.
  apply Forall_commands. apply (always_run runs_known_binary), routines_run_known_binaries.
Qed.

(** ** The layer name *)


(** ** Cleanup *)


(** ** A size of zero *)


(** * Further properties of the code *)

(** ** File extensions *)

Lemma getExtension_unknown m :
  m ∉ ["image/png"; "image/jpeg"; "image/jpg"; "image/gif"; "image/webp"; "application/pdf"] ->
  ServerJs.getExtension m = ".bin".
Proof.
  intros H. unfold ServerJs.getExtension. cbn [list_to_map foldr fst snd uncurry].
  repeat (rewrite lookup_insert_ne; [|intros <-; apply H; set_solver]).
  by rewrite lookup_empty.
Qed.

(** X1: whatever mimetype the client sends, [getExtension] gives one of
    six extensions; it gives [.bin] exactly for the mimetypes that are
    not in its table and [.pdf] exactly for [application/pdf]; the three
    files have the same function. *)
Theorem getExtension_total m :
  ServerJs.getExtension m ∈ [".png"; ".jpg"; ".gif"; ".webp"; ".pdf"; ".bin"]
  /\ (ServerJs.getExtension m = ".bin"
      <-> m ∉ ["image/png"; "image/jpeg"; "image/jpg"; "image/gif"; "image/webp";
               "application/pdf"])
  /\ (ServerJs.getExtension m = ".pdf" <-> m = "application/pdf")
  /\ RailwayApi.getExtension m = ServerJs.getExtension m
  /\ Part000.getExtension m = ServerJs.getExtension m.
Proof.
  split; [apply getExtension_cases|].
  assert (Hdec : m ∈ ["image/png"; "image/jpeg"; "image/jpg"; "image/gif"; "image/webp";
                      "application/pdf"]
                 \/ m ∉ ["image/png"; "image/jpeg"; "image/jpg"; "image/gif"; "image/webp";
                         "application/pdf"]).
  { destruct (decide (m ∈ ["image/png"; "image/jpeg"; "image/jpg"; "image/gif"; "image/webp";
                           "application/pdf"])); auto. }
  split; [|split; [|done]].
  - split; [|apply getExtension_unknown].
    intros Hbin Hin.
    repeat (apply elem_of_cons in Hin as [->|Hin]; [vm_compute in Hbin; discriminate Hbin|]).
    by apply elem_of_nil in Hin.
  - split; [|by intros ->].
    intros Hpdf. destruct Hdec as [Hin|Hout].
    + repeat (apply elem_of_cons in Hin as [->|Hin];
              [first [reflexivity | vm_compute in Hpdf; discriminate Hpdf]|]).
      by apply elem_of_nil in Hin.
    + rewrite (getExtension_unknown m Hout) in Hpdf. discriminate Hpdf.
Qed.

(** ** Where the artwork is stored *)

Lemma path_join_inj dir a b : path_join dir a = path_join dir b -> a = b.
Proof.
  unfold path_join. intros H. apply String.app_inj in H. by injection H.
Qed.

(** X2: the artwork upload never takes the place of the template or of
    the output; in the merge handlers it is stored as [artwork.pdf], the
    file the conversion is to produce and the last fallback copies,
    exactly when its mimetype is [application/pdf]. *)
Theorem artwork_upload_aliases ep jobId file :
  artworkPath ep jobId file <> templatePath jobId
  /\ artworkPath ep jobId file <> outputPath jobId
  /\ (artworkPath merge_pdf_layers_ep jobId file = artworkPdfPath jobId
      <-> mimetype file = "application/pdf").
Proof.
  split; [|split].
  - destruct ep; unfold artworkPath, templatePath; intros H%path_join_inj;
      discriminate H.
  - destruct ep; unfold artworkPath, outputPath; intros H%path_join_inj;
      discriminate H.
  - unfold artworkPath, artworkPdfPath. split.
    + intros H%path_join_inj. apply getExtension_total.
      change "artwork.pdf" with ("artwork" +:+ ".pdf") in H.
      by apply String.app_inj in H.
    + intros ->. reflexivity.
Qed.

(** ** A job stays in its directory *)

Lemma prefix_app a b : String.prefix a (a +:+ b) = true.
Proof.
  induction a as [|c a IH]; cbn [String.append String.prefix]; [by destruct b|].
  destruct (ascii_dec c c); [done|congruence].
Qed.

Lemma within_join dir name : within dir (path_join dir name) = true.
Proof.
  unfold within, path_join. rewrite <- append_assoc, prefix_app. apply orb_true_r.
Qed.

Ltac in_job_dir :=
  idtac;
  unfold stays_in;
  first [ exact I | reflexivity | apply within_join | apply within_self
        | split; apply within_join ].

Lemma handlers_stay_in_job_dir f ep jobId req :
  always (stays_in (jobDir jobId)) (handler f ep jobId req).
Proof.
  destruct f, ep; unfold_handlers.
  all: always_with in_job_dir.
Qed.

(** X3: in every world, every file operation of a POST handler is on its
    job directory or on a path below it, and every command it runs has
    the job directory as working directory. *)
Theorem handlers_are_confined f ep {S} (w : World S) s jobId req :
  Forall (stays_in (jobDir jobId)) (trace_of (run w (handler f ep jobId req) s)).
Proof. apply always_run, handlers_stay_in_job_dir. Qed.

(** ** The rest of the disk *)

Lemma same_outside_refl dir d : same_outside dir d d.
Proof. by intros p _. Qed.



Lemma remove_tree_outside dir d : same_outside dir d (remove_tree dir d).
Proof.
  intros p Hp. unfold remove_tree; cbn [dirs contents]. split.
  - destruct (contents d !! p) as [x|] eqn:Hx.
    + apply map_lookup_filter_Some. split; [done|]. by cbn.
    + apply map_lookup_filter_None. by left.
  - rewrite elem_of_filter. tauto.
Qed.






(** ** Fields that reach the console only *)



(** ** Probing the tools *)



Lemma on_listen_post f {S} (w : World S) s PORT :
  post w (routine f (OnListen PORT)) s
    (fun o _ t => o = Done tt /\ commands t = ["gs --version"; "convert --version"]).
Proof.
  destruct f; unfold routine, ServerJs.on_listen, RailwayApi.on_listen, Part000.on_listen.
  all: wp_start; wp.
  all: wp_leaf; unfold commands; logs; done.
Qed.

(** X7: the start-up check never throws and probes both tools: in every
    world it runs [gs --version] and then [convert --version], also when
    the first one threw. *)
Theorem on_listen_probes_both f {S} (w : World S) s PORT :
  outcome_of (run w (routine f (OnListen PORT)) s) = Done tt
  /\ commands (trace_of (run w (routine f (OnListen PORT)) s))
     = ["gs --version"; "convert --version"].
Proof. apply (on_listen_post f w s PORT). Qed.

(** ** The temp directory *)

(** X8: in the disk world the start-up code leaves the temp directory on
    disk and no file changed; run again, it makes no directory and
    changes nothing. *)
Theorem ensure_temp_dir_idempotent tools d :
  outcome_of (run (disk_world tools) ensure_temp_dir d) = Done tt
  /\ on_disk (state_of (run (disk_world tools) ensure_temp_dir d)) ServerJs.TEMP_DIR
  /\ contents (state_of (run (disk_world tools) ensure_temp_dir d)) = contents d
  /\ run (disk_world tools) ensure_temp_dir (state_of (run (disk_world tools) ensure_temp_dir d))
     = (Done tt, state_of (run (disk_world tools) ensure_temp_dir d),
        [Obs (ExistsSync ServerJs.TEMP_DIR) true]).
Proof.
  unfold ensure_temp_dir, outcome_of, state_of, on_disk. wp_norm.
  cbn [and_then ask run react disk_world disk_react].
  destruct (exists_on d ServerJs.TEMP_DIR) eqn:Hex;
    cbn [negb perform run react disk_world disk_react fst snd contents].
  - rewrite Hex. by cbn.
  - assert (Hnow : exists_on {| dirs := {[ServerJs.TEMP_DIR]} ∪ dirs d; contents := contents d |}
                     ServerJs.TEMP_DIR = true).
    { apply exists_on_dir. cbn. set_solver. }
    rewrite Hnow. by cbn.
Qed.

(** ** Cleanup *)

Lemma cleanupJob_post f {S} (w : World S) s dir :
  post w (cleanupJob_of f dir) s
    (fun o _ t =>
       o = Done tt
       /\ (t = [Obs (ExistsSync dir) false]
           \/ t = [Obs (ExistsSync dir) true; Obs (RmSync dir) (Returned tt)]
           \/ exists e,
               t = [Obs (ExistsSync dir) true; Obs (RmSync dir) (Threw e);
                    Obs (ConsoleError [LStr "Cleanup error:"; LStr (message e)]) tt])).
Proof.
  destruct f; unfold cleanupJob_of, ServerJs.cleanupJob, RailwayApi.cleanupJob,
    Part000.cleanupJob.
  all: wp_start; wp.
  all: repeat match goal with x : unit |- _ => destruct x end.
  all: wp_leaf; (split; [reflexivity|]); cbn [app]; eauto.
Qed.

(** X9: [cleanupJob] never throws, in any world: it removes the
    directory only when [existsSync] found it, and when [rmSync] throws
    the error goes to the console and nowhere else. *)
Theorem cleanupJob_never_throws f {S} (w : World S) s dir :
  outcome_of (run w (cleanupJob_of f dir) s) = Done tt
  /\ (trace_of (run w (cleanupJob_of f dir) s) = [Obs (ExistsSync dir) false]
      \/ trace_of (run w (cleanupJob_of f dir) s)
         = [Obs (ExistsSync dir) true; Obs (RmSync dir) (Returned tt)]
      \/ exists e,
          trace_of (run w (cleanupJob_of f dir) s)
          = [Obs (ExistsSync dir) true; Obs (RmSync dir) (Threw e);
             Obs (ConsoleError [LStr "Cleanup error:"; LStr (message e)]) tt]).
Proof. apply (cleanupJob_post f w s dir). Qed.

Lemma cleanupJob_stays f dir : always (stays_in dir) (cleanupJob_of f dir).
Proof.
  destruct f; unfold cleanupJob_of, ServerJs.cleanupJob, RailwayApi.cleanupJob,
    Part000.cleanupJob; always_with in_job_dir.
Qed.

(** X10: in the disk world [cleanupJob] removes a directory that exists
    with everything below it, changes nothing outside it whatever the
    tools are, and changes nothing at all when the directory does not
    exist. *)
Theorem cleanupJob_removes_the_job_only f tools d dir :
  (exists_on d dir = true -> gone (state_of (run (disk_world tools) (cleanupJob_of f dir) d)) dir)
  /\ (exists_on d dir = false -> state_of (run (disk_world tools) (cleanupJob_of f dir) d) = d)
  /\ same_outside dir d (state_of (run (disk_world tools) (cleanupJob_of f dir) d)).
Proof.
  assert (Hrun : state_of (run (disk_world tools) (cleanupJob_of f dir) d)
                 = if exists_on d dir then remove_tree dir d else d).
  { destruct f; unfold cleanupJob_of, ServerJs.cleanupJob, RailwayApi.cleanupJob,
      Part000.cleanupJob, state_of; wp_norm;
      cbn [try_catch and_then ask run react disk_world disk_react];
      destruct (exists_on d dir);
      cbn [try_catch and_then perform run react disk_world disk_react fst snd]; done. }
  rewrite Hrun. split; [|split].
  - intros ->. apply gone_remove_tree.
  - by intros ->.
  - destruct (exists_on d dir); [apply remove_tree_outside|apply same_outside_refl].
Qed.

(** ** The shape of a response *)

Ltac shape_leaf Htf Haf :=
  wp_leaf; phase_facts;
  (eexists; split; [reflexivity|]; unfold well_formed_response, rejection_message;
   rewrite ?Htf, ?Haf; cbn [status headers payload json app];
   first
     [ left; split; [reflexivity|]; split; [reflexivity|]; eexists; reflexivity
     | right; left; split; [reflexivity|]; split; reflexivity
     | right; right; split; [reflexivity|]; split; [reflexivity|]; eexists; reflexivity ]).

Section Shapes.
Context {S : Type} (w : World S).

Ltac shapes_proof req :=
  unfold_handlers;
  destruct (files req !! "template") as [tf|] eqn:Htf;
  destruct (files req !! "artwork") as [af|] eqn:Haf;
  wp_start; wp; shape_leaf Htf Haf.

Lemma ServerJs_merge_shape s jobId req :
  post w (ServerJs.merge_pdf_layers jobId req) s
    (fun o _ _ => exists r, o = Done r /\ well_formed_response merge_pdf_layers_ep jobId req r).
Proof. shapes_proof req. Qed.

Lemma RailwayApi_merge_shape s jobId req :
  post w (RailwayApi.merge_pdf_layers jobId req) s
    (fun o _ _ => exists r, o = Done r /\ well_formed_response merge_pdf_layers_ep jobId req r).
Proof. shapes_proof req. Qed.

Lemma Part000_merge_shape s jobId req :
  post w (Part000.merge_pdf_layers jobId req) s
    (fun o _ _ => exists r, o = Done r /\ well_formed_response merge_pdf_layers_ep jobId req r).
Proof. shapes_proof req. Qed.

Lemma overlay_artwork_shape s jobId req :
  post w (ServerJs.overlay_artwork jobId req) s
    (fun o _ _ => exists r, o = Done r /\ well_formed_response overlay_artwork_ep jobId req r).
Proof. shapes_proof req. Qed.

Lemma create_layered_pdf_shape s jobId req :
  post w (ServerJs.create_layered_pdf jobId req) s
    (fun o _ _ => exists r, o = Done r
                            /\ well_formed_response create_layered_pdf_ep jobId req r).
Proof. shapes_proof req. Qed.
End Shapes.

(** X11: a POST handler never throws: in every world its run ends in a
    response, which is a PDF download (status 200 with the content type
    and the download name of the job), a rejection (status 400 with the
    message of the first missing upload) or a failure report (status 500
    with [PDF processing failed], the message of the error and, for the
    merge handlers, the job id). *)
Theorem handlers_always_answer f ep {S} (w : World S) s jobId req :
  exists r,
    outcome_of (run w (handler f ep jobId req) s) = Done r
    /\ well_formed_response ep jobId req r.
Proof.
  destruct f, ep;
    [ apply (ServerJs_merge_shape w) | apply (overlay_artwork_shape w)
    | apply (create_layered_pdf_shape w)
    | apply (RailwayApi_merge_shape w) | apply (overlay_artwork_shape w)
    | apply (create_layered_pdf_shape w)
    | apply (Part000_merge_shape w) | apply (overlay_artwork_shape w)
    | apply (create_layered_pdf_shape w) ].
Qed.

(** ** Waiting for a tool *)

Ltac has_timeout :=
  idtac;
  unfold waits_at_most; cbn [exec_of];
  first [ exact I | eexists; split; [reflexivity|]; cbn [timeout]; lia ].

Lemma limited_handlers_wait f ep jobId req :
  time_limited f ep = true ->
  always (waits_at_most 120000) (handler f ep jobId req).
Proof.
  intros H. destruct f, ep; try discriminate H; unfold_handlers.
  all: always_with has_timeout.
Qed.

(** X12: every command of the overlay and create-layered handlers, and
    of the merge handler of src/railway-api/server.js, is run with a
    timeout of at most 120 seconds. *)
Theorem limited_handlers_have_timeouts f ep {S} (w : World S) s jobId req :
  time_limited f ep = true ->
  Forall (waits_at_most 120000) (trace_of (run w (handler f ep jobId req) s)).
Proof. intros H. by apply always_run, limited_handlers_wait. Qed.

Lemma limited_handlers_have_timeouts_example :
  time_limited railway_api_server_js merge_pdf_layers_ep = true
  /\ Forall (waits_at_most 120000)
       (trace_of (run (disk_world no_overlay_tool)
                    (handler railway_api_server_js merge_pdf_layers_ep sample_job
                       (request_with pdf_artwork []))
                    empty_disk)).
Proof.
  split; [reflexivity|].
  apply (limited_handlers_have_timeouts railway_api_server_js merge_pdf_layers_ep
           (disk_world no_overlay_tool) empty_disk sample_job (request_with pdf_artwork [])).
  reflexivity.
Defined.

(* the artwork conversion of the other two merge handlers waits without
   limit *)
Lemma unlimited_conversion :
  forallb (fun f =>
    existsb has_no_timeout
      (trace_of (run (disk_world idle)
                   (handler f merge_pdf_layers_ep sample_job (request_with sample_artwork []))
                   empty_disk)))
    [server_js; part_000] = true.
Proof. vm_compute. reflexivity. Qed.

(** ** A failed conversion in src/server.js *)

(** X13: in src/server.js an ImageMagick conversion that threw does not
    stop the request: in every world, whenever a [convert] command threw,
    the Ghostscript merge is run all the same. *)
Theorem server_conversion_failure_is_swallowed {S} (w : World S) s jobId req c :
  binary c = "convert" ->
  threw (Run c) (action_log (trace_of (run w (ServerJs.merge_pdf_layers jobId req) s))) ->
  exists c', binary c' = "gs"
             /\ carried_out (Run c')
                  (action_log (trace_of (run w (ServerJs.merge_pdf_layers jobId req) s))).
Proof.
  intros Hbin Hthrew.
  pose proof (ServerJs_merge_logs w s jobId req) as H. unfold post in H.
  set (l := action_log _) in *. clearbody l.
  destruct H as [->|(af & d & _ & H)].
  { by apply elem_of_nil in Hthrew. }
  unfold ServerJsMerge.logs, ServerJsMerge.convert_step, ServerJsMerge.strategies in H.
  cbv [cascade_logs try_logs then_logs seq_logs flat_map map app fst snd] in H.
  unfold threw in Hthrew.
  exists (ServerJs.mergeCmd (outputPath jobId) (templatePath jobId) (artworkPdfPath jobId)).
  split; [reflexivity|]. unfold carried_out.
  repeat (apply elem_of_cons in H as [H|H];
          [ injection H as -> ->;
            repeat (apply elem_of_cons in Hthrew as [Hthrew|Hthrew];
                    [ first [ discriminate Hthrew
                            | injection Hthrew as ->; first [ discriminate Hbin
                                                           | eexists; solve [pick_shape] ] ]
                    |]);
            by apply elem_of_nil in Hthrew
          |]).
  by apply elem_of_nil in H.
Qed.

Lemma server_conversion_failure_is_swallowed_example :
  binary (ServerJs.convertArtworkCmd
            (artworkPath merge_pdf_layers_ep sample_job sample_artwork)
            (JS.of_Z 612) (JS.of_Z 792) (artworkPdfPath sample_job)) = "convert"
  /\ threw (Run (ServerJs.convertArtworkCmd
                   (artworkPath merge_pdf_layers_ep sample_job sample_artwork)
                   (JS.of_Z 612) (JS.of_Z 792) (artworkPdfPath sample_job)))
       (action_log (trace_of (run (disk_world not_installed)
                                (ServerJs.merge_pdf_layers sample_job
                                   (request_with sample_artwork []))
                                empty_disk)))
  /\ exists c', binary c' = "gs"
                /\ carried_out (Run c')
                     (action_log (trace_of (run (disk_world not_installed)
                                              (ServerJs.merge_pdf_layers sample_job
                                                 (request_with sample_artwork []))
                                              empty_disk))).
Proof.
  assert (Hthrew :
    threw (Run (ServerJs.convertArtworkCmd
                  (artworkPath merge_pdf_layers_ep sample_job sample_artwork)
                  (JS.of_Z 612) (JS.of_Z 792) (artworkPdfPath sample_job)))
      (action_log (trace_of (run (disk_world not_installed)
                               (ServerJs.merge_pdf_layers sample_job
                                  (request_with sample_artwork []))
                               empty_disk)))).
  { vm_compute. do 2 apply list_elem_of_further. apply list_elem_of_here. }
  split; [reflexivity|]. split; [exact Hthrew|].
  apply (server_conversion_failure_is_swallowed (disk_world not_installed) empty_disk sample_job
           (request_with sample_artwork [])
           (ServerJs.convertArtworkCmd
              (artworkPath merge_pdf_layers_ep sample_job sample_artwork)
              (JS.of_Z 612) (JS.of_Z 792) (artworkPdfPath sample_job)));
    [reflexivity|exact Hthrew].
Defined.

(** ** A failed conversion in the other two files *)

Lemma drawn_from_cascade ss : drawn_from (concat ss) (cascade_logs ss).
Proof.
  induction ss as [|s ss IH].
  - intros d l a ok Hl Ha. cbn [cascade_logs] in Hl.
    apply list_elem_of_singleton in Hl. simplify_eq. by apply elem_of_nil in Ha.
  - cbn [cascade_logs concat]. destruct ss as [|s' ss].
    + apply drawn_from_seq. cbn [concat]. rewrite app_nil_r. done.
    + apply drawn_from_try.
      * apply drawn_from_seq. intros a Ha. apply elem_of_app. by left.
      * intros d l a ok Hl Ha. apply elem_of_app. right. by eapply IH.
Qed.

Lemma not_thrown_in_all_true a s : (a, false) ∉ all_true s.
Proof. by intros [? _]%elem_of_all_true. Qed.

(** When the handler of the conversion step throws, the cascade is not
    entered. *)
Lemma fallback_threw_aborts U (ws block handler : list Action) ss d l a :
  drawn_from U (seq_logs ws) ->
  drawn_from U (try_logs (seq_logs block) (seq_logs handler)) ->
  Forall (fun b => b ∉ U) (concat ss) ->
  a ∈ U -> a ∉ block ->
  (d, l) ∈ then_logs (seq_logs ws)
             (then_logs (try_logs (seq_logs block) (seq_logs handler)) (cascade_logs ss)) ->
  threw a l ->
  absent (concat ss) l.
Proof.
  intros HA HB Hdisj HaU Hablock Hl Hthrew. unfold threw in Hthrew.
  apply then_logs_inv in Hl as [[_ Hl]|(l1 & l' & Hl1 & Hl & ->)].
  { by eapply (drawn_from_absent U (seq_logs ws)). }
  apply then_logs_inv in Hl as [[_ Hl]|(l2 & l3 & Hl2 & Hl3 & ->)].
  { apply absent_app; [by eapply (drawn_from_absent U (seq_logs ws))|].
    by eapply (drawn_from_absent U (try_logs _ _)). }
  exfalso.
  apply seq_logs_inv in Hl1 as [[_ ->]|[? _]]; [|done].
  rewrite !elem_of_app in Hthrew. destruct Hthrew as [Hin|[Hin|Hin]].
  - by apply not_thrown_in_all_true in Hin.
  - apply try_logs_inv in Hl2 as [[_ Hl2]|(m1 & m2 & Hm1 & Hm2 & ->)].
    + apply seq_logs_inv in Hl2 as [[_ ->]|[? _]]; [|done].
      by apply not_thrown_in_all_true in Hin.
    + apply seq_logs_inv in Hm2 as [[_ ->]|[? _]]; [|done].
      apply seq_logs_inv in Hm1 as [[? _]|[_ (pre & b & post & -> & ->)]]; [done|].
      rewrite !elem_of_app in Hin. destruct Hin as [[Hin|Hin]|Hin].
      * by apply not_thrown_in_all_true in Hin.
      * apply list_elem_of_singleton in Hin. simplify_eq.
        apply Hablock, elem_of_app. right. by left.
      * by apply not_thrown_in_all_true in Hin.
  - rewrite Forall_forall in Hdisj. apply (Hdisj a); [|done].
    by eapply drawn_from_cascade.
Qed.

(** X14: in src/railway-api/server.js the ImageMagick command of the
    catch block is the last attempt to convert the artwork: in every
    world, when it threw, none of the merge strategies (qpdf, pdftk, the
    ImageMagick composite, the copy) was started. *)
Theorem railway_conversion_failure_is_final {S} (w : World S) s jobId req artworkFile :
  files req !! "artwork" = Some artworkFile ->
  threw (Run (RailwayApi.convertPageCmd (artworkPath merge_pdf_layers_ep jobId artworkFile)
                (RailwayApiMerge.pageWidth req) (RailwayApiMerge.pageHeight req)
                (artworkPdfPath jobId)))
    (action_log (trace_of (run w (RailwayApi.merge_pdf_layers jobId req) s))) ->
  absent (concat (RailwayApiMerge.strategies jobId req))
    (action_log (trace_of (run w (RailwayApi.merge_pdf_layers jobId req) s))).
Proof.
  intros Hfile Hthrew.
  pose proof (RailwayApi_merge_logs w s jobId req) as H. unfold post in H.
  set (l := action_log _) in *. clearbody l.
  destruct H as [->|(af & d & Haf & H)]; [apply absent_nil|].
  rewrite Hfile in Haf. injection Haf as <-.
  refine (fallback_threw_aborts (RailwayApiMerge.preparation jobId req artworkFile)
            _ _ _ _ d l _
            (railway_drawn_writes jobId req artworkFile)
            (railway_drawn_convert jobId req artworkFile)
            (railway_strategies_apart jobId req artworkFile) _ _ H Hthrew).
  - unfold RailwayApiMerge.preparation. set_solver.
  - unfold artworkPath. destruct (getExtension_dot (mimetype artworkFile)) as [ext ->].
    rewrite !not_elem_of_cons. split_and ?; try apply not_elem_of_nil.
    all: intros Heq; unfold_commands Heq; hide_numbers Heq;
      first [ discriminate Heq | injection Heq as Heq; differ Heq ].
Qed.

Lemma railway_conversion_failure_is_final_example :
  files (request_with sample_artwork []) !! "artwork" = Some sample_artwork
  /\ threw (Run (RailwayApi.convertPageCmd
                   (artworkPath merge_pdf_layers_ep sample_job sample_artwork)
                   (RailwayApiMerge.pageWidth (request_with sample_artwork []))
                   (RailwayApiMerge.pageHeight (request_with sample_artwork []))
                   (artworkPdfPath sample_job)))
       (action_log (trace_of (run (disk_world not_installed)
                                (RailwayApi.merge_pdf_layers sample_job
                                   (request_with sample_artwork []))
                                empty_disk)))
  /\ absent (concat (RailwayApiMerge.strategies sample_job (request_with sample_artwork [])))
       (action_log (trace_of (run (disk_world not_installed)
                                (RailwayApi.merge_pdf_layers sample_job
                                   (request_with sample_artwork []))
                                empty_disk))).
Proof.
  assert (Hthrew :
    threw (Run (RailwayApi.convertPageCmd
                  (artworkPath merge_pdf_layers_ep sample_job sample_artwork)
                  (RailwayApiMerge.pageWidth (request_with sample_artwork []))
                  (RailwayApiMerge.pageHeight (request_with sample_artwork []))
                  (artworkPdfPath sample_job)))
      (action_log (trace_of (run (disk_world not_installed)
                               (RailwayApi.merge_pdf_layers sample_job
                                  (request_with sample_artwork []))
                               empty_disk)))).
  { vm_compute. do 3 apply list_elem_of_further. apply list_elem_of_here. }
  split; [reflexivity|]. split; [exact Hthrew|].
  apply (railway_conversion_failure_is_final (disk_world not_installed) empty_disk sample_job
           (request_with sample_artwork []) sample_artwork);
    [reflexivity|exact Hthrew].
Defined.

(** X15: in src/unnamed/part_000 the Ghostscript command of the catch
    block is the last attempt to convert the artwork: in every world,
    when it threw, none of the merge strategies (pdftk, qpdf, the
    composite, the copy) was started. *)
Theorem part000_conversion_failure_is_final {S} (w : World S) s jobId req artworkFile :
  files req !! "artwork" = Some artworkFile ->
  threw (Run (Part000.gsImageCmd (artworkPdfPath jobId) (path_join (jobDir jobId) "image.ps")))
    (action_log (trace_of (run w (Part000.merge_pdf_layers jobId req) s))) ->
  absent (concat (Part000Merge.strategies jobId req))
    (action_log (trace_of (run w (Part000.merge_pdf_layers jobId req) s))).
Proof.
  intros Hfile Hthrew.
  pose proof (Part000_merge_logs w s jobId req) as H. unfold post in H.
  set (l := action_log _) in *. clearbody l.
  destruct H as [->|(af & d & Haf & H)]; [apply absent_nil|].
  rewrite Hfile in Haf. injection Haf as <-.
  refine (fallback_threw_aborts (Part000Merge.preparation jobId req artworkFile)
            _ _ _ _ d l _
            (part000_drawn_writes jobId req artworkFile)
            (part000_drawn_convert jobId req artworkFile)
            (part000_strategies_apart jobId req artworkFile) _ _ H Hthrew).
  - unfold Part000Merge.preparation. set_solver.
  - unfold artworkPath. destruct (getExtension_dot (mimetype artworkFile)) as [ext ->].
    rewrite !not_elem_of_cons. split_and ?; try apply not_elem_of_nil.
    all: intros Heq; unfold_commands Heq; hide_numbers Heq;
      first [ discriminate Heq | injection Heq as Heq; differ Heq ].
Qed.

Lemma part000_conversion_failure_is_final_example :
  files (request_with sample_artwork []) !! "artwork" = Some sample_artwork
  /\ threw (Run (Part000.gsImageCmd (artworkPdfPath sample_job)
                   (path_join (jobDir sample_job) "image.ps")))
       (action_log (trace_of (run (disk_world not_installed)
                                (Part000.merge_pdf_layers sample_job
                                   (request_with sample_artwork []))
                                empty_disk)))
  /\ absent (concat (Part000Merge.strategies sample_job (request_with sample_artwork [])))
       (action_log (trace_of (run (disk_world not_installed)
                                (Part000.merge_pdf_layers sample_job
                                   (request_with sample_artwork []))
                                empty_disk))).
Proof.
  assert (Hthrew :
    threw (Run (Part000.gsImageCmd (artworkPdfPath sample_job)
                  (path_join (jobDir sample_job) "image.ps")))
      (action_log (trace_of (run (disk_world not_installed)
                               (Part000.merge_pdf_layers sample_job
                                  (request_with sample_artwork []))
                               empty_disk)))).
  { vm_compute. do 4 apply list_elem_of_further. apply list_elem_of_here. }
  split; [reflexivity|]. split; [exact Hthrew|].
  apply (part000_conversion_failure_is_final (disk_world not_installed) empty_disk sample_job
           (request_with sample_artwork []) sample_artwork);
    [reflexivity|exact Hthrew].
Defined.

(** ** Files that are stored and never read *)

Section SameButFor.
Context (hidden : list string).

Lemma same_but_for_and_then {A B} (p p' : Prog A) (f f' : A -> Prog B) :
  same_but_for hidden p p' -> (forall a, same_but_for hidden (f a) (f' a)) ->
  same_but_for hidden (and_then p f) (and_then p' f').
Proof. induction 1; intros Hf; cbn [and_then]; try constructor; auto. Qed.

Lemma same_but_for_try_catch {A} (p p' : Prog A) (h h' : JSError -> Prog A) :
  same_but_for hidden p p' -> (forall e, same_but_for hidden (h e) (h' e)) ->
  same_but_for hidden (try_catch p h) (try_catch p' h').
Proof. induction 1; intros Hh; cbn [try_catch]; try constructor; auto. Qed.

Lemma same_but_for_perform {X} (ev : Event (Result X)) :
  Forall (fun p => p ∉ hidden) (looks_at ev) -> same_but_for hidden (perform ev) (perform ev).
Proof. intros H. apply same_but_for_vis; [done|]. intros [e|x]; constructor. Qed.

Lemma same_but_for_ask {X} (ev : Event X) :
  Forall (fun p => p ∉ hidden) (looks_at ev) -> same_but_for hidden (ask ev) (ask ev).
Proof. intros H. apply same_but_for_vis; [done|]. intros r; constructor. Qed.

Lemma same_but_for_store p data data' :
  p ∈ hidden ->
  same_but_for hidden (perform (WriteFileSync p data)) (perform (WriteFileSync p data')).
Proof. intros H. apply same_but_for_write; [done|]. intros [e|x]; constructor. Qed.

Lemma agree_but_for_refl d : agree_but_for hidden d d.
Proof. by split. Qed.

Lemma apply_writes_agree ws m m' :
  (forall p, p ∉ hidden -> m !! p = m' !! p) ->
  forall p, p ∉ hidden -> apply_writes ws m !! p = apply_writes ws m' !! p.
Proof.
  unfold apply_writes. revert m m'.
  induction ws as [|[q data] ws IH]; intros m m' Hm p Hp; cbn [fold_left]; [by apply Hm|].
  apply IH; [|done]. intros p' Hp'. cbn [fst snd].
  destruct (decide (q = p')) as [->|Hne]; [by rewrite !lookup_insert_eq|].
  rewrite !lookup_insert_ne by done. by apply Hm.
Qed.

Lemma remove_tree_agree dir d d' :
  agree_but_for hidden d d' -> agree_but_for hidden (remove_tree dir d) (remove_tree dir d').
Proof.
  intros [Hd Hc]. unfold remove_tree. split; cbn [dirs contents]; [by rewrite Hd|].
  intros p Hp. specialize (Hc p Hp).
  destruct (contents d !! p) as [x|] eqn:Hx.
  - destruct (decide (within dir p = false)) as [Hw|Hw].
    + rewrite (map_lookup_filter_Some_2 _ _ p x Hx) by done.
      symmetry. by apply map_lookup_filter_Some_2.
    + transitivity (@None (list byte)); [|symmetry];
        apply map_lookup_filter_None; right; intros y Hy; simplify_eq; by cbn.
  - transitivity (@None (list byte)); [|symmetry]; apply map_lookup_filter_None; by left.
Qed.

(* one effect, answered by two disks that agree *)
Lemma disk_react_agree tools {X} (ev : Event X) d d' :
  blind_to hidden tools -> agree_but_for hidden d d' ->
  Forall (fun p => p ∉ hidden) (looks_at ev) ->
  (disk_react tools X ev d).1 = (disk_react tools X ev d').1
  /\ agree_but_for hidden (disk_react tools X ev d).2 (disk_react tools X ev d').2.
Proof.
  intros Hblind [Hd Hc] Hev.
  destruct ev; cbn [disk_react looks_at fst snd] in *.
  - split; [done|]. split; cbn [dirs contents]; [by rewrite Hd|done].
  - split; [done|]. split; cbn [dirs contents]; [done|]. intros p Hp.
    destruct (decide (path = p)) as [->|Hne]; [by rewrite !lookup_insert_eq|].
    rewrite !lookup_insert_ne by done. by apply Hc.
  - apply Forall_inv in Hev. split; [|by split].
    unfold exists_on. by rewrite Hd, (Hc path Hev).
  - apply Forall_inv in Hev. rewrite <- (Hc path Hev).
    destruct (contents d !! path); cbn [fst snd]; (split; [done|by split]).
  - apply Forall_inv in Hev. rewrite <- (Hc src Hev).
    destruct (contents d !! src); cbn [fst snd]; (split; [done|]); [|by split].
    split; cbn [dirs contents]; [done|]. intros p Hp.
    destruct (decide (dest = p)) as [->|Hne]; [by rewrite !lookup_insert_eq|].
    rewrite !lookup_insert_ne by done. by apply Hc.
  - split; [done|]. by apply remove_tree_agree.
  - rewrite (Hblind command opts (contents d) (contents d') Hc). split; [done|].
    split; cbn [dirs contents]; [done|]. by apply apply_writes_agree.
  - split; [done|by split].
  - split; [done|by split].
  - split; [done|by split].
Qed.

Lemma same_but_for_run tools {A} (p p' : Prog A) d d' :
  blind_to hidden tools -> same_but_for hidden p p' -> agree_but_for hidden d d' ->
  outcome_of (run (disk_world tools) p d) = outcome_of (run (disk_world tools) p' d')
  /\ exec_log (trace_of (run (disk_world tools) p d))
     = exec_log (trace_of (run (disk_world tools) p' d'))
  /\ agree_but_for hidden (state_of (run (disk_world tools) p d))
       (state_of (run (disk_world tools) p' d')).
Proof.
  unfold outcome_of, state_of, trace_of, exec_log. intros Hblind H. revert d d'.
  induction H as [a|e|X ev k k' Hev _ IH|q data data' k k' Hq _ IH]; intros d d' Hdd';
    cbn [run]; [done..| |].
  - destruct (disk_react_agree tools ev d d' Hblind Hdd' Hev) as [Hr Hs].
    cbn [react disk_world].
    destruct (disk_react tools X ev d) as [r d1], (disk_react tools X ev d') as [r' d1'].
    cbn [fst snd] in *. subst r'. specialize (IH r d1 d1' Hs).
    destruct (run (disk_world tools) (k r) d1) as [[o1 s1] t1],
             (run (disk_world tools) (k' r) d1') as [[o2 s2] t2].
    cbn [fst snd] in *. destruct IH as (-> & Ht & Hst). split; [done|]. split; [|done].
    cbn [omap list_omap]. by rewrite Ht.
  - cbn [react disk_world disk_react].
    assert (Hs : agree_but_for hidden
                   {| dirs := dirs d; contents := <[q := data]> (contents d) |}
                   {| dirs := dirs d'; contents := <[q := data']> (contents d') |}).
    { destruct Hdd' as [Hd Hc]. split; cbn [dirs contents]; [done|]. intros p Hp.
      rewrite !lookup_insert_ne by (intros ->; done). by apply Hc. }
    specialize (IH (Returned tt) _ _ Hs).
    destruct (run (disk_world tools) (k (Returned ())) _) as [[o1 s1] t1],
             (run (disk_world tools) (k' (Returned ())) _) as [[o2 s2] t2].
    cbn [fst snd] in *. destruct IH as (-> & Ht & Hst). split; [done|]. split; [|done].
    by cbn [omap list_omap exec_of].
Qed.
End SameButFor.

Lemma length_append a b : String.length (a +:+ b) = (String.length a + String.length b)%nat.
Proof. induction a as [|c a IH]; cbn [String.append String.length]; [done|]. by rewrite IH. Qed.

Lemma path_join_below dir name : dir <> path_join dir name.
Proof.
  unfold path_join. intros H. apply (f_equal String.length) in H.
  rewrite length_append in H. cbn [String.append String.length] in H. lia.
Qed.

Ltac not_hidden :=
  cbn [looks_at]; repeat constructor;
  unfold overlay_unread, layered_unread;
  rewrite ?not_elem_of_cons; repeat split; try apply not_elem_of_nil;
  first [ apply path_join_below
        | let H := fresh "H" in intros H%path_join_inj; discriminate H ].

Ltac same_but_for_steps :=
  repeat (wp_norm; unfold_phases;
    lazymatch goal with
    | |- same_but_for _ (Ret _) (Ret _) => apply same_but_for_ret
    | |- same_but_for _ (Throw _) (Throw _) => apply same_but_for_throw
    | |- same_but_for _ (and_then _ _) (and_then _ _) =>
        apply same_but_for_and_then; [|intros ?]
    | |- same_but_for _ (try_catch _ _) (try_catch _ _) =>
        apply same_but_for_try_catch; [|intros ?]
    | |- same_but_for _ (perform (WriteFileSync ?p ?a)) (perform (WriteFileSync ?p ?b)) =>
        first [ constr_eq a b; apply same_but_for_perform; constructor
              | apply same_but_for_store;
                unfold overlay_unread, layered_unread; solve [pick_shape] ]
    | |- same_but_for _ (perform ?ev) (perform ?ev) => apply same_but_for_perform; not_hidden
    | |- same_but_for _ (ask ?ev) (ask ?ev) => apply same_but_for_ask; not_hidden
    | |- same_but_for _ (match ?x with _ => _ end) _ => destruct x
    end).


Lemma layered_same_but_for jobId req req' :
  body req' = body req ->
  (is_Some (files req' !! "artwork") <-> is_Some (files req !! "artwork")) ->
  (is_Some (files req' !! "template") <-> is_Some (files req !! "template")) ->
  same_but_for (layered_unread jobId)
    (ServerJs.create_layered_pdf jobId req) (ServerJs.create_layered_pdf jobId req').
Proof.
  intros Hbody Haf Htf. unfold ServerJs.create_layered_pdf. rewrite Hbody.
  destruct (files req !! "template") as [tf|], (files req' !! "template") as [tf'|];
    try (exfalso; destruct Htf as [H1 H2];
         first [ by destruct H1 as [? ?] | by destruct H2 as [? ?] ]).
  all: destruct (files req !! "artwork") as [af|], (files req' !! "artwork") as [af'|];
    try (exfalso; destruct Haf as [H1 H2];
         first [ by destruct H1 as [? ?] | by destruct H2 as [? ?] ]).
  all: same_but_for_steps.
Qed.

(** ** What the overlay and create-layered handlers do with the uploads *)




(** X17: the answer of the create-layered handler does not depend on
    the bytes of the uploads.  With tools whose answer does not depend
    on [artwork.png] and [template.pdf], two requests with the same form
    fields, both or neither with an artwork and both or neither with a
    template, get the same response after the same commands. *)
Theorem create_layered_ignores_uploaded_bytes f tools d jobId req req' :
  blind_to (layered_unread jobId) tools ->
  body req' = body req ->
  (is_Some (files req' !! "artwork") <-> is_Some (files req !! "artwork")) ->
  (is_Some (files req' !! "template") <-> is_Some (files req !! "template")) ->
  outcome_of (run (disk_world tools) (handler f create_layered_pdf_ep jobId req) d)
  = outcome_of (run (disk_world tools) (handler f create_layered_pdf_ep jobId req') d)
  /\ exec_log (trace_of (run (disk_world tools) (handler f create_layered_pdf_ep jobId req) d))
     = exec_log (trace_of (run (disk_world tools)
                             (handler f create_layered_pdf_ep jobId req') d)).
Proof.
  intros Hblind Hbody Haf Htf.
  assert (H : same_but_for (layered_unread jobId)
                (handler f create_layered_pdf_ep jobId req)
                (handler f create_layered_pdf_ep jobId req')).
  { destruct f; by apply layered_same_but_for. }
  destruct (same_but_for_run _ tools _ _ d d Hblind H (agree_but_for_refl _ d)) as (Ho & Hc & _).
  by split.
Qed.

Lemma create_layered_ignores_uploaded_bytes_example :
  blind_to (layered_unread sample_job) idle
  /\ body (request_with other_artwork placement) = body (request_with sample_artwork placement)
  /\ (is_Some (files (request_with other_artwork placement) !! "artwork")
      <-> is_Some (files (request_with sample_artwork placement) !! "artwork"))
  /\ (is_Some (files (request_with other_artwork placement) !! "template")
      <-> is_Some (files (request_with sample_artwork placement) !! "template"))
  /\ outcome_of (run (disk_world idle)
                   (handler part_000 create_layered_pdf_ep sample_job
                      (request_with sample_artwork placement))
                   empty_disk)
     = outcome_of (run (disk_world idle)
                     (handler part_000 create_layered_pdf_ep sample_job
                        (request_with other_artwork placement))
                     empty_disk)
  /\ exec_log (trace_of (run (disk_world idle)
                           (handler part_000 create_layered_pdf_ep sample_job
                              (request_with sample_artwork placement))
                           empty_disk))
     = exec_log (trace_of (run (disk_world idle)
                             (handler part_000 create_layered_pdf_ep sample_job
                                (request_with other_artwork placement))
                             empty_disk)).
Proof.
  assert (Hblind : blind_to (layered_unread sample_job) idle) by (intros c o fs fs' _; reflexivity).
  assert (Haf : is_Some (files (request_with other_artwork placement) !! "artwork")
                <-> is_Some (files (request_with sample_artwork placement) !! "artwork")).
  { split; intros _; by eexists. }
  assert (Htf : is_Some (files (request_with other_artwork placement) !! "template")
                <-> is_Some (files (request_with sample_artwork placement) !! "template")).
  { split; intros _; by eexists. }
  split; [exact Hblind|]. split; [reflexivity|]. split; [exact Haf|]. split; [exact Htf|].
  apply (create_layered_ignores_uploaded_bytes part_000 idle empty_disk sample_job
           (request_with sample_artwork placement) (request_with other_artwork placement));
    [exact Hblind|reflexivity|exact Haf|exact Htf].
Defined.
